(** * NetGuardian: the native traffic analyzer and the chart renderer

    A shallow embedding of [traffic_analyzer.cpp] and [render_manager.cpp].

    - A C++ [double] is a primitive binary64 [float]; a C++ [float] is a
      [spec_float] computed at precision 24 (binary32).
    - The file-scope globals of the analyzer form the record
      [TrafficAnalyzer.State]; every entry point takes the state and the
      reading of [steady_clock::now()] and returns the new state with the
      value handed back to JS.
    - The calls [RenderManager::DrawFrame] makes into the drawing and window
      libraries are recorded as a trace of [event]s; what the platform
      answers (buffer request, mapping, stride) is the [FrameEnv] argument.
    - Threads calling into the renderer are interleaved by the step relation
      of [Scheduler]. *)

From Stdlib Require Import ZArith List Bool Lia QArith Qround Floats.
Import ListNotations.

Set Warnings "-inexact-float".

(* ================================================================== *)
(** * Numbers of the C++ code *)
(* ================================================================== *)

Module Numeric.

Open Scope float_scope.

(** [static_cast<double>(n)] for an integer [n]: the nearest binary64 value,
    ties to even. *)
Definition double_of_Z (z : Z) : float :=
  SF2Prim (binary_normalize prec emax z 0 false).

(** The exact rational value of a finite double; [None] for an infinity
    or a NaN. *)
Definition SF_value (x : spec_float) : option Q :=
  match x with
  | S754_zero _ => Some (0 # 1)%Q
  | S754_finite s m e =>
      let n := ((if s then Z.neg m else Z.pos m) * 2 ^ Z.max e 0)%Z in
      Some (Qmake n (Z.to_pos (2 ^ Z.max (- e) 0)))
  | S754_infinity _ => None
  | S754_nan => None
  end.

Definition double_value (x : float) : option Q := SF_value (Prim2SF x).

(** Discarding the fractional part. *)
Definition Qtrunc (q : Q) : Z := Z.quot (Qnum q) (Zpos (Qden q)).

Definition SIZE_MAX : Z := 2 ^ 64 - 1.

(** [static_cast<size_t>(x)] for a double [x]: the value with its fractional
    part discarded when that fits [size_t]; the conversion is undefined
    ([None]) otherwise. *)
Definition static_cast_size_t (x : float) : option Z :=
  match double_value x with
  | Some q =>
      let t := Qtrunc q in
      if (0 <=? t)%Z && (t <=? SIZE_MAX)%Z then Some t else None
  | None => None
  end.

(** ** When dividing by 1024 is exact *)

(** 1024.0 as a binary64 value: mantissa 2^52, exponent -42. *)
Definition kilo : spec_float := S754_finite false 4503599627370496 (-42).

(** A normal double (53 significant bits) whose exponent leaves room for a
    division by 2^10 above the smallest normal exponent -1074. *)
Definition normal_with_room (x : spec_float) : bool :=
  match x with
  | S754_finite _ m e => (Z.pos (digits2_pos m) =? 53)%Z && (-1063 <=? e)%Z
  | _ => false
  end.

(** [x] lies in [2^(magnitude x - 1), 2^(magnitude x)). *)
Definition magnitude (x : spec_float) : Z :=
  match x with
  | S754_finite _ m e => (Z.pos (digits2_pos m) + e)%Z
  | _ => 0%Z
  end.

Definition is_finite_nonzero (x : spec_float) : bool :=
  match x with S754_finite _ _ _ => true | _ => false end.

(** The operands for which scaling [x / d] by 1024 loses nothing: [d] is
    finite and not zero, and [x] is zero, or [x] and [x / d] are normal
    doubles with that room and the quotient is far from underflow. *)
Definition kilo_exact (x d : float) : bool :=
  match Prim2SF x with
  | S754_zero _ => is_finite_nonzero (Prim2SF d)
  | _ =>
      normal_with_room (Prim2SF x) && is_finite_nonzero (Prim2SF d)
      && normal_with_room (Prim2SF (x / d))
      && (-1011 <=? magnitude (Prim2SF x) - magnitude (Prim2SF d))%Z
  end.

(** ** Signs *)

(** A number that is not below zero: a zero, a positive finite double or
    the positive infinity. *)
Definition SFnonneg (x : spec_float) : bool :=
  match x with
  | S754_zero _ => true
  | S754_infinity s => negb s
  | S754_finite s _ _ => negb s
  | S754_nan => false
  end.

(** A finite double above zero. *)
Definition SFpositive (x : spec_float) : bool :=
  match x with S754_finite false _ _ => true | _ => false end.

(** A number that is not below zero, or a NaN. *)
Definition SFnot_negative (x : spec_float) : bool :=
  match x with S754_nan => true | _ => SFnonneg x end.

(** ** binary32, the C++ [float] *)

Definition float32 : Type := spec_float.

Definition prec32 : Z := 24.
Definition emax32 : Z := 128.

Definition f32_of_Z (z : Z) : float32 := binary_normalize prec32 emax32 z 0 false.
Definition f32_mul : float32 -> float32 -> float32 := SFmul prec32 emax32.
Definition f32_div : float32 -> float32 -> float32 := SFdiv prec32 emax32.

(** [static_cast<float>(d)] for a double [d]. *)
Definition f32_of_double (d : float) : float32 :=
  match Prim2SF d with
  | S754_finite s m e =>
      binary_normalize prec32 emax32 (if s then Z.neg m else Z.pos m) e s
  | x => x
  end.

End Numeric.

(* ================================================================== *)
(** * traffic_analyzer.cpp *)
(* ================================================================== *)

Module TrafficAnalyzer.

Import Numeric.
Open Scope float_scope.

(** A reading of [std::chrono::steady_clock], in its ticks (nanoseconds). *)
Definition time_point : Type := Z.

(** [duration_cast<microseconds>(d).count()]. *)
Definition duration_cast_us (d : Z) : Z := Z.quot d 1000.

Definition WINDOW_SIZE : nat := 100.
Definition MIN_CALC_INTERVAL_US : Z := 100000.

(** The globals of the file. [g_speedWindow] is the deque, front first.
    [g_sampleCount] is an [int] that only ever grows by one per computed
    tick, at most ten times a second; it is kept as an integer without a
    bound. *)
Record State : Type := mkState {
  g_speedWindow : list float;
  g_totalBytes : float;
  g_lastPacketTime : time_point;
  g_isFirstPacket : bool;
  g_accumulatedBytes : float;
  g_globalMax : float;
  g_globalAvgKbps : float;
  g_globalMin : float;
  g_sessionStartTime : time_point;
  g_sampleCount : Z
}.

(** The globals as their initializers leave them when the module is loaded. *)
Definition fresh : State :=
  {| g_speedWindow := [];
     g_totalBytes := 0;
     g_lastPacketTime := 0%Z;
     g_isFirstPacket := true;
     g_accumulatedBytes := 0;
     g_globalMax := 0;
     g_globalAvgKbps := 0;
     g_globalMin := -1.0;
     g_sessionStartTime := 0%Z;
     g_sampleCount := 0%Z |}.

(** The object [CreateResultObject] builds. *)
Record Snapshot : Type := mkSnapshot {
  instantKbps : float;
  maxKbps : float;
  minKbps : float;
  avgKbps : float;
  jitter : float;
  totalBytes : float
}.

(** What an entry point hands back to JS: [nullptr], [nullptr] with a
    TypeError pending, the empty object of the first packet, or the object of
    [CreateResultObject]. *)
Inductive napi_value : Type :=
| JsNull
| JsTypeError
| JsEmptyObject
| JsResult (r : Snapshot).

(** What JS passes in. *)
Inductive js_value : Type :=
| JsNumber (d : float)
| JsArrayBuffer (byteLength : Z)
| JsOther.

Definition ResetState (s : State) (now : time_point) : State :=
  {| g_speedWindow := [];
     g_totalBytes := 0;
     g_lastPacketTime := now;
     g_isFirstPacket := true;
     g_accumulatedBytes := 0;
     g_globalMax := 0;
     g_globalAvgKbps := g_globalAvgKbps s;
     g_globalMin := -1.0;
     g_sessionStartTime := now;
     g_sampleCount := 0%Z |}.

(** [std::accumulate(w.begin(), w.end(), 0.0)]. *)
Definition accumulate (w : list float) : float :=
  fold_left (fun acc v => acc + v) w 0.

(** [w.size()] used as a double. *)
Definition size_as_double (w : list float) : float :=
  double_of_Z (Z.of_nat (length w)).

Definition sum_sq_diff (w : list float) (mean : float) : float :=
  fold_left (fun acc val => let diff := val - mean in acc + diff * diff) w 0.

Definition CalculateJitter (window : list float) (mean : float) : float :=
  if (length window <? 2)%nat then 0
  else sqrt (sum_sq_diff window mean / size_as_double window).

Definition CreateResultObject (instant max min avg jit total : float) : napi_value :=
  JsResult {| instantKbps := instant; maxKbps := max; minKbps := min;
              avgKbps := avg; jitter := jit; totalBytes := total |}.

(** [g_globalMin < 0 ? 0 : g_globalMin]. *)
Definition reported_min (m : float) : float := if m <? 0 then 0 else m.

(** [if (w.size() >= WINDOW_SIZE) w.pop_front(); w.push_back(v);]. *)
Definition push_window (w : list float) (v : float) : list float :=
  (if (WINDOW_SIZE <=? length w)%nat then tl w else w) ++ [v].

Definition ProcessTrafficCore (s : State) (now : time_point) (byteLength : Z)
  : State * napi_value :=
  let total := g_totalBytes s + double_of_Z byteLength in
  let accumulated := g_accumulatedBytes s + double_of_Z byteLength in
  if g_isFirstPacket s then
    ({| g_speedWindow := g_speedWindow s;
        g_totalBytes := total;
        g_lastPacketTime := now;
        g_isFirstPacket := false;
        g_accumulatedBytes := accumulated;
        g_globalMax := g_globalMax s;
        g_globalAvgKbps := g_globalAvgKbps s;
        g_globalMin := g_globalMin s;
        g_sessionStartTime := now;
        g_sampleCount := g_sampleCount s |},
     JsEmptyObject)
  else
    let duration_us := duration_cast_us (now - g_lastPacketTime s) in
    if (duration_us <? MIN_CALC_INTERVAL_US)%Z then
      let w := g_speedWindow s in
      let lastInstant := match w with [] => 0 | _ => last w 0 end in
      let windowSum := accumulate w in
      let windowAvg := match w with [] => 0 | _ => windowSum / size_as_double w end in
      let lastJitter := CalculateJitter w windowAvg in
      ({| g_speedWindow := w;
          g_totalBytes := total;
          g_lastPacketTime := g_lastPacketTime s;
          g_isFirstPacket := g_isFirstPacket s;
          g_accumulatedBytes := accumulated;
          g_globalMax := g_globalMax s;
          g_globalAvgKbps := g_globalAvgKbps s;
          g_globalMin := g_globalMin s;
          g_sessionStartTime := g_sessionStartTime s;
          g_sampleCount := g_sampleCount s |},
       CreateResultObject lastInstant (g_globalMax s) (reported_min (g_globalMin s))
         (g_globalAvgKbps s) lastJitter total)
    else
      let duration_sec := double_of_Z duration_us / 1000000.0 in
      let currentBits := accumulated * 8.0 in
      let instant := (currentBits / duration_sec) / 1024.0 in
      let newMax := if g_globalMax s <? instant then instant else g_globalMax s in
      let count := (g_sampleCount s + 1)%Z in
      let newMin :=
        if (5 <? count)%Z then
          if (g_globalMin s <? 0) || (instant <? g_globalMin s) then instant
          else g_globalMin s
        else g_globalMin s in
      let total_us := duration_cast_us (now - g_sessionStartTime s) in
      let total_sec := double_of_Z total_us / 1000000.0 in
      let globalAvgKbps :=
        if 0 <? total_sec then (total * 8.0 / 1024.0) / total_sec else 0 in
      let w := push_window (g_speedWindow s) instant in
      let winSum := accumulate w in
      let jit := CalculateJitter w (winSum / size_as_double w) in
      ({| g_speedWindow := w;
          g_totalBytes := total;
          g_lastPacketTime := now;
          g_isFirstPacket := g_isFirstPacket s;
          g_accumulatedBytes := 0;
          g_globalMax := newMax;
          g_globalAvgKbps := globalAvgKbps;
          g_globalMin := newMin;
          g_sessionStartTime := g_sessionStartTime s;
          g_sampleCount := count |},
       CreateResultObject instant newMax (reported_min newMin) globalAvgKbps jit total).

(** [analyzeTraffic(buffer)]: a type error is thrown for anything that is
    not an ArrayBuffer, and the globals are not touched. *)
Definition AnalyzeTraffic (s : State) (now : time_point) (arg : js_value)
  : State * napi_value :=
  match arg with
  | JsArrayBuffer byteLength => ProcessTrafficCore s now byteLength
  | _ => (s, JsTypeError)
  end.

(** [analyzeLength(byteLength)]: [napi_get_value_double] fails on anything
    that is not a Number; a Number goes through [static_cast<size_t>].
    [None] stands for undefined behaviour of that conversion. *)
Definition AnalyzeLength (s : State) (now : time_point) (arg : js_value)
  : option (State * napi_value) :=
  match arg with
  | JsNumber len =>
      match static_cast_size_t len with
      | Some n => Some (ProcessTrafficCore s now n)
      | None => None
      end
  | _ => Some (s, JsNull)
  end.

(** A session as a list of calls. *)
Inductive call : Type :=
| CallPacket (now : time_point) (byteLength : Z)
| CallReset (now : time_point).

Definition do_call (s : State) (c : call) : State * napi_value :=
  match c with
  | CallPacket now n => ProcessTrafficCore s now n
  | CallReset now => (ResetState s now, JsNull)
  end.

(** The state after a list of calls, and the values they returned. *)
Fixpoint exec (s : State) (cs : list call) : State :=
  match cs with
  | [] => s
  | c :: cs' => exec (fst (do_call s c)) cs'
  end.

Fixpoint run (s : State) (cs : list call) : list napi_value :=
  match cs with
  | [] => []
  | c :: cs' => snd (do_call s c) :: run (fst (do_call s c)) cs'
  end.

(** The snapshots among the returned values, in order. *)
Fixpoint snapshots (vs : list napi_value) : list Snapshot :=
  match vs with
  | [] => []
  | JsResult r :: rest => r :: snapshots rest
  | _ :: rest => snapshots rest
  end.

(** A session without a reset: packets given by arrival time and size. *)
Definition packets (evs : list (time_point * Z)) : list call :=
  map (fun e => CallPacket (fst e) (snd e)) evs.

(** Each element is [<=] the next one. *)
Fixpoint nondecreasing (l : list float) : bool :=
  match l with
  | a :: (b :: _) as rest => (a <=? b) && nondecreasing rest
  | _ => true
  end.

(** What every reachable state satisfies: the maximum is a number, and the
    minimum still holds its sentinel while at most five ticks were computed. *)
Definition extremes_ok (s : State) : Prop :=
  (g_globalMax s <=? g_globalMax s) = true
  /\ (0 <= g_sampleCount s)%Z
  /\ ((g_sampleCount s <= 5)%Z -> g_globalMin s = -1.0).

(** A packet the platform can deliver: the clock reading is a non-negative
    64-bit count of ticks and the size is a [size_t]. *)
Definition valid_packet (e : time_point * Z) : bool :=
  (0 <=? fst e)%Z && (fst e <? 2 ^ 63)%Z && (0 <=? snd e)%Z && (snd e <=? SIZE_MAX)%Z.

(** What every state reached by such packets satisfies besides: the pending
    bytes are a number that is not negative, the last-packet time is a clock
    reading, and from the sixth tick on the minimum is a number that is not
    negative. *)
Definition session_ok (s : State) : Prop :=
  extremes_ok s
  /\ (0 <=? g_accumulatedBytes s) = true
  /\ (0 <= g_lastPacketTime s < 2 ^ 63)%Z
  /\ ((6 <= g_sampleCount s)%Z -> (0 <=? g_globalMin s) = true).

(** Two states that differ at most in the two timestamps. *)
Definition same_but_timestamps (a b : State) : Prop :=
  g_speedWindow a = g_speedWindow b
  /\ g_totalBytes a = g_totalBytes b
  /\ g_isFirstPacket a = g_isFirstPacket b
  /\ g_accumulatedBytes a = g_accumulatedBytes b
  /\ g_globalMax a = g_globalMax b
  /\ g_globalAvgKbps a = g_globalAvgKbps b
  /\ g_globalMin a = g_globalMin b
  /\ g_sampleCount a = g_sampleCount b.

(** ** Sample sessions *)

(** A first packet at 0 ms and 1000 bytes more at 200 ms, which is the first
    computed tick. *)
Definition running : State :=
  exec fresh [CallPacket 0%Z 1000%Z; CallPacket 200000000%Z 1000%Z].

(** Only the first packet, at 0 ms. *)
Definition started : State := exec fresh [CallPacket 0%Z 1000%Z].

(** Seven packets of 1000 bytes, 100 ms apart: six computed ticks. *)
Definition seven_packets : list (time_point * Z) :=
  map (fun k => ((Z.of_nat k * 100000000)%Z, 1000%Z)) (seq 0 7).

(** ** The statistics as the specification words them *)

(** The samples of a window added up, one after the other, onto [acc]. *)
Fixpoint sum_onto (acc : float) (w : list float) : float :=
  match w with
  | [] => acc
  | v :: rest => sum_onto (acc + v) rest
  end.

(** The number of samples of a window, as a double. *)
Definition sample_count (w : list float) : float := double_of_Z (Z.of_nat (length w)).

(** The mean of a window: the sum of its samples over their number. *)
Definition window_mean (w : list float) : float := sum_onto 0 w / sample_count w.

(** The squares of the deviations from [mean], added up onto [acc]. *)
Fixpoint squared_deviations_onto (acc mean : float) (w : list float) : float :=
  match w with
  | [] => acc
  | v :: rest => squared_deviations_onto (acc + (v - mean) * (v - mean)) mean rest
  end.

(** Population standard deviation of a window around its own mean: the
    root of the mean squared deviation from [window_mean], the divisor being
    the number of samples and not one less. *)
Definition population_stddev (w : list float) : float :=
  sqrt (squared_deviations_onto 0 (window_mean w) w / sample_count w).

(** ** Sessions with resets *)

(** The sizes of the packets of a session, in order. *)
Definition sizes (cs : list call) : list Z :=
  flat_map (fun c => match c with CallPacket _ n => [n] | CallReset _ => [] end) cs.

Definition is_reset (c : call) : bool :=
  match c with CallReset _ => true | CallPacket _ _ => false end.

(** The sizes of the packets of the current session, that is, since the
    last reset; [acc] holds those received before the calls. *)
Fixpoint session_sizes (acc : list Z) (cs : list call) : list Z :=
  match cs with
  | [] => acc
  | CallPacket _ n :: rest => session_sizes (acc ++ [n]) rest
  | CallReset _ :: rest => session_sizes [] rest
  end.

(** The sum of a list of sizes. *)
Definition total_size (l : list Z) : Z := fold_right Z.add 0%Z l.

(** A call the platform can make: the clock reading is a non-negative 64-bit
    count of ticks, and the size of a packet is a [size_t]. *)
Definition valid_call (c : call) : bool :=
  match c with
  | CallPacket now n => valid_packet (now, n)
  | CallReset now => (0 <=? now)%Z && (now <? 2 ^ 63)%Z
  end.

(** A returned value with its average left out. *)
Definition forget_avg (v : napi_value) : napi_value :=
  match v with
  | JsResult r =>
      JsResult {| instantKbps := instantKbps r; maxKbps := maxKbps r;
                  minKbps := minKbps r; avgKbps := 0; jitter := jitter r;
                  totalBytes := totalBytes r |}
  | _ => v
  end.

(** The rates and the total of a snapshot are numbers that are not negative. *)
Definition nonneg_snapshot (r : Snapshot) : bool :=
  (0 <=? instantKbps r) && (0 <=? maxKbps r) && (0 <=? minKbps r)
  && (0 <=? avgKbps r) && (0 <=? totalBytes r).

(** What every state reached by such calls satisfies: the session did not
    start after the last computed tick, the counters, the maximum, the stored
    average and the samples of the window are numbers that are not negative,
    and the minimum is its sentinel or such a number. *)
Definition rates_ok (s : State) : Prop :=
  (0 <= g_sessionStartTime s <= g_lastPacketTime s)%Z
  /\ (g_lastPacketTime s < 2 ^ 63)%Z
  /\ (0 <=? g_accumulatedBytes s) = true
  /\ (0 <=? g_totalBytes s) = true
  /\ (0 <=? g_globalMax s) = true
  /\ (0 <=? g_globalAvgKbps s) = true
  /\ (g_globalMin s = -1.0 \/ (0 <=? g_globalMin s) = true)
  /\ forallb (fun v => 0 <=? v) (g_speedWindow s) = true.

(** The extremes of a snapshot bracket its instantaneous rate. *)
Definition bracketed (r : Snapshot) : bool :=
  (minKbps r <=? instantKbps r) && (instantKbps r <=? maxKbps r).

(** What makes them do so: the minimum holds its sentinel while at most five
    ticks were computed or the window is empty, and otherwise the last
    sample of the window is not above the maximum nor below a minimum that
    was written. *)
Definition bracket_ok (s : State) : Prop :=
  ((g_sampleCount s <= 5)%Z -> g_globalMin s = -1.0)
  /\ (0 <= g_sampleCount s)%Z
  /\ match g_speedWindow s with
     | [] => g_globalMin s = -1.0
     | _ :: _ =>
         (last (g_speedWindow s) 0 <=? g_globalMax s) = true
         /\ (g_globalMin s = -1.0
             \/ (g_globalMin s <=? last (g_speedWindow s) 0) = true)
     end.

(** Two states that answer alike but for the stored average: they agree on
    everything but the average and, before the first packet, the timestamps;
    once a tick was computed, which takes a first packet, they agree on the
    average too. *)
Definition same_session (a b : State) : Prop :=
  g_speedWindow a = g_speedWindow b
  /\ g_totalBytes a = g_totalBytes b
  /\ g_isFirstPacket a = g_isFirstPacket b
  /\ g_accumulatedBytes a = g_accumulatedBytes b
  /\ g_globalMax a = g_globalMax b
  /\ g_globalMin a = g_globalMin b
  /\ g_sampleCount a = g_sampleCount b
  /\ (g_isFirstPacket a = false ->
        g_lastPacketTime a = g_lastPacketTime b
        /\ g_sessionStartTime a = g_sessionStartTime b)
  /\ ((0 < g_sampleCount a)%Z ->
        g_globalAvgKbps a = g_globalAvgKbps b /\ g_isFirstPacket a = false).

End TrafficAnalyzer.

(* ================================================================== *)
(** * render_manager.cpp *)
(* ================================================================== *)

Module RenderManager.

Import Numeric.
Open Scope float_scope.

Definition MAX_HISTORY_SIZE : nat := 15.

(** The members of the singleton the claims read. [nativeWindow_] is [None]
    for [nullptr]; [speedHistory_] is the deque, front first. *)
Record RenderState : Type := mkRender {
  nativeWindow_ : option Z;
  width_ : Z;
  height_ : Z;
  speedHistory_ : list float;
  isRendering_ : bool
}.

(** The members as their default initializers leave them. *)
Definition initial : RenderState :=
  {| nativeWindow_ := None; width_ := 0%Z; height_ := 0%Z;
     speedHistory_ := []; isRendering_ := false |}.

Definition set_history (st : RenderState) (h : list float) : RenderState :=
  {| nativeWindow_ := nativeWindow_ st; width_ := width_ st; height_ := height_ st;
     speedHistory_ := h; isRendering_ := isRendering_ st |}.

Definition set_rendering (st : RenderState) (b : bool) : RenderState :=
  {| nativeWindow_ := nativeWindow_ st; width_ := width_ st; height_ := height_ st;
     speedHistory_ := speedHistory_ st; isRendering_ := b |}.

Definition set_size (st : RenderState) (w h : Z) : RenderState :=
  {| nativeWindow_ := nativeWindow_ st; width_ := w; height_ := h;
     speedHistory_ := speedHistory_ st; isRendering_ := isRendering_ st |}.

Definition set_window (st : RenderState) (w : option Z) : RenderState :=
  {| nativeWindow_ := w; width_ := width_ st; height_ := height_ st;
     speedHistory_ := speedHistory_ st; isRendering_ := isRendering_ st |}.

(** The three paths [DrawFrame] creates: [path], [fillPath], [strokePath]. *)
Inductive path_id : Type := PathMain | FillPath | StrokePath.

(** The calls into the window and drawing libraries, in program order. *)
Inductive event : Type :=
| SetUsage
| SetBufferGeometry (width height : Z)
| SetFormat
| RequestBuffer
| LogError
| CloseFence (fd : Z)
| Mmap
| AbortBuffer
| Munmap
| BitmapBuild (width height : Z)
| CanvasClear (argb : Z)
| PathMoveTo (p : path_id) (x y : float32)
| PathLineTo (p : path_id) (x y : float32)
| PathClose (p : path_id)
| DrawFill (p : path_id) (gradientEndY : float32)
| DrawStroke (p : path_id) (color : Z)
| MemcpyAll (bytes : Z)
| MemcpyRow (dstOffset srcOffset bytes : Z)
| FlushBuffer.

(** What the platform answers during one frame. *)
Record FrameEnv : Type := mkEnv {
  request_ret : Z;          (* result of NativeWindowRequestBuffer *)
  request_buffer : bool;    (* the buffer it stored is not nullptr *)
  fenceFd : Z;
  virAddr_mapped : bool;    (* handle->virAddr is not nullptr *)
  mmap_ok : bool;           (* mmap did not return MAP_FAILED *)
  bitmap_pixels : bool;     (* BitmapGetPixels is not nullptr *)
  stride : Z                (* handle->stride *)
}.

Definition wrap_u64 (z : Z) : Z := (z mod 2 ^ 64)%Z.

(** A [uint64_t] passed for a [uint32_t] parameter. *)
Definition wrap_u32 (z : Z) : Z := (z mod 2 ^ 32)%Z.

Definition to_int32 (z : Z) : Z :=
  let r := (z mod 2 ^ 32)%Z in if (r <? 2 ^ 31)%Z then r else (r - 2 ^ 32)%Z.

(** The block of [PushData] under [dataMutex_]: [push_back], then
    [pop_front] when the size has passed [MAX_HISTORY_SIZE]. *)
Definition PushBuffer (h : list float) (speedKbps : float) : list float :=
  let h1 := h ++ [speedKbps] in
  if (MAX_HISTORY_SIZE <? length h1)%nat then tl h1 else h1.

Definition ClearData (st : RenderState) : RenderState := set_history st [].

Definition GetDataSnapshot (st : RenderState) : list float := speedHistory_ st.

(** [*std::max_element(first, rest...)]: the first largest element by [<]. *)
Definition max_element (first : float) (rest : list float) : float :=
  fold_left (fun largest v => if largest <? v then v else largest) rest first.

Definition f32_zero : float32 := S754_zero false.

(** The body of the first loop: one [PathLineTo] on [fillPath] per sample;
    the second component is [lastX] after the loop. *)
Fixpoint fill_loop (stepX : float32) (height : Z) (maxVal : float)
  (i : Z) (data : list float) (lastX : float32) : list event * float32 :=
  match data with
  | [] => ([], lastX)
  | v :: rest =>
      let x := f32_mul (f32_of_Z i) stepX in
      let y := f32_of_double (double_of_Z height - (v / maxVal) * double_of_Z height) in
      let '(evs, lx) := fill_loop stepX height maxVal (i + 1)%Z rest x in
      (PathLineTo FillPath x y :: evs, lx)
  end.

(** The body of the second loop, on [strokePath]. *)
Fixpoint stroke_loop (stepX : float32) (height : Z) (maxVal : float)
  (i : Z) (data : list float) : list event :=
  match data with
  | [] => []
  | v :: rest =>
      let x := f32_mul (f32_of_Z i) stepX in
      let y := f32_of_double (double_of_Z height - (v / maxVal) * double_of_Z height) in
      (if (i =? 0)%Z then PathMoveTo StrokePath x y else PathLineTo StrokePath x y)
        :: stroke_loop stepX height maxVal (i + 1)%Z rest
  end.

(** The [if (data.size() > 1)] block of [DrawFrame]. *)
Definition draw_waveform (width height : Z) (data : list float) : list event :=
  match data with
  | v0 :: (_ :: _) as rest =>
      let maxVal0 := max_element v0 rest in
      let maxVal1 := if maxVal0 <? 100.0 then 100.0 else maxVal0 in
      let maxVal := maxVal1 * 1.2 in
      let stepX := f32_div (f32_of_Z width) (f32_of_Z (Z.of_nat MAX_HISTORY_SIZE - 1)%Z) in
      let '(fill, lastX) := fill_loop stepX height maxVal 0%Z data f32_zero in
      [PathMoveTo PathMain f32_zero (f32_of_Z height);
       PathMoveTo FillPath f32_zero (f32_of_Z height)]
      ++ fill
      ++ [PathLineTo FillPath lastX (f32_of_Z height);
          PathLineTo FillPath f32_zero (f32_of_Z height);
          PathClose FillPath;
          DrawFill FillPath (f32_of_Z height)]
      ++ stroke_loop stepX height maxVal 0%Z data
      ++ [DrawStroke StrokePath 0xFF007DFF%Z]
  | _ => []
  end.

(** Copying the bitmap into the window buffer. *)
Definition copy_pixels (width height : Z) (env : FrameEnv) : list event :=
  if bitmap_pixels env then
    let bufferStride := stride env in
    let bitmapStride := to_int32 (wrap_u64 (width * 4)%Z) in
    if (bufferStride =? bitmapStride)%Z
    then [MemcpyAll (wrap_u64 (width * height * 4)%Z)]
    else map (fun i => MemcpyRow (Z.of_nat i * bufferStride)%Z (Z.of_nat i * bitmapStride)%Z
                         (wrap_u64 (width * 4)%Z))
             (seq 0 (Z.to_nat height))
  else [].

Definition DrawFrame (st : RenderState) (env : FrameEnv) : RenderState * list event :=
  match nativeWindow_ st with
  | None => (set_rendering st false, [])
  | Some _ =>
      if negb (request_ret env =? 0)%Z || negb (request_buffer env) then
        (set_rendering st false, [RequestBuffer; LogError])
      else
        let fence := if (0 <? fenceFd env)%Z then [CloseFence (fenceFd env)] else [] in
        if negb (virAddr_mapped env) && negb (mmap_ok env) then
          (set_rendering st false,
           [RequestBuffer] ++ fence ++ [Mmap; LogError; AbortBuffer])
        else
          let needsUnmap := negb (virAddr_mapped env) in
          (set_rendering st false,
           [RequestBuffer] ++ fence
           ++ (if needsUnmap then [Mmap] else [])
           ++ [BitmapBuild (wrap_u32 (width_ st)) (wrap_u32 (height_ st));
               CanvasClear 0xFFFFFFFF%Z]
           ++ draw_waveform (width_ st) (height_ st) (GetDataSnapshot st)
           ++ copy_pixels (width_ st) (height_ st) env
           ++ (if needsUnmap then [Munmap] else [])
           ++ [FlushBuffer])
  end.

(** [isRendering_.compare_exchange_strong(expected = false, true)]. *)
Definition compare_exchange (st : RenderState) : RenderState * bool :=
  if isRendering_ st then (st, false) else (set_rendering st true, true).

Definition PushData (st : RenderState) (env : FrameEnv) (speedKbps : float)
  : RenderState * list event :=
  let st1 := set_history st (PushBuffer (speedHistory_ st) speedKbps) in
  let '(st2, won) := compare_exchange st1 in
  if won then DrawFrame st2 env else (st2, []).

(** [size] is what [GetXComponentSize] stored, [None] when it failed;
    [usage_ret] is what setting the usage returned, an error being logged
    when it is not 0. *)
Definition OnSurfaceCreated (st : RenderState) (window : Z) (size : option (Z * Z))
  (usage_ret : Z) : RenderState * list event :=
  let st1 := set_window st (Some window) in
  let st2 := match size with
             | Some (w, h) => set_size st1 w h
             | None => st1
             end in
  (st2,
   [SetUsage]
   ++ (if (usage_ret =? 0)%Z then [] else [LogError])
   ++ [SetBufferGeometry (width_ st2) (height_ st2); SetFormat]).

Definition resized (st : RenderState) (size : option (Z * Z)) : RenderState :=
  match size with
  | Some (w, h) => set_size st w h
  | None => set_size st 0%Z 0%Z
  end.

Definition OnSurfaceChanged (st : RenderState) (env : FrameEnv) (size : option (Z * Z))
  : RenderState * list event :=
  DrawFrame (resized st size) env.

Definition OnSurfaceDestroyed (st : RenderState) : RenderState := set_window st None.

(** Whether a trace hands a buffer to the compositor, and how often. *)
Definition is_flush (e : event) : bool :=
  match e with FlushBuffer => true | _ => false end.

Definition submissions (tr : list event) : nat := length (filter is_flush tr).

(** Successive pushes of a list of samples, each with its own platform
    answers. *)
Fixpoint push_all (st : RenderState) (xs : list (float * FrameEnv)) : RenderState :=
  match xs with
  | [] => st
  | (v, env) :: rest => push_all (fst (PushData st env v)) rest
  end.

(** The last [n] elements of a list. *)
Definition lastn {A : Type} (n : nat) (l : list A) : list A :=
  skipn (length l - n) l.

(** ** Sample data *)

(** A platform on which every call of a frame succeeds: the buffer is
    already mapped and its stride is that of a 1400 pixel row. *)
Definition env_ok : FrameEnv :=
  {| request_ret := 0%Z; request_buffer := true; fenceFd := (-1)%Z;
     virAddr_mapped := true; mmap_ok := true; bitmap_pixels := true;
     stride := 5600%Z |}.

(** A live surface of size 1400 x 200 holding three samples, with the guard
    taken by the caller. *)
Definition chart_surface : RenderState :=
  {| nativeWindow_ := Some 1%Z; width_ := 1400%Z; height_ := 200%Z;
     speedHistory_ := [50.0; 120.0; 60.0]; isRendering_ := true |}.

(** A live surface of size 0 x 0, with the guard taken by the caller. *)
Definition zero_surface : RenderState :=
  {| nativeWindow_ := Some 1%Z; width_ := 0%Z; height_ := 0%Z;
     speedHistory_ := []; isRendering_ := true |}.

(** ** The chart geometry as the specification words it *)

(** Horizontal position of sample [i]: [i * (surfaceWidth / (N - 1))]. *)
Definition spec_x (surfaceWidth : Z) (N : nat) (i : nat) : float32 :=
  f32_mul (f32_of_Z (Z.of_nat i))
          (f32_div (f32_of_Z surfaceWidth) (f32_of_Z (Z.of_nat N - 1)%Z)).

(** [yMax = max(maxSampleValue, 100) * 1.2]. *)
Definition spec_yMax (maxSampleValue : float) : float :=
  (if maxSampleValue <? 100.0 then 100.0 else maxSampleValue) * 1.2.

(** Vertical position of value [v]:
    [surfaceHeight - (v / yMax) * surfaceHeight]. *)
Definition spec_y (surfaceHeight : Z) (yMax : float) (v : float) : float32 :=
  f32_of_double (double_of_Z surfaceHeight - (v / yMax) * double_of_Z surfaceHeight).

(** ** Classes of events *)

Definition is_request (e : event) : bool :=
  match e with RequestBuffer => true | _ => false end.

Definition is_abort (e : event) : bool :=
  match e with AbortBuffer => true | _ => false end.

Definition is_mmap (e : event) : bool :=
  match e with Mmap => true | _ => false end.

Definition is_munmap (e : event) : bool :=
  match e with Munmap => true | _ => false end.

(** The calls that build or draw a path. *)
Definition is_drawing (e : event) : bool :=
  match e with
  | PathMoveTo _ _ _ | PathLineTo _ _ _ | PathClose _ | DrawFill _ _ | DrawStroke _ _ => true
  | _ => false
  end.

Definition is_memcpy (e : event) : bool :=
  match e with MemcpyAll _ | MemcpyRow _ _ _ => true | _ => false end.

(** The options set on the window: usage, buffer geometry, pixel format. *)
Definition is_window_option (e : event) : bool :=
  match e with SetUsage | SetBufferGeometry _ _ | SetFormat => true | _ => false end.

(** How many events of a trace are of a class. *)
Definition count (p : event -> bool) (tr : list event) : nat := length (filter p tr).


(** The tests of [DrawFrame] on what the platform answers: the buffer
    request succeeded; the buffer is mapped, by the system or by [mmap]. *)
Definition request_ok (env : FrameEnv) : bool :=
  (request_ret env =? 0)%Z && request_buffer env.

Definition mapping_ok (env : FrameEnv) : bool :=
  virAddr_mapped env || mmap_ok env.

Definition has_window (st : RenderState) : bool :=
  match nativeWindow_ st with Some _ => true | None => false end.

(** ** Calls made one after the other *)

(** The entry points of the renderer, each with what the platform answers
    during the call. *)
Inductive op : Type :=
| OpPushData (speedKbps : float) (env : FrameEnv)
| OpClearData
| OpSurfaceCreated (window : Z) (size : option (Z * Z)) (usage_ret : Z)
| OpSurfaceChanged (env : FrameEnv) (size : option (Z * Z))
| OpSurfaceDestroyed.

Definition do_op (st : RenderState) (o : op) : RenderState * list event :=
  match o with
  | OpPushData v env => PushData st env v
  | OpClearData => (ClearData st, [])
  | OpSurfaceCreated window size usage_ret => OnSurfaceCreated st window size usage_ret
  | OpSurfaceChanged env size => OnSurfaceChanged st env size
  | OpSurfaceDestroyed => (OnSurfaceDestroyed st, [])
  end.

(** The state after a list of calls, each returning before the next starts,
    and the calls they made into the platform. *)
Fixpoint run_ops (st : RenderState) (os : list op) : RenderState * list event :=
  match os with
  | [] => (st, [])
  | o :: rest =>
      let r := do_op st o in
      let r' := run_ops (fst r) rest in
      (fst r', snd r ++ snd r')
  end.

Definition is_created (o : op) : bool :=
  match o with OpSurfaceCreated _ _ _ => true | _ => false end.

End RenderManager.

(* ================================================================== *)
(** * Threads calling into the renderer *)
(* ================================================================== *)

Module Scheduler.

Import Numeric RenderManager.

(** Where a thread stands in [PushData] or [OnSurfaceChanged]. A thread is
    [InDrawFrame] from the moment it calls [DrawFrame] until the body has
    run to its return: its frame is in flight. *)
Inductive thread : Type :=
| AtPushData (speedKbps : float)        (* before the locked push *)
| AtCompareExchange                     (* pushed; before the test-and-set *)
| AtOnSurfaceChanged (size : option (Z * Z))
| InDrawFrame
| Returned.

Record config : Type := mkConfig {
  shared : RenderState;
  threads : list thread;
  trace : list event
}.

Definition set_thread (ts : list thread) (i : nat) (t : thread) : list thread :=
  firstn i ts ++ t :: skipn (S i) ts.

(** One atomic action of thread [i]. *)
Inductive step : config -> config -> Prop :=
| step_push : forall st ts tr i v,
    nth_error ts i = Some (AtPushData v) ->
    step (mkConfig st ts tr)
         (mkConfig (set_history st (PushBuffer (speedHistory_ st) v))
                   (set_thread ts i AtCompareExchange) tr)
| step_cas : forall st ts tr i,
    nth_error ts i = Some AtCompareExchange ->
    step (mkConfig st ts tr)
         (mkConfig (fst (compare_exchange st))
                   (set_thread ts i (if snd (compare_exchange st)
                                     then InDrawFrame else Returned)) tr)
| step_resize : forall st ts tr i size,
    nth_error ts i = Some (AtOnSurfaceChanged size) ->
    step (mkConfig st ts tr)
         (mkConfig (resized st size) (set_thread ts i InDrawFrame) tr)
| step_draw : forall st ts tr i env,
    nth_error ts i = Some InDrawFrame ->
    step (mkConfig st ts tr)
         (mkConfig (fst (DrawFrame st env)) (set_thread ts i Returned)
                   (tr ++ snd (DrawFrame st env))).

Inductive steps : config -> config -> Prop :=
| steps_refl : forall c, steps c c
| steps_next : forall c1 c2 c3, step c1 c2 -> steps c2 c3 -> steps c1 c3.

Definition is_in_flight (t : thread) : bool :=
  match t with InDrawFrame => true | _ => false end.

(** The number of frames in flight. *)
Definition in_flight (ts : list thread) : nat := length (filter is_in_flight ts).

Definition is_resize_thread (t : thread) : bool :=
  match t with AtOnSurfaceChanged _ => true | _ => false end.

(** What holds of every configuration when no thread runs
    [OnSurfaceChanged]: a frame is in flight exactly while the guard is set. *)
Definition guarded (c : config) : Prop :=
  forallb (fun t => negb (is_resize_thread t)) (threads c) = true
  /\ in_flight (threads c) = (if isRendering_ (shared c) then 1 else 0)%nat.

(** ** Sample data *)

(** A live surface 1400 x 200 with three samples and no frame in flight. *)
Definition surface_ready : RenderState :=
  {| nativeWindow_ := Some 1%Z; width_ := 1400%Z; height_ := 200%Z;
     speedHistory_ := [50.0; 120.0; 60.0]%float; isRendering_ := false |}.

(** One thread about to push a sample, another about to report a resize. *)
Definition push_and_resize : config :=
  {| shared := surface_ready;
     threads := [AtPushData 70.0%float; AtOnSurfaceChanged (Some (800%Z, 100%Z))];
     trace := [] |}.

Definition is_returned (t : thread) : bool :=
  match t with Returned => true | _ => false end.

(** The number of calls that have not returned yet. *)
Definition unfinished (ts : list thread) : nat :=
  length (filter (fun t => negb (is_returned t)) ts).

(** Two threads about to push a sample each. *)
Definition two_pushes : config :=
  {| shared := surface_ready;
     threads := [AtPushData 70.0%float; AtPushData 80.0%float];
     trace := [] |}.

End Scheduler.

(* ================================================================== *)
(** * Facts about the conversions and the comparisons of doubles *)
(* ================================================================== *)

Section NumericFacts.

Import Numeric.

(** Discarding the fraction of a non-negative rational is taking its floor. *)
Lemma Qtrunc_nonneg_floor : forall q : Q, (0 <= q)%Q -> Qtrunc q = Qfloor q.
Proof.
  intros [n d] Hq. unfold Qtrunc, Qfloor. cbn [Qnum Qden].
  unfold Qle in Hq. cbn [Qnum Qden] in Hq.
  apply Z.quot_div_nonneg; lia.
Qed.

Lemma Qfloor_nonneg : forall q : Q, (0 <= q)%Q -> (0 <= Qfloor q)%Z.
Proof.
  intros [n d] Hq. unfold Qfloor. unfold Qle in Hq. cbn [Qnum Qden] in Hq.
  apply Z.div_pos; lia.
Qed.

(** A rational strictly between -1 and 0 loses everything. *)
Lemma Qtrunc_small_negative : forall q : Q, (-1 < q)%Q -> (q < 0)%Q -> Qtrunc q = 0%Z.
Proof.
  intros [n d] Hlo Hhi. unfold Qtrunc. cbn [Qnum Qden].
  unfold Qlt in Hlo, Hhi. cbn [Qnum Qden] in Hlo, Hhi.
  assert (Hn : (n = - (- n))%Z) by lia. rewrite Hn.
  rewrite Z.quot_opp_l by lia.
  rewrite Z.quot_small by lia. reflexivity.
Qed.

(** A rational at or below -1 truncates to a negative integer. *)
Lemma Qtrunc_below_minus_one : forall q : Q, (q <= -1)%Q -> (Qtrunc q < 0)%Z.
Proof.
  intros [n d] Hq. unfold Qtrunc. cbn [Qnum Qden].
  unfold Qle in Hq. cbn [Qnum Qden] in Hq.
  assert (Hn : (n = - (- n))%Z) by lia. rewrite Hn.
  rewrite Z.quot_opp_l by lia.
  assert (1 <= (- n) ÷ Z.pos d)%Z; [| lia].
  rewrite Z.quot_div_nonneg by lia.
  apply Z.div_le_lower_bound; lia.
Qed.

Lemma static_cast_size_t_floor : forall (x : float) (q : Q),
  double_value x = Some q -> (0 <= q)%Q -> (Qfloor q <= SIZE_MAX)%Z ->
  static_cast_size_t x = Some (Qfloor q).
Proof.
  intros x q Hv Hq Hmax. unfold static_cast_size_t. rewrite Hv.
  cbv zeta. rewrite (Qtrunc_nonneg_floor q Hq).
  pose proof (Qfloor_nonneg q Hq) as H0.
  apply Z.leb_le in H0. apply Z.leb_le in Hmax.
  rewrite H0, Hmax. reflexivity.
Qed.

(** ** The order of doubles, from the specification of the primitives *)

Lemma SFcompare_refl_finite : forall s m e,
  SFcompare (S754_finite s m e) (S754_finite s m e) = Some Eq.
Proof.
  intros s m e. cbn [SFcompare].
  rewrite Z.compare_refl.
  change (Pos.compare_cont Eq m m) with (Pos.compare m m).
  rewrite Pos.compare_refl. destruct s; reflexivity.
Qed.

Lemma SFleb_refl_not_nan : forall x, x <> S754_nan -> SFleb x x = true.
Proof.
  intros x Hx. unfold SFleb. destruct x as [s | s | | s m e].
  - reflexivity.
  - destruct s; reflexivity.
  - congruence.
  - rewrite SFcompare_refl_finite. reflexivity.
Qed.

Lemma SFltb_not_nan : forall x y, SFltb x y = true -> x <> S754_nan /\ y <> S754_nan.
Proof.
  intros x y H. unfold SFltb in H.
  destruct x, y; cbn [SFcompare] in H; split; congruence.
Qed.

Lemma SFleb_not_nan : forall x y, SFleb x y = true -> x <> S754_nan /\ y <> S754_nan.
Proof.
  intros x y H. unfold SFleb in H.
  destruct x, y; cbn [SFcompare] in H; split; congruence.
Qed.

Open Scope float_scope.

(** [x < y] gives [x <= y]. *)
Lemma ltb_leb : forall x y : float, (x <? y) = true -> (x <=? y) = true.
Proof.
  intros x y H. rewrite ltb_spec in H. rewrite leb_spec.
  unfold SFltb in H. unfold SFleb.
  destruct (SFcompare (Prim2SF x) (Prim2SF y)) as [[ | | ] | ]; congruence.
Qed.

(** Both sides of a true [<] are numbers, so each is [<=] itself. *)
Lemma ltb_leb_refl_r : forall x y : float, (x <? y) = true -> (y <=? y) = true.
Proof.
  intros x y H. rewrite ltb_spec in H. rewrite leb_spec.
  apply SFleb_refl_not_nan. apply (SFltb_not_nan _ _ H).
Qed.

Lemma leb_leb_refl_r : forall x y : float, (x <=? y) = true -> (y <=? y) = true.
Proof.
  intros x y H. rewrite leb_spec in H. rewrite leb_spec.
  apply SFleb_refl_not_nan. apply (SFleb_not_nan _ _ H).
Qed.

(** [x <= y] excludes [y < x]. *)
Lemma leb_not_ltb : forall x y : float, (x <=? y) = true -> (y <? x) = false.
Proof.
  intros x y H. rewrite leb_spec in H. rewrite ltb_spec.
  unfold SFleb in H. unfold SFltb.
  destruct (Prim2SF x) as [sx | sx | | sx mx ex], (Prim2SF y) as [sy | sy | | sy my ey];
    cbn [SFcompare] in *; try congruence;
    try (destruct sx; congruence); try (destruct sy; congruence);
    try (destruct sx, sy; congruence).
  destruct sx, sy; try congruence.
  - rewrite (Z.compare_antisym ex ey).
    destruct (ex ?= ey)%Z eqn:E; cbn [CompOpp] in *; try congruence.
    change (Pos.compare_cont Eq mx my) with (Pos.compare mx my) in H.
    change (Pos.compare_cont Eq my mx) with (Pos.compare my mx).
    rewrite (Pos.compare_antisym mx my).
    destruct (mx ?= my)%positive; cbn [CompOpp] in *; congruence.
  - rewrite (Z.compare_antisym ex ey).
    destruct (ex ?= ey)%Z eqn:E; cbn [CompOpp] in *; try congruence.
    change (Pos.compare_cont Eq mx my) with (Pos.compare mx my) in H.
    change (Pos.compare_cont Eq my mx) with (Pos.compare my mx).
    rewrite (Pos.compare_antisym mx my).
    destruct (mx ?= my)%positive; cbn [CompOpp] in *; congruence.
Qed.

End NumericFacts.

(* ================================================================== *)
(** * Rounding to binary64 *)
(* ================================================================== *)

Section Rounding.

Import Numeric.
Open Scope Z_scope.

Lemma fexp64 : forall z, fexp prec emax z = Z.max (z - 53) (-1074).
Proof. intro z. reflexivity. Qed.

Lemma digits2_pos_bounds : forall p : positive,
  2 ^ (Z.pos (digits2_pos p) - 1) <= Z.pos p < 2 ^ Z.pos (digits2_pos p).
Proof.
  induction p as [p IH | p IH | ]; cbn [digits2_pos].
  - rewrite Pos2Z.inj_succ.
    replace (Z.succ (Z.pos (digits2_pos p)) - 1) with (Z.succ (Z.pos (digits2_pos p) - 1)) by lia.
    rewrite !Z.pow_succ_r by lia. lia.
  - rewrite Pos2Z.inj_succ.
    replace (Z.succ (Z.pos (digits2_pos p)) - 1) with (Z.succ (Z.pos (digits2_pos p) - 1)) by lia.
    rewrite !Z.pow_succ_r by lia. lia.
  - cbn. lia.
Qed.

Lemma Zdigits2_lower : forall (q k : Z), 0 <= k -> 2 ^ k <= q -> k + 1 <= Zdigits2 q.
Proof.
  intros q k Hk Hq.
  assert (0 < 2 ^ k) by (apply Z.pow_pos_nonneg; lia).
  destruct q as [| p | p]; try lia.
  cbn [Zdigits2]. pose proof (digits2_pos_bounds p) as [_ Hup].
  assert (k < Z.pos (digits2_pos p)); [ | lia ].
  apply (Z.pow_lt_mono_r_iff 2); lia.
Qed.

Lemma Zdigits2_upper : forall (q k : Z), 0 <= k -> 0 <= q < 2 ^ k -> Zdigits2 q <= k.
Proof.
  intros q k Hk [Hq0 Hq].
  destruct q as [| p | p]; cbn [Zdigits2]; try lia.
  pose proof (digits2_pos_bounds p) as [Hlo _].
  assert (Z.pos (digits2_pos p) - 1 < k); [ | lia ].
  apply (Z.pow_lt_mono_r_iff 2); lia.
Qed.

Lemma Zdigits2_nonneg : forall q, 0 <= Zdigits2 q.
Proof. intros [| p | p]; cbn [Zdigits2]; lia. Qed.

Lemma Zdigits2_pos : forall q, 0 < q -> 0 < Zdigits2 q.
Proof. intros [| p | p] H; cbn [Zdigits2]; lia. Qed.

Lemma Zdigits2_bounds : forall q, 0 < q -> 2 ^ (Zdigits2 q - 1) <= q < 2 ^ Zdigits2 q.
Proof.
  intros [| p | p] H; try lia. cbn [Zdigits2]. apply digits2_pos_bounds.
Qed.

(** One step to the right. *)
Lemma shr_1_digits : forall mrs,
  0 <= shr_m mrs ->
  0 <= shr_m (shr_1 mrs)
  /\ Zdigits2 (shr_m (shr_1 mrs)) = Z.max 0 (Zdigits2 (shr_m mrs) - 1).
Proof.
  intros [m r s] Hm. cbn [shr_m] in Hm.
  destruct m as [| [p | p |] | p]; cbn [shr_1 shr_m Zdigits2 digits2_pos]; try lia;
    rewrite ?Pos2Z.inj_succ; lia.
Qed.

Lemma iter_shr_1_digits : forall p mrs,
  0 <= shr_m mrs ->
  0 <= shr_m (iter_pos shr_1 p mrs)
  /\ Zdigits2 (shr_m (iter_pos shr_1 p mrs)) = Z.max 0 (Zdigits2 (shr_m mrs) - Z.pos p).
Proof.
  induction p as [p IH | p IH | ]; intros mrs Hm; cbn [iter_pos].
  - destruct (shr_1_digits mrs Hm) as [H1 D1].
    destruct (IH _ H1) as [H2 D2]. destruct (IH _ H2) as [H3 D3].
    split; [ exact H3 | ]. rewrite D3, D2, D1. lia.
  - destruct (IH _ Hm) as [H2 D2]. destruct (IH _ H2) as [H3 D3].
    split; [ exact H3 | ]. rewrite D3, D2. lia.
  - apply shr_1_digits. exact Hm.
Qed.

Lemma shr_digits : forall mrs e n,
  0 <= shr_m mrs ->
  0 <= shr_m (fst (shr mrs e n))
  /\ Zdigits2 (shr_m (fst (shr mrs e n))) = Z.max 0 (Zdigits2 (shr_m mrs) - Z.max 0 n)
  /\ snd (shr mrs e n) = e + Z.max 0 n.
Proof.
  intros mrs e n Hm. destruct n as [| p | p]; cbn [shr fst snd].
  - pose proof (Zdigits2_nonneg (shr_m mrs)). repeat split; lia.
  - destruct (iter_shr_1_digits p mrs Hm) as [H D]. repeat split; lia.
  - pose proof (Zdigits2_nonneg (shr_m mrs)). repeat split; lia.
Qed.

Lemma shr_record_of_loc_m : forall m l, shr_m (shr_record_of_loc m l) = m.
Proof. intros m [| [ | | ]]; reflexivity. Qed.

Lemma round_nearest_even_range : forall m l,
  round_nearest_even m l = m \/ round_nearest_even m l = m + 1.
Proof.
  intros m [| [ | | ]]; cbn [round_nearest_even]; auto.
  destruct (Z.even m); auto.
Qed.

(** Rounding a non-negative mantissa never yields a NaN nor a negative sign. *)
Lemma binary_round_aux_nonneg : forall q e l,
  0 <= q -> SFnonneg (binary_round_aux prec emax false q e l) = true.
Proof.
  intros q e l Hq. unfold binary_round_aux, shr_fexp.
  set (n1 := fexp prec emax (Zdigits2 q + e) - e).
  pose proof (shr_digits (shr_record_of_loc q l) e n1) as H1.
  rewrite shr_record_of_loc_m in H1. specialize (H1 Hq).
  destruct (shr (shr_record_of_loc q l) e n1) as [mrs' e1]. cbn [fst snd] in H1.
  destruct H1 as (Hm' & _ & _).
  set (m1 := round_nearest_even (shr_m mrs') (loc_of_shr_record mrs')).
  assert (Hm1 : 0 <= m1).
  { destruct (round_nearest_even_range (shr_m mrs') (loc_of_shr_record mrs')); unfold m1; lia. }
  set (n2 := fexp prec emax (Zdigits2 m1 + e1) - e1).
  pose proof (shr_digits (shr_record_of_loc m1 loc_Exact) e1 n2) as H2.
  rewrite shr_record_of_loc_m in H2. specialize (H2 Hm1).
  destruct (shr (shr_record_of_loc m1 loc_Exact) e1 n2) as [mrs'' e2]. cbn [fst snd] in H2.
  destruct H2 as (Hm'' & _ & _).
  destruct (shr_m mrs''); try lia; try reflexivity.
  destruct (e2 <=? emax - prec); reflexivity.
Qed.

Lemma digits_succ_range : forall m,
  Zdigits2 m = 53 -> 0 < m -> Zdigits2 (m + 1) = 53 \/ Zdigits2 (m + 1) = 54.
Proof.
  intros m Hd Hm. pose proof (Zdigits2_bounds m Hm) as [Hlo Hup]. rewrite Hd in *.
  destruct (Z.eq_dec (m + 1) (2 ^ 53)) as [E | E].
  - right. rewrite E. reflexivity.
  - left. pose proof (Zdigits2_lower (m + 1) 52 ltac:(lia) ltac:(lia)).
    pose proof (Zdigits2_upper (m + 1) 53 ltac:(lia) ltac:(lia)). lia.
Qed.

(** A mantissa of at least 53 bits in the normal range rounds to a normal
    double of the same magnitude, or the next one. *)
Lemma binary_round_aux_normal : forall s q e l,
  0 < q ->
  e <= Zdigits2 q + e - 53 ->
  -1074 <= Zdigits2 q + e - 53 ->
  Zdigits2 q + e <= 1023 ->
  exists m e2,
    binary_round_aux prec emax s q e l = S754_finite s m e2
    /\ Z.pos (digits2_pos m) = 53
    /\ Zdigits2 q + e - 53 <= e2 <= Zdigits2 q + e - 52.
Proof.
  intros s q e l Hq Halign Hlo Hhi.
  unfold binary_round_aux, shr_fexp. rewrite fexp64.
  set (z := Zdigits2 q + e) in *.
  pose proof (shr_digits (shr_record_of_loc q l) e (Z.max (z - 53) (-1074) - e)) as H1.
  rewrite shr_record_of_loc_m in H1. specialize (H1 ltac:(lia)).
  destruct (shr (shr_record_of_loc q l) e (Z.max (z - 53) (-1074) - e)) as [mrs' e1].
  cbn [fst snd] in H1. destruct H1 as (Hm' & Hd' & He1).
  assert (Hd53 : Zdigits2 (shr_m mrs') = 53) by (unfold z in *; lia).
  assert (He1' : e1 = z - 53) by lia.
  assert (Hm'pos : 0 < shr_m mrs').
  { destruct (shr_m mrs'); cbn [Zdigits2] in Hd53; lia. }
  set (m1 := round_nearest_even (shr_m mrs') (loc_of_shr_record mrs')).
  assert (Hm1 : 0 < m1 /\ (Zdigits2 m1 = 53 \/ Zdigits2 m1 = 54)).
  { unfold m1.
    destruct (round_nearest_even_range (shr_m mrs') (loc_of_shr_record mrs')) as [E | E];
      rewrite E.
    - split; [ lia | left; exact Hd53 ].
    - split; [ lia | apply digits_succ_range; assumption ]. }
  destruct Hm1 as [Hm1pos Hm1d].
  rewrite fexp64.
  pose proof (shr_digits (shr_record_of_loc m1 loc_Exact) e1
                (Z.max (Zdigits2 m1 + e1 - 53) (-1074) - e1)) as H2.
  rewrite shr_record_of_loc_m in H2. specialize (H2 ltac:(lia)).
  destruct (shr (shr_record_of_loc m1 loc_Exact) e1
              (Z.max (Zdigits2 m1 + e1 - 53) (-1074) - e1)) as [mrs'' e2].
  cbn [fst snd] in H2. destruct H2 as (Hm'' & Hd'' & He2).
  assert (Hd2 : Zdigits2 (shr_m mrs'') = 53) by lia.
  destruct (shr_m mrs'') as [| m | m]; cbn [Zdigits2] in Hd2; try lia.
  assert (Hov : (e2 <=? emax - prec) = true).
  { apply Z.leb_le. unfold emax, prec. lia. }
  rewrite Hov. exists m, e2. repeat split; lia.
Qed.

Lemma digits2_pos_iter_xO : forall (k m : positive),
  Z.pos (digits2_pos (Pos.iter xO m k)) = Z.pos (digits2_pos m) + Z.pos k.
Proof.
  intros k m. induction k as [| k IH] using Pos.peano_ind.
  - cbn [Pos.iter digits2_pos]. lia.
  - rewrite Pos.iter_succ. cbn [digits2_pos]. rewrite Pos2Z.inj_succ, IH. lia.
Qed.

Lemma binary_round_normal : forall s m e,
  -1074 <= Z.pos (digits2_pos m) + e - 53 ->
  Z.pos (digits2_pos m) + e <= 1023 ->
  exists m' e',
    binary_round prec emax s m e = S754_finite s m' e'
    /\ Z.pos (digits2_pos m') = 53
    /\ Z.pos (digits2_pos m) + e - 53 <= e' <= Z.pos (digits2_pos m) + e - 52.
Proof.
  intros s m e Hlo Hhi. unfold binary_round, shl_align. rewrite fexp64.
  set (d := Z.pos (digits2_pos m)) in *.
  replace (Z.max (d + e - 53) (-1074) - e) with (d - 53) by lia.
  destruct (d - 53) as [| p | p] eqn:Ed.
  - destruct (binary_round_aux_normal s (Z.pos m) e loc_Exact) as (m' & e' & H & Hd & He);
      cbn [Zdigits2]; fold d; try lia.
    exists m', e'. cbn [Zdigits2] in He. fold d in He. repeat split; try assumption; lia.
  - destruct (binary_round_aux_normal s (Z.pos m) e loc_Exact) as (m' & e' & H & Hd & He);
      cbn [Zdigits2]; fold d; try lia.
    exists m', e'. cbn [Zdigits2] in He. fold d in He. repeat split; try assumption; lia.
  - pose proof (digits2_pos_iter_xO p m) as Hsh. fold d in Hsh.
    destruct (binary_round_aux_normal s (Z.pos (Pos.iter xO m p))
                (Z.max (d + e - 53) (-1074)) loc_Exact)
      as (m' & e' & H & Hd & He); cbn [Zdigits2]; rewrite ?Hsh; try lia.
    exists m', e'. cbn [Zdigits2] in He. rewrite Hsh in He.
    repeat split; try assumption; lia.
Qed.

Lemma div_eucl_pair : forall a b, Z.div_eucl a b = (a / b, a mod b).
Proof. intros a b. unfold Z.div, Z.modulo. destruct (Z.div_eucl a b). reflexivity. Qed.

(** The quotient the division core computes: positive, precise to 53 bits
    and of the magnitude the operands announce, or one more. *)
Lemma SFdiv_core_quotient : forall m1 e1 m2 e2 q e' l,
  SFdiv_core_binary prec emax (Z.pos m1) e1 (Z.pos m2) e2 = (q, e', l) ->
  let D := Z.pos (digits2_pos m1) + e1 - (Z.pos (digits2_pos m2) + e2) in
  -1074 <= D - 53 ->
  0 < q /\ e' <= D - 53 /\ D <= Zdigits2 q + e' <= D + 1.
Proof.
  intros m1 e1 m2 e2 q e' l H D HD.
  unfold SFdiv_core_binary in H. cbn [Zdigits2] in H. fold D in H.
  rewrite fexp64, div_eucl_pair in H.
  replace (Z.max (D - 53) (-1074)) with (D - 53) in H by lia.
  set (ee := Z.min (D - 53) (e1 - e2)) in *.
  set (s := e1 - e2 - ee) in *.
  assert (Hs : 0 <= s) by (unfold s, ee; lia).
  assert (Hm' : match s with Z.pos _ => Z.shiftl (Z.pos m1) s | 0 => Z.pos m1 | Z.neg _ => 0 end
                = Z.pos m1 * 2 ^ s).
  { destruct s as [| p | p]; try lia.
    rewrite Z.shiftl_mul_pow2 by lia. reflexivity. }
  rewrite Hm' in H. clear Hm'.
  remember (Z.pos m1 * 2 ^ s) as m' eqn:Em'.
  injection H as Hq He Hl. subst e'. clear Hl.
  pose proof (digits2_pos_bounds m1) as [Hlo1 Hup1].
  pose proof (digits2_pos_bounds m2) as [Hlo2 Hup2].
  set (d1 := Z.pos (digits2_pos m1)) in *.
  set (d2 := Z.pos (digits2_pos m2)) in *.
  assert (Hd1 : 0 < d1) by (unfold d1; lia).
  assert (Hd2 : 0 < d2) by (unfold d2; lia).
  assert (Hk : 0 <= d1 - 1 + s - d2) by (unfold s, ee, D; lia).
  assert (H2s : 0 < 2 ^ s) by (apply Z.pow_pos_nonneg; lia).
  assert (Hq2 : 2 ^ (d1 - 1 + s - d2) <= q).
  { subst q m'.
    apply Z.div_le_lower_bound; [ lia | ].
    apply Z.le_trans with (2 ^ d2 * 2 ^ (d1 - 1 + s - d2)).
    - apply Z.mul_le_mono_nonneg_r; [ apply Z.pow_nonneg; lia | lia ].
    - rewrite <- Z.pow_add_r by lia.
      replace (d2 + (d1 - 1 + s - d2)) with ((d1 - 1) + s) by lia.
      rewrite Z.pow_add_r by lia.
      apply Z.mul_le_mono_nonneg_r; [ apply Z.pow_nonneg; lia | exact Hlo1 ]. }
  assert (Hq3 : q < 2 ^ (d1 + s - d2 + 1)).
  { subst q m'.
    assert (Hpow : 2 ^ d1 * 2 ^ s = 2 ^ (d2 - 1) * 2 ^ (d1 + s - d2 + 1)).
    { rewrite <- !Z.pow_add_r by lia. f_equal. lia. }
    apply Z.div_lt_upper_bound; [ lia | ].
    apply Z.lt_le_trans with (2 ^ d1 * 2 ^ s).
    - apply Z.mul_lt_mono_pos_r; lia.
    - rewrite Hpow.
      apply Z.mul_le_mono_nonneg_r; [ apply Z.pow_nonneg; lia | exact Hlo2 ]. }
  assert (Hpk : 0 < 2 ^ (d1 - 1 + s - d2)) by (apply Z.pow_pos_nonneg; lia).
  pose proof (Zdigits2_lower q _ Hk Hq2).
  pose proof (Zdigits2_upper q (d1 + s - d2 + 1) ltac:(lia) ltac:(lia)).
  unfold D, s, ee in *. lia.
Qed.

(** Dividing a normal double by another gives a finite double that is not
    zero, as long as the quotient stays in the normal range. *)
Lemma SFdiv_normal : forall sx mx ex sy my ey,
  let D := Z.pos (digits2_pos mx) + ex - (Z.pos (digits2_pos my) + ey) in
  -1074 <= D - 53 -> D + 1 <= 1023 ->
  exists m e,
    SFdiv prec emax (S754_finite sx mx ex) (S754_finite sy my ey)
    = S754_finite (xorb sx sy) m e.
Proof.
  intros sx mx ex sy my ey D Hlo Hhi. unfold SFdiv.
  destruct (SFdiv_core_binary prec emax (Z.pos mx) ex (Z.pos my) ey) as [[q e'] l] eqn:Ecore.
  destruct (SFdiv_core_quotient _ _ _ _ _ _ _ Ecore Hlo) as (Hq & He' & Hz).
  fold D in He', Hz.
  destruct (binary_round_aux_normal (xorb sx sy) q e' l) as (m & e2 & H & _ & _); try lia.
  exists m, e2. exact H.
Qed.

Lemma double_of_Z_normal : forall n : Z,
  0 < n -> Zdigits2 n <= 1023 ->
  exists m e,
    Prim2SF (double_of_Z n) = S754_finite false m e
    /\ Z.pos (digits2_pos m) = 53
    /\ Zdigits2 n - 53 <= e <= Zdigits2 n - 52.
Proof.
  intros n Hn Hd. destruct n as [| p | p]; try lia.
  unfold double_of_Z. cbn [binary_normalize Zdigits2] in *.
  destruct (binary_round_normal false p 0) as (m & e & H & Hm & He); try lia.
  rewrite H. exists m, e. split; [ | split; [ exact Hm | lia ] ].
  apply Prim2SF_SF2Prim. cbn [valid_binary]. unfold bounded, canonical_mantissa.
  rewrite Hm, fexp64.
  apply andb_true_iff. split.
  - apply Z.eqb_eq. lia.
  - apply Z.leb_le. unfold emax, prec. lia.
Qed.

Lemma binary_round_nonneg : forall m e, SFnonneg (binary_round prec emax false m e) = true.
Proof.
  intros m e. unfold binary_round.
  destruct (shl_align m e (fexp prec emax (Z.pos (digits2_pos m) + e))) as [mz ez].
  apply binary_round_aux_nonneg. lia.
Qed.

Lemma SFadd_nonneg : forall x y,
  SFnonneg x = true -> SFnonneg y = true -> SFnonneg (SFadd prec emax x y) = true.
Proof.
  intros [sx | sx | | sx mx ex] [sy | sy | | sy my ey] Hx Hy;
    cbn [SFnonneg] in Hx, Hy; try discriminate;
    try (destruct sx; try discriminate Hx); try (destruct sy; try discriminate Hy);
    try reflexivity.
  cbn [SFadd cond_Zopp Z.add binary_normalize]. apply binary_round_nonneg.
Qed.

Lemma SFmul_nonneg : forall x y,
  SFnonneg x = true -> SFpositive y = true -> SFnonneg (SFmul prec emax x y) = true.
Proof.
  intros [sx | sx | | sx mx ex] [sy | sy | | [|] my ey] Hx Hy;
    cbn [SFnonneg SFpositive] in Hx, Hy; try discriminate;
    try (destruct sx; try discriminate Hx); try reflexivity.
  cbn [SFmul xorb]. apply binary_round_aux_nonneg. lia.
Qed.

Lemma SFdiv_nonneg : forall x y,
  SFnonneg x = true -> SFpositive y = true -> SFnonneg (SFdiv prec emax x y) = true.
Proof.
  intros [sx | sx | | sx mx ex] [sy | sy | | [|] my ey] Hx Hy;
    cbn [SFnonneg SFpositive] in Hx, Hy; try discriminate;
    try (destruct sx; try discriminate Hx); try reflexivity.
  cbn [SFdiv xorb].
  destruct (SFdiv_core_binary prec emax (Z.pos mx) ex (Z.pos my) ey) as [[q e'] l] eqn:Ecore.
  apply binary_round_aux_nonneg.
  unfold SFdiv_core_binary in Ecore. rewrite div_eucl_pair in Ecore.
  injection Ecore as Hq _ _. subst q.
  apply Z.div_pos; [ | lia ].
  match goal with
  | |- 0 <= match ?s with _ => _ end => destruct s; try lia
  end.
  apply Z.shiftl_nonneg. lia.
Qed.

Lemma leb_zero_nonneg : forall x : float,
  (0 <=? x)%float = true <-> SFnonneg (Prim2SF x) = true.
Proof.
  intro x. rewrite leb_spec.
  change (Prim2SF 0%float) with (S754_zero false).
  unfold SFleb. destruct (Prim2SF x) as [s | s | | s m e]; cbn [SFcompare SFnonneg].
  - split; reflexivity.
  - destruct s; split; intro H; try reflexivity; discriminate H.
  - split; intro H; discriminate H.
  - destruct s; split; intro H; try reflexivity; discriminate H.
Qed.

Lemma add_nonneg : forall a b : float,
  (0 <=? a)%float = true -> (0 <=? b)%float = true -> (0 <=? a + b)%float = true.
Proof.
  intros a b Ha Hb. apply leb_zero_nonneg. rewrite add_spec.
  apply SFadd_nonneg; apply leb_zero_nonneg; assumption.
Qed.

Lemma double_of_Z_nonneg : forall n : Z,
  0 <= n -> Zdigits2 n <= 1023 -> (0 <=? double_of_Z n)%float = true.
Proof.
  intros n Hn Hd. apply leb_zero_nonneg.
  destruct (Z.eq_dec n 0) as [-> | Hnz].
  - vm_compute. reflexivity.
  - destruct (double_of_Z_normal n ltac:(lia) Hd) as (m & e & H & _). rewrite H. reflexivity.
Qed.

(** The rate of a tick is a number that is not negative. *)
Lemma rate_nonneg : forall (pending : float) (us : Z),
  (0 <=? pending)%float = true ->
  100000 <= us -> Zdigits2 us <= 1000 ->
  (0 <=? pending * 8.0 / (double_of_Z us / 1000000.0) / 1024.0)%float = true.
Proof.
  intros pending us Hp Hus Hd.
  apply leb_zero_nonneg. rewrite !div_spec, mul_spec. unfold SF64div, SF64mul.
  apply SFdiv_nonneg; [ | vm_compute; reflexivity ].
  apply SFdiv_nonneg.
  - apply SFmul_nonneg; [ apply leb_zero_nonneg; exact Hp | vm_compute; reflexivity ].
  - destruct (double_of_Z_normal us ltac:(lia) ltac:(lia)) as (m & e & H & Hm & He).
    rewrite H.
    pose proof (Zdigits2_lower us 16 ltac:(lia) ltac:(lia)) as Hd16.
    change (Prim2SF 1000000.0%float) with (S754_finite false 8589934592000000 (-33)).
    destruct (SFdiv_normal false m e false 8589934592000000 (-33)) as (m' & e' & H').
    + rewrite Hm. change (Z.pos (digits2_pos 8589934592000000)) with 53. lia.
    + rewrite Hm. change (Z.pos (digits2_pos 8589934592000000)) with 53. lia.
    + rewrite H'. reflexivity.
Qed.

End Rounding.

(* ================================================================== *)
(** * Scaling a quotient by 1024 *)
(* ================================================================== *)

Section KiloScaling.

Import Numeric.
Open Scope Z_scope.

Lemma Prim2SF_1024 : Prim2SF 1024%float = kilo.
Proof. vm_compute. reflexivity. Qed.

(** Dividing a normal double by 1024 lowers its exponent by 10. *)
Lemma SFdiv_kilo : forall s m e,
  Z.pos (digits2_pos m) = 53 -> -1074 + 11 <= e -> e <= 971 + 10 ->
  SFdiv prec emax (S754_finite s m e) kilo = S754_finite s m (e - 10).
Proof.
  intros s m e Hd Hlo Hhi.
  unfold SFdiv, kilo, SFdiv_core_binary.
  cbn [Zdigits2]. rewrite Hd.
  change (Z.pos (digits2_pos 4503599627370496)) with 53.
  rewrite fexp64.
  replace (Z.min (Z.max (53 + e - (53 + -42) - 53) (-1074)) (e - -42)) with (e - 11) by lia.
  replace (e - -42 - (e - 11)) with 53 by lia.
  rewrite div_eucl_pair.
  rewrite Z.shiftl_mul_pow2 by lia.
  replace (Z.pos m * 2 ^ 53) with (Z.pos m~0 * 4503599627370496) by lia.
  rewrite Z.div_mul by lia. rewrite Z.mod_mul by lia.
  change (new_location 4503599627370496 0) with loc_Exact.
  unfold binary_round_aux, shr_fexp.
  cbn [Zdigits2 digits2_pos shr_record_of_loc].
  rewrite Pos2Z.inj_succ, Hd.
  rewrite !fexp64.
  replace (Z.max (Z.succ 53 + (e - 11) - 53) (-1074) - (e - 11)) with 1 by lia.
  cbn [shr iter_pos shr_1 shr_m loc_of_shr_record round_nearest_even orb].
  cbn [Zdigits2]. rewrite Hd, fexp64.
  replace (Z.max (53 + (e - 11 + 1) - 53) (-1074) - (e - 11 + 1)) with 0 by lia.
  cbn [shr shr_m].
  replace (e - 11 + 1) with (e - 10) by lia.
  assert (H : (e - 10 <=? emax - prec) = true) by (apply Z.leb_le; unfold emax, prec; lia).
  rewrite H. rewrite xorb_false_r. reflexivity.
Qed.

Lemma shr_exponent_shift : forall mrs e n c,
  shr mrs (e - c) n = (fst (shr mrs e n), snd (shr mrs e n) - c).
Proof.
  intros mrs e n c. destruct n; cbn [shr fst snd]; f_equal; lia.
Qed.

(** Rounding does not look at the exponent as long as the result stays normal. *)
Lemma binary_round_aux_shift : forall s q e l sr mr er c,
  0 <= c ->
  binary_round_aux prec emax s q e l = S754_finite sr mr er ->
  Z.pos (digits2_pos mr) = 53 ->
  -1074 + c <= er ->
  -1074 + c + 53 <= Zdigits2 q + e ->
  binary_round_aux prec emax s q (e - c) l = S754_finite sr mr (er - c).
Proof.
  intros s q e l sr mr er c Hc H Hd Her Hz1.
  unfold binary_round_aux, shr_fexp in *.
  rewrite !fexp64 in *.
  replace (Z.max (Zdigits2 q + (e - c) - 53) (-1074) - (e - c))
    with (Z.max (Zdigits2 q + e - 53) (-1074) - e) by lia.
  rewrite shr_exponent_shift.
  destruct (shr (shr_record_of_loc q l) e (Z.max (Zdigits2 q + e - 53) (-1074) - e))
    as [mrs' e1].
  cbn [fst snd].
  set (m1 := round_nearest_even (shr_m mrs') (loc_of_shr_record mrs')) in *.
  rewrite !fexp64 in *.
  assert (Hn2 : Z.max (Zdigits2 m1 + (e1 - c) - 53) (-1074) - (e1 - c)
                = Z.max (Zdigits2 m1 + e1 - 53) (-1074) - e1).
  { destruct (Z.max (Zdigits2 m1 + e1 - 53) (-1074) - e1) as [| p | p] eqn:En2;
      cbn [shr shr_record_of_loc shr_m] in H.
    - destruct m1 as [| pm | pm]; try discriminate H.
      destruct (e1 <=? emax - prec); try discriminate H.
      injection H as _ Hm He. subst pm. cbn [Zdigits2] in *. lia.
    - destruct (shr_m (iter_pos shr_1 p (Build_shr_record m1 false false)));
        try discriminate H.
      destruct (e1 + Z.pos p <=? emax - prec); try discriminate H.
      injection H as _ Hm He. lia.
    - destruct m1 as [| pm | pm]; try discriminate H.
      destruct (e1 <=? emax - prec); try discriminate H.
      injection H as _ Hm He. subst pm. cbn [Zdigits2] in *. lia. }
  rewrite Hn2. rewrite shr_exponent_shift.
  destruct (shr (shr_record_of_loc m1 loc_Exact) e1 (Z.max (Zdigits2 m1 + e1 - 53) (-1074) - e1))
    as [mrs'' e2].
  cbn [fst snd].
  destruct (shr_m mrs''); try discriminate H.
  destruct (e2 <=? emax - prec) eqn:Eov; try discriminate H.
  injection H as Hs Hm He. subst.
  assert (Hov : (er - c <=? emax - prec) = true).
  { apply Z.leb_le. apply Z.leb_le in Eov. lia. }
  rewrite Hov. reflexivity.
Qed.

Lemma SFdiv_core_shift : forall m1 e1 m2 e2 c,
  0 <= c ->
  -1074 + c <= Z.pos (digits2_pos m1) + e1 - (Z.pos (digits2_pos m2) + e2) - 53 ->
  SFdiv_core_binary prec emax (Z.pos m1) (e1 - c) (Z.pos m2) e2
  = let '(q, e', l) := SFdiv_core_binary prec emax (Z.pos m1) e1 (Z.pos m2) e2 in
    (q, e' - c, l).
Proof.
  intros m1 e1 m2 e2 c Hc HD.
  unfold SFdiv_core_binary. cbn [Zdigits2]. rewrite !fexp64.
  set (d1 := Z.pos (digits2_pos m1)) in *.
  set (d2 := Z.pos (digits2_pos m2)) in *.
  replace (Z.min (Z.max (d1 + (e1 - c) - (d2 + e2) - 53) (-1074)) (e1 - c - e2))
    with (Z.min (Z.max (d1 + e1 - (d2 + e2) - 53) (-1074)) (e1 - e2) - c) by lia.
  set (ee := Z.min (Z.max (d1 + e1 - (d2 + e2) - 53) (-1074)) (e1 - e2)).
  replace (e1 - c - e2 - (ee - c)) with (e1 - e2 - ee) by lia.
  destruct (Z.div_eucl
              match e1 - e2 - ee with
              | 0 => Z.pos m1
              | Z.pos _ => Z.shiftl (Z.pos m1) (e1 - e2 - ee)
              | Z.neg _ => 0
              end (Z.pos m2)) as [q r].
  reflexivity.
Qed.

Lemma SFdiv_dividend_shift : forall sx mx ex sd md ed sr mr er c,
  0 <= c ->
  SFdiv prec emax (S754_finite sx mx ex) (S754_finite sd md ed) = S754_finite sr mr er ->
  Z.pos (digits2_pos mr) = 53 ->
  -1074 + c <= er ->
  -1074 + c + 53 <= Z.pos (digits2_pos mx) + ex - (Z.pos (digits2_pos md) + ed) ->
  SFdiv prec emax (S754_finite sx mx (ex - c)) (S754_finite sd md ed)
  = S754_finite sr mr (er - c).
Proof.
  intros sx mx ex sd md ed sr mr er c Hc H Hd Her HD.
  unfold SFdiv in *.
  rewrite SFdiv_core_shift by lia.
  destruct (SFdiv_core_binary prec emax (Z.pos mx) ex (Z.pos md) ed) as [[q e'] l] eqn:Ecore.
  apply binary_round_aux_shift; try assumption.
  destruct (SFdiv_core_quotient _ _ _ _ _ _ _ Ecore) as (_ & _ & Hmag & _); lia.
Qed.

Lemma valid_exponent : forall (x : float) s m e,
  Prim2SF x = S754_finite s m e -> e <= 971.
Proof.
  intros x s m e H. pose proof (Prim2SF_valid x) as Hv. rewrite H in Hv.
  cbn [valid_binary] in Hv. unfold bounded in Hv.
  apply andb_true_iff in Hv. destruct Hv as [_ Hv]. apply Z.leb_le in Hv.
  unfold emax, prec in Hv. lia.
Qed.

(** For such operands the division by 1024 may be taken before or after the
    division by [d]: the two doubles are the same. *)
Lemma div_kilo_commutes : forall x d : float,
  kilo_exact x d = true -> ((x / d) / 1024 = (x / 1024) / d)%float.
Proof.
  intros x d H. apply Prim2SF_inj.
  rewrite !div_spec, Prim2SF_1024. unfold SF64div.
  unfold kilo_exact in H.
  destruct (Prim2SF x) as [sx | sx | | sx mx ex] eqn:Ex; try discriminate H.
  - destruct (Prim2SF d) as [sd | sd | | sd md ed]; try discriminate H.
    cbn [SFdiv kilo]. rewrite !xorb_false_r. reflexivity.
  - apply andb_true_iff in H. destruct H as [H HD].
    apply andb_true_iff in H. destruct H as [H Hr].
    apply andb_true_iff in H. destruct H as [Hx Hd].
    destruct (Prim2SF d) as [sd | sd | | sd md ed] eqn:Ed; try discriminate Hd.
    rewrite div_spec, Ex, Ed in Hr. unfold SF64div in Hr.
    destruct (SFdiv prec emax (S754_finite sx mx ex) (S754_finite sd md ed))
      as [sr | sr | | sr mr er] eqn:Er; try discriminate Hr.
    cbn [normal_with_room] in Hx, Hr. cbn [magnitude] in HD.
    apply andb_true_iff in Hx. destruct Hx as [Hx1 Hx2].
    apply andb_true_iff in Hr. destruct Hr as [Hr1 Hr2].
    apply Z.eqb_eq in Hx1, Hr1. apply Z.leb_le in Hx2, Hr2, HD.
    assert (Hxe : (ex <= 971)%Z) by (apply (valid_exponent x sx mx ex Ex)).
    assert (Hre : (er <= 971)%Z).
    { apply (valid_exponent (x / d)%float sr mr er).
      rewrite div_spec, Ex, Ed. exact Er. }
    rewrite (SFdiv_kilo sr mr er) by lia.
    rewrite (SFdiv_kilo sx mx ex) by lia.
    symmetry. apply SFdiv_dividend_shift; try lia. exact Er.
Qed.

End KiloScaling.

(* ================================================================== *)
(** * The analyzeLength boundary *)
(* ================================================================== *)

Section Boundary.

Import Numeric TrafficAnalyzer.
Open Scope float_scope.

(** C10, as the code has it: for every finite non-negative number [x] whose
    floor fits [size_t], [analyzeLength] hands the statistics engine the
    byte count [floor x]: the fraction is dropped, the number is neither
    rounded to nearest nor rejected. *)
Theorem AnalyzeLength_processes_floor :
  forall (s : State) (now : time_point) (x : float) (q : Q),
    double_value x = Some q -> (0 <= q)%Q -> (Qfloor q <= SIZE_MAX)%Z ->
    AnalyzeLength s now (JsNumber x) = Some (ProcessTrafficCore s now (Qfloor q)).
Proof.
  intros s now x q Hv Hq Hmax. unfold AnalyzeLength.
  rewrite (static_cast_size_t_floor x q Hv Hq Hmax). reflexivity.
Qed.

(** 2.7 is processed as 2 bytes (to nearest it would be 3). *)
Lemma AnalyzeLength_processes_floor_witness :
  AnalyzeLength fresh 5%Z (JsNumber 2.7) = Some (ProcessTrafficCore fresh 5%Z 2%Z).
Proof.
  apply (AnalyzeLength_processes_floor fresh 5%Z 2.7
           (6079859496950170 # 2251799813685248)).
  - vm_compute. reflexivity.
  - vm_compute. discriminate.
  - vm_compute. discriminate.
Defined.

(** C10 fails as stated at 1e30, a finite non-negative double: its floor is
    above every [size_t] value, the conversion is undefined there and the
    engine is not handed [floor x]. *)
Lemma AnalyzeLength_floor_out_of_range :
  double_value 1e30 = Some (1000000000000000019884624838656 # 1)%Q
  /\ (SIZE_MAX < Qfloor (1000000000000000019884624838656 # 1))%Z
  /\ AnalyzeLength fresh 5%Z (JsNumber 1e30)
     <> Some (ProcessTrafficCore fresh 5%Z (Qfloor (1000000000000000019884624838656 # 1))).
Proof.
  split; [ | split ].
  - vm_compute. reflexivity.
  - vm_compute. reflexivity.
  - vm_compute. discriminate.
Qed.

(** C3, as the code has it: an argument that is not a Number is turned away
    at the boundary of [analyzeLength] and the globals keep their values, as
    is one that is not an ArrayBuffer at the boundary of [analyzeTraffic]; a
    negative Number is not turned away: one above -1 becomes the byte count
    0 and is processed like any other event, one at or below -1 is outside
    the domain of the conversion to [size_t]. *)
Theorem AnalyzeLength_boundary :
  forall (s : State) (now : time_point),
    AnalyzeLength s now JsOther = Some (s, JsNull)
    /\ (forall n, AnalyzeLength s now (JsArrayBuffer n) = Some (s, JsNull))
    /\ AnalyzeTraffic s now JsOther = (s, JsTypeError)
    /\ (forall d, AnalyzeTraffic s now (JsNumber d) = (s, JsTypeError))
    /\ (forall x q, double_value x = Some q -> (-1 < q)%Q -> (q < 0)%Q ->
          AnalyzeLength s now (JsNumber x) = Some (ProcessTrafficCore s now 0%Z))
    /\ (forall x q, double_value x = Some q -> (q <= -1)%Q ->
          AnalyzeLength s now (JsNumber x) = None).
Proof.
  intros s now. repeat split.
  - intros x q Hv Hlo Hhi. unfold AnalyzeLength, static_cast_size_t.
    rewrite Hv. cbv zeta. rewrite (Qtrunc_small_negative q Hlo Hhi).
    reflexivity.
  - intros x q Hv Hq. unfold AnalyzeLength, static_cast_size_t.
    rewrite Hv. cbv zeta.
    pose proof (Qtrunc_below_minus_one q Hq) as Hneg.
    apply Z.leb_gt in Hneg. rewrite Hneg. reflexivity.
Qed.

(** -0.5 is processed as a zero-byte packet; -3 has no defined conversion. *)
Lemma AnalyzeLength_boundary_witness :
  AnalyzeLength fresh 5%Z (JsNumber (-0.5)) = Some (ProcessTrafficCore fresh 5%Z 0%Z)
  /\ AnalyzeLength fresh 5%Z (JsNumber (-3.0)) = None.
Proof.
  destruct (AnalyzeLength_boundary fresh 5%Z) as (_ & _ & _ & _ & Hsmall & Hbig).
  split.
  - apply (Hsmall (-0.5) (-4503599627370496 # 9007199254740992)%Q).
    + vm_compute. reflexivity.
    + vm_compute. reflexivity.
    + vm_compute. reflexivity.
  - apply (Hbig (-3.0) (-6755399441055744 # 2251799813685248)%Q).
    + vm_compute. reflexivity.
    + vm_compute. discriminate.
Defined.

(** C3 fails as stated at -0.5: the call is not turned away and the globals
    change. On a fresh engine it consumes the first-packet flag and sets both
    timestamps; on a running one, 100 ms after the last tick, it computes a
    tick: the window, the counter and the last-packet time all change. *)
Lemma AnalyzeLength_negative_changes_state :
  (exists s' r, AnalyzeLength fresh 5%Z (JsNumber (-0.5)) = Some (s', r)
                /\ g_isFirstPacket s' = false /\ g_isFirstPacket fresh = true
                /\ g_lastPacketTime s' = 5%Z /\ g_lastPacketTime fresh = 0%Z)
  /\ (exists s' r, AnalyzeLength running 300000000%Z (JsNumber (-0.5)) = Some (s', r)
                /\ g_speedWindow running = [78.125]
                /\ g_speedWindow s' = [78.125; 0]
                /\ g_sampleCount running = 1%Z /\ g_sampleCount s' = 2%Z
                /\ g_lastPacketTime running = 200000000%Z
                /\ g_lastPacketTime s' = 300000000%Z).
Proof.
  split.
  - eexists. eexists. split; [ vm_compute; reflexivity | ].
    repeat split.
  - eexists. eexists. split; [ vm_compute; reflexivity | ].
    vm_compute. repeat split.
Qed.

End Boundary.

(* ================================================================== *)
(** * The statistics engine *)
(* ================================================================== *)

Section Engine.

Import Numeric TrafficAnalyzer.
Open Scope float_scope.

(** The debounce test in clock ticks: less than 100 ms have passed. *)
Lemma debounce_test : forall d : Z,
  (duration_cast_us d <? MIN_CALC_INTERVAL_US)%Z = true <-> (d < 100000000)%Z.
Proof.
  intro d. unfold duration_cast_us, MIN_CALC_INTERVAL_US.
  rewrite Z.ltb_lt.
  pose proof (Z.quot_rem' d 1000) as Hd.
  destruct (Z.le_gt_cases 0 d) as [Hpos | Hneg].
  - pose proof (Z.rem_bound_pos d 1000 Hpos ltac:(lia)). lia.
  - assert (Hq : (d ÷ 1000 <= 0)%Z).
    { replace d with (- (- d))%Z by lia. rewrite Z.quot_opp_l by lia.
      pose proof (Z.quot_pos (- d) 1000 ltac:(lia) ltac:(lia)). lia. }
    lia.
Qed.

Lemma tick_test : forall d : Z,
  (duration_cast_us d <? MIN_CALC_INTERVAL_US)%Z = false <-> (100000000 <= d)%Z.
Proof.
  intro d. pose proof (debounce_test d) as H.
  destruct (duration_cast_us d <? MIN_CALC_INTERVAL_US)%Z; split; intro Hd.
  - discriminate Hd.
  - destruct H as [H _]. specialize (H eq_refl). lia.
  - destruct (Z.lt_ge_cases d 100000000) as [Hlt | Hge]; [| exact Hge].
    apply H in Hlt. discriminate Hlt.
  - reflexivity.
Qed.

Lemma push_window_length : forall w v,
  (length w <= WINDOW_SIZE)%nat -> (length (push_window w v) <= WINDOW_SIZE)%nat.
Proof.
  intros w v Hw. unfold push_window, WINDOW_SIZE in *.
  destruct (100 <=? length w)%nat eqn:E.
  - apply Nat.leb_le in E. rewrite length_app. cbn [length].
    destruct w as [| a w']; cbn [tl length] in *; lia.
  - apply Nat.leb_gt in E. rewrite length_app. cbn [length]. lia.
Qed.

Lemma push_window_last : forall w v, last (push_window w v) 0 = v.
Proof. intros w v. unfold push_window. apply last_last. Qed.

Lemma push_window_cons : forall w v, exists a l, push_window w v = a :: l.
Proof.
  intros w v. unfold push_window.
  destruct (if (WINDOW_SIZE <=? length w)%nat then tl w else w) as [| a l].
  - exists v, []. reflexivity.
  - exists a, (l ++ [v]). reflexivity.
Qed.

(** [CalculateJitter] around the window's own mean is the population
    standard deviation as soon as the window holds two samples. *)
Lemma accumulate_sum : forall (w : list float) (acc : float),
  fold_left (fun acc v => acc + v) w acc = sum_onto acc w.
Proof.
  induction w as [| v w IH]; intro acc; [ reflexivity | ].
  cbn [fold_left sum_onto]. apply IH.
Qed.

Lemma sum_sq_diff_deviations : forall (w : list float) (mean acc : float),
  fold_left (fun acc val => let diff := val - mean in acc + diff * diff) w acc
  = squared_deviations_onto acc mean w.
Proof.
  induction w as [| v w IH]; intros mean acc; [ reflexivity | ].
  cbn [fold_left squared_deviations_onto]. apply IH.
Qed.

(** What [ProcessTrafficCore] hands to [CalculateJitter] is the mean of the
    window. *)
Lemma accumulate_mean : forall w : list float,
  accumulate w / size_as_double w = window_mean w.
Proof.
  intro w. unfold accumulate, window_mean, size_as_double, sample_count.
  rewrite accumulate_sum. reflexivity.
Qed.

Lemma CalculateJitter_population : forall w,
  (2 <= length w)%nat ->
  CalculateJitter w (accumulate w / size_as_double w) = population_stddev w.
Proof.
  intros w Hw. unfold CalculateJitter.
  apply Nat.ltb_ge in Hw. rewrite Hw.
  rewrite accumulate_mean. unfold sum_sq_diff, population_stddev.
  rewrite sum_sq_diff_deviations. reflexivity.
Qed.

Lemma CalculateJitter_single : forall w mean,
  (length w < 2)%nat -> CalculateJitter w mean = 0.
Proof.
  intros w mean Hw. unfold CalculateJitter.
  apply Nat.ltb_lt in Hw. rewrite Hw. reflexivity.
Qed.

(** C6: a packet that arrives 100 ms or more after the last computed tick
    computes a tick. With [pending] the accumulator including this packet:
    [instantKbps] is [pending * 8] bits over the elapsed seconds, scaled by
    kilo = 1024; the code divides by the seconds first and by 1024 second,
    which is the double [(pending * 8 / 1024) / elapsedSeconds] whenever
    the bits and the rate are normal doubles or the bits are zero;
    [avgKbps] is [(totalBytes * 8 / 1024)] over the seconds since the
    session started, and 0 when that time is zero; the sample is pushed into
    the window, which evicts its oldest at capacity 100; [jitter] is the
    population standard deviation of that window around its own mean,
    [population_stddev] (0 for a single sample); the accumulator is cleared
    and the last-packet time becomes [now]. *)
Theorem tick_computes_statistics :
  forall (s : State) (now : time_point) (n : Z),
    g_isFirstPacket s = false ->
    (100000000 <= now - g_lastPacketTime s)%Z ->
    let pending := g_accumulatedBytes s + double_of_Z n in
    let total := g_totalBytes s + double_of_Z n in
    let elapsedSeconds :=
      double_of_Z (duration_cast_us (now - g_lastPacketTime s)) / 1000000.0 in
    let sessionSeconds :=
      double_of_Z (duration_cast_us (now - g_sessionStartTime s)) / 1000000.0 in
    let instant := (pending * 8.0 / elapsedSeconds) / 1024.0 in
    let window :=
      (if (100 <=? length (g_speedWindow s))%nat
       then tl (g_speedWindow s) else g_speedWindow s) ++ [instant] in
    exists (s' : State) (snap : Snapshot),
      ProcessTrafficCore s now n = (s', JsResult snap)
      /\ instantKbps snap = instant
      /\ (kilo_exact (pending * 8.0) elapsedSeconds = true ->
            instantKbps snap = (pending * 8.0 / 1024.0) / elapsedSeconds)
      /\ avgKbps snap =
           (if 0 <? sessionSeconds then (total * 8.0 / 1024.0) / sessionSeconds else 0)
      /\ (duration_cast_us (now - g_sessionStartTime s) = 0%Z -> avgKbps snap = 0)
      /\ totalBytes snap = total
      /\ g_speedWindow s' = window
      /\ ((length (g_speedWindow s) <= 100)%nat -> (length window <= 100)%nat)
      /\ ((2 <= length window)%nat -> jitter snap = population_stddev window)
      /\ ((length window < 2)%nat -> jitter snap = 0)
      /\ g_accumulatedBytes s' = 0
      /\ g_lastPacketTime s' = now.
Proof.
  intros s now n Hfirst Helapsed pending total elapsedSeconds sessionSeconds
    instant window.
  apply tick_test in Helapsed.
  unfold ProcessTrafficCore. rewrite Hfirst, Helapsed.
  fold pending total elapsedSeconds sessionSeconds instant.
  change (push_window (g_speedWindow s) instant) with window.
  eexists. eexists. split; [ reflexivity | ].
  cbn [instantKbps avgKbps totalBytes jitter g_speedWindow g_accumulatedBytes
       g_lastPacketTime CreateResultObject].
  repeat split.
  - intro Hexact. unfold instant. apply div_kilo_commutes. exact Hexact.
  - intro Hzero. unfold sessionSeconds. rewrite Hzero. reflexivity.
  - intro Hlen. apply (push_window_length (g_speedWindow s) instant Hlen).
  - intro Hlen. apply CalculateJitter_population. exact Hlen.
  - intro Hlen. apply CalculateJitter_single. exact Hlen.
Qed.

End Engine.

Section EngineWitness.

Import Numeric TrafficAnalyzer.
Open Scope float_scope.

(** [running] has computed one tick, 78.125 kbps at 200 ms. 3000 bytes at
    400 ms are 117.1875 kbps over 0.2 s, with the division by 1024 taken
    last or first; the window holds both samples, their mean is 97.65625 and
    each lies 19.53125 from it, which is the jitter; 5000 bytes over the
    0.4 s of the session are 97.65625 kbps. *)
Lemma tick_computes_statistics_witness :
  exists (s' : State) (snap : Snapshot),
    ProcessTrafficCore running 400000000%Z 3000%Z = (s', JsResult snap)
    /\ instantKbps snap = 117.1875
    /\ instantKbps snap
       = ((g_accumulatedBytes running + double_of_Z 3000) * 8.0 / 1024.0)
         / (double_of_Z 200000 / 1000000.0)
    /\ avgKbps snap = 97.65625
    /\ g_speedWindow s' = [78.125; 117.1875]
    /\ window_mean (g_speedWindow s') = 97.65625
    /\ jitter snap = population_stddev [78.125; 117.1875]
    /\ jitter snap = 19.53125
    /\ g_accumulatedBytes s' = 0
    /\ g_lastPacketTime s' = 400000000%Z.
Proof.
  destruct (tick_computes_statistics running 400000000%Z 3000%Z)
    as (s' & snap & Hrun & Hinst & Hkilo & Havg & _ & _ & Hwin & _ & Hjit & _ & Hacc & Hlast).
  - reflexivity.
  - vm_compute. discriminate.
  - assert (Hw : g_speedWindow s' = [78.125; 117.1875])
      by (rewrite Hwin; vm_compute; reflexivity).
    assert (Hj : jitter snap = population_stddev [78.125; 117.1875]).
    { rewrite Hjit; [ f_equal; vm_compute; reflexivity | vm_compute; lia ]. }
    exists s', snap. split; [ exact Hrun | ].
    split; [ rewrite Hinst; vm_compute; reflexivity | ].
    split; [ apply Hkilo; vm_compute; reflexivity | ].
    split; [ rewrite Havg; vm_compute; reflexivity | ].
    split; [ exact Hw | ].
    split; [ rewrite Hw; vm_compute; reflexivity | ].
    split; [ exact Hj | ].
    split; [ rewrite Hj; vm_compute; reflexivity | ].
    split; [ exact Hacc | exact Hlast ].
Defined.

End EngineWitness.

(* ================================================================== *)
(** * Packets inside the 100 ms floor *)
(* ================================================================== *)

Section Debounce.

Import Numeric TrafficAnalyzer.
Open Scope float_scope.

(** What a packet inside the floor returns and leaves behind: the window,
    the extremes, the last-packet time and the stored average are not
    written; the average handed back is the stored one. *)
Lemma debounce_snapshot :
  forall (s : State) (now : time_point) (n : Z),
    g_isFirstPacket s = false ->
    (now - g_lastPacketTime s < 100000000)%Z ->
    exists (s' : State) (snap : Snapshot),
      ProcessTrafficCore s now n = (s', JsResult snap)
      /\ instantKbps snap = match g_speedWindow s with [] => 0 | _ => last (g_speedWindow s) 0 end
      /\ avgKbps snap = g_globalAvgKbps s
      /\ maxKbps snap = g_globalMax s
      /\ minKbps snap = reported_min (g_globalMin s)
      /\ totalBytes snap = g_totalBytes s + double_of_Z n
      /\ g_speedWindow s' = g_speedWindow s
      /\ g_globalAvgKbps s' = g_globalAvgKbps s
      /\ g_accumulatedBytes s' = g_accumulatedBytes s + double_of_Z n
      /\ g_lastPacketTime s' = g_lastPacketTime s.
Proof.
  intros s now n Hfirst Helapsed.
  apply debounce_test in Helapsed.
  unfold ProcessTrafficCore. rewrite Hfirst, Helapsed.
  eexists. eexists. split; [ reflexivity | ].
  cbn. repeat split.
Qed.

(** The part of C1 the code keeps: a packet less than 100 ms after a
    computed tick repeats that tick's instantaneous rate, jitter and
    extremes, and its total is the tick's total plus the new bytes. The
    average is repeated as well: it is the one stored by the tick. *)
Lemma debounce_repeats_tick :
  forall (s : State) (t1 t2 : time_point) (n1 n2 : Z),
    g_isFirstPacket s = false ->
    (100000000 <= t1 - g_lastPacketTime s)%Z ->
    (t2 - t1 < 100000000)%Z ->
    exists (s1 s2 : State) (a b : Snapshot),
      ProcessTrafficCore s t1 n1 = (s1, JsResult a)
      /\ ProcessTrafficCore s1 t2 n2 = (s2, JsResult b)
      /\ instantKbps b = instantKbps a
      /\ jitter b = jitter a
      /\ maxKbps b = maxKbps a
      /\ minKbps b = minKbps a
      /\ avgKbps b = avgKbps a
      /\ totalBytes b = totalBytes a + double_of_Z n2.
Proof.
  intros s t1 t2 n1 n2 Hfirst Htick Hclose.
  apply tick_test in Htick. apply debounce_test in Hclose.
  unfold ProcessTrafficCore at 1. rewrite Hfirst, Htick.
  eexists. eexists. eexists. eexists. split; [ reflexivity | ].
  unfold ProcessTrafficCore.
  cbn [g_isFirstPacket g_lastPacketTime g_speedWindow g_totalBytes
       g_accumulatedBytes g_globalMax g_globalAvgKbps g_globalMin
       g_sessionStartTime g_sampleCount].
  cbv iota. rewrite Hclose.
  split; [ reflexivity | ].
  set (inst := (g_accumulatedBytes s + double_of_Z n1) * 8.0
               / (double_of_Z (duration_cast_us (t1 - g_lastPacketTime s)) / 1000000.0)
               / 1024.0).
  destruct (push_window_cons (g_speedWindow s) inst) as (x & l & Hw).
  cbn [instantKbps jitter maxKbps minKbps avgKbps totalBytes CreateResultObject].
  repeat split.
  - pose proof (push_window_last (g_speedWindow s) inst) as Hlast.
    rewrite Hw in *. exact Hlast.
  - rewrite Hw. reflexivity.
Qed.

(** C1 at a concrete session: packets of 1000 bytes at 0 ms, 200 ms and
    250 ms. The second computes a tick with average 78.125; the third is
    50 ms later and hands back 78.125 once more, while 3000 bytes over the
    0.25 s of the session are 93.75. *)
Theorem debounce_average_not_refreshed :
  run fresh [CallPacket 0%Z 1000%Z; CallPacket 200000000%Z 1000%Z;
             CallPacket 250000000%Z 1000%Z]
  = [JsEmptyObject;
     JsResult {| instantKbps := 78.125; maxKbps := 78.125; minKbps := 0;
                 avgKbps := 78.125; jitter := 0; totalBytes := 2000 |};
     JsResult {| instantKbps := 78.125; maxKbps := 78.125; minKbps := 0;
                 avgKbps := 78.125; jitter := 0; totalBytes := 3000 |}]
  /\ (double_of_Z 3000 * 8.0 / 1024.0)
       / (double_of_Z (duration_cast_us (250000000 - 0)) / 1000000.0) = 93.75.
Proof.
  split; vm_compute; reflexivity.
Qed.

End Debounce.

(* ================================================================== *)
(** * The global extremes *)
(* ================================================================== *)

Section Extremes.

Import Numeric TrafficAnalyzer.
Open Scope float_scope.

Lemma extremes_ok_fresh : extremes_ok fresh.
Proof.
  unfold extremes_ok. cbn. repeat split. lia.
Qed.

Lemma extremes_ok_reset : forall s now, extremes_ok (ResetState s now).
Proof.
  intros s now. unfold extremes_ok. cbn. repeat split. lia.
Qed.

(** One call of [ProcessTrafficCore] on a state with sound extremes. *)
Lemma extremes_step :
  forall (s : State) (now : time_point) (n : Z),
    extremes_ok s ->
    let s' := fst (ProcessTrafficCore s now n) in
    let r := snd (ProcessTrafficCore s now n) in
    extremes_ok s'
    /\ (g_globalMax s <=? g_globalMax s') = true
    /\ ((r = JsEmptyObject /\ g_globalMax s' = g_globalMax s)
        \/ (exists snap, r = JsResult snap
                         /\ maxKbps snap = g_globalMax s'
                         /\ minKbps snap = reported_min (g_globalMin s'))).
Proof.
  intros s now n (Hmax & Hcount & Hmin). unfold ProcessTrafficCore.
  destruct (g_isFirstPacket s).
  - cbn. repeat split; auto.
  - destruct (duration_cast_us (now - g_lastPacketTime s) <? MIN_CALC_INTERVAL_US)%Z.
    + cbn. repeat split; auto.
      right. eexists. repeat split.
    + cbn.
      remember ((g_accumulatedBytes s + double_of_Z n) * 8 /
                (double_of_Z (duration_cast_us (now - g_lastPacketTime s)) / 1000000) /
                1024) as inst eqn:Hinst.
      clear Hinst.
      split; [ | split ].
      * unfold extremes_ok. cbn. repeat split.
        -- destruct (g_globalMax s <? inst) eqn:E; [ | exact Hmax ].
           apply (ltb_leb_refl_r _ _ E).
        -- lia.
        -- intro H5. assert (H5' : (5 <? g_sampleCount s + 1)%Z = false)
             by (apply Z.ltb_ge; lia).
           rewrite H5'. apply Hmin. lia.
      * destruct (g_globalMax s <? inst) eqn:E; [ | exact Hmax ].
        apply (ltb_leb _ _ E).
      * right. eexists. repeat split.
Qed.

Lemma extremes_ok_exec : forall cs s, extremes_ok s -> extremes_ok (exec s cs).
Proof.
  induction cs as [| c cs IH]; intros s Hs; cbn [exec].
  - exact Hs.
  - apply IH. destruct c as [now n | now]; cbn [do_call fst].
    + apply (extremes_step s now n Hs).
    + apply extremes_ok_reset.
Qed.

Lemma nondecreasing_tail : forall a l, nondecreasing (a :: l) = true -> nondecreasing l = true.
Proof.
  intros a [| b l] H; [ reflexivity | ].
  cbn [nondecreasing] in H. apply andb_true_iff in H. apply H.
Qed.

(** Along a session without a reset the maxima handed back never decrease,
    starting from the stored maximum. *)
Lemma reported_max_nondecreasing :
  forall (evs : list (time_point * Z)) (s : State),
    extremes_ok s ->
    nondecreasing (g_globalMax s :: map maxKbps (snapshots (run s (packets evs)))) = true.
Proof.
  induction evs as [| [now n] evs IH]; intros s Hs.
  - reflexivity.
  - cbn [packets map run do_call fst snd].
    fold (packets evs).
    destruct (extremes_step s now n Hs) as (Hs' & Hle & Hshape).
    specialize (IH _ Hs').
    destruct Hshape as [(Hr & Hsame) | (snap & Hr & Hm & _)]; rewrite Hr.
    + cbn [snapshots]. rewrite <- Hsame. exact IH.
    + cbn [snapshots map]. rewrite Hm.
      change (nondecreasing (g_globalMax s ::
                g_globalMax (fst (ProcessTrafficCore s now n)) ::
                map maxKbps (snapshots (run (fst (ProcessTrafficCore s now n)) (packets evs)))))
        with ((g_globalMax s <=? g_globalMax (fst (ProcessTrafficCore s now n)))
              && nondecreasing (g_globalMax (fst (ProcessTrafficCore s now n)) ::
                   map maxKbps (snapshots (run (fst (ProcessTrafficCore s now n)) (packets evs))))).
      rewrite Hle, IH. reflexivity.
Qed.

(** Writing the minimum: which calls may touch it, and in which direction. *)
Lemma minimum_step :
  forall (s : State) (now : time_point) (n : Z),
    let s' := fst (ProcessTrafficCore s now n) in
    ((g_sampleCount s' <= 5)%Z -> g_globalMin s' = g_globalMin s)
    /\ (g_sampleCount s' = g_sampleCount s
        \/ (g_sampleCount s' = g_sampleCount s + 1)%Z
           /\ g_isFirstPacket s = false
           /\ (100000000 <= now - g_lastPacketTime s)%Z)
    /\ ((0 <=? g_globalMin s) = true ->
          (g_globalMin s' <=? g_globalMin s) = true
          /\ (reported_min (g_globalMin s') <=? reported_min (g_globalMin s)) = true).
Proof.
  intros s now n. unfold ProcessTrafficCore.
  destruct (g_isFirstPacket s) eqn:Hfirst.
  - cbn. repeat split; auto.
    + apply (leb_leb_refl_r _ _ H).
    + apply (leb_leb_refl_r 0). unfold reported_min.
      rewrite (leb_not_ltb _ _ H). exact H.
  - destruct (duration_cast_us (now - g_lastPacketTime s) <? MIN_CALC_INTERVAL_US)%Z
      eqn:Hd.
    + cbn. repeat split; auto.
      * apply (leb_leb_refl_r _ _ H).
      * apply (leb_leb_refl_r 0). unfold reported_min.
        rewrite (leb_not_ltb _ _ H). exact H.
    + cbn.
      remember ((g_accumulatedBytes s + double_of_Z n) * 8 /
                (double_of_Z (duration_cast_us (now - g_lastPacketTime s)) / 1000000) /
                1024) as inst eqn:Hinst.
      clear Hinst.
      split; [ | split ].
      * intro H5. assert (H5' : (5 <? g_sampleCount s + 1)%Z = false)
          by (apply Z.ltb_ge; lia).
        rewrite H5'. reflexivity.
      * right. repeat split. apply tick_test. exact Hd.
      * intro Hinit.
        pose proof (leb_not_ltb _ _ Hinit) as Hnotneg.
        pose proof (leb_leb_refl_r _ _ Hinit) as Hrefl.
        assert (Hrep : reported_min (g_globalMin s) = g_globalMin s)
          by (unfold reported_min; rewrite Hnotneg; reflexivity).
        rewrite Hrep.
        destruct (5 <? g_sampleCount s + 1)%Z;
          [ | split; [ exact Hrefl | rewrite Hrep; exact Hrefl ] ].
        rewrite Hnotneg. cbn [orb].
        destruct (inst <? g_globalMin s) eqn:E;
          [ | split; [ exact Hrefl | rewrite Hrep; exact Hrefl ] ].
        split; [ apply (ltb_leb _ _ E) | ].
        unfold reported_min. destruct (inst <? 0); [ exact Hinit | ].
        apply (ltb_leb _ _ E).
Qed.

(** The sixth computed tick replaces the sentinel by its own sample. *)
Lemma sixth_tick_writes_minimum :
  forall (s : State) (now : time_point) (n : Z) (snap : Snapshot),
    g_globalMin s = -1.0 ->
    snd (ProcessTrafficCore s now n) = JsResult snap ->
    g_sampleCount s = 5%Z ->
    g_sampleCount (fst (ProcessTrafficCore s now n)) = 6%Z ->
    g_globalMin (fst (ProcessTrafficCore s now n)) = instantKbps snap.
Proof.
  intros s now n snap Hsent. unfold ProcessTrafficCore.
  destruct (g_isFirstPacket s).
  - cbn. intros _ H5 H6. lia.
  - destruct (duration_cast_us (now - g_lastPacketTime s) <? MIN_CALC_INTERVAL_US)%Z.
    + cbn. intros _ H5 H6. lia.
    + cbn. intros Hsnap H5 _. injection Hsnap as <-. cbn.
      rewrite H5, Hsent. reflexivity.
Qed.

Lemma session_ok_fresh : session_ok fresh.
Proof.
  unfold session_ok. split; [ apply extremes_ok_fresh | ].
  cbn. repeat split; lia.
Qed.

(** The elapsed microseconds of a computed tick, for clock readings of 63
    bits. *)
Lemma tick_duration_range : forall (now last : time_point),
  (0 <= last < 2 ^ 63)%Z -> (0 <= now < 2 ^ 63)%Z ->
  (duration_cast_us (now - last) <? MIN_CALC_INTERVAL_US)%Z = false ->
  (100000 <= duration_cast_us (now - last))%Z
  /\ (Zdigits2 (duration_cast_us (now - last)) <= 1000)%Z.
Proof.
  intros now last Hlast Hnow Htick.
  pose proof (proj1 (tick_test _) Htick) as Hd.
  apply Z.ltb_ge in Htick. unfold MIN_CALC_INTERVAL_US in Htick.
  split; [ exact Htick | ].
  unfold duration_cast_us in *.
  pose proof (Z.quot_rem' (now - last) 1000) as Hq.
  pose proof (Z.rem_bound_pos (now - last) 1000 ltac:(lia) ltac:(lia)) as Hr.
  pose proof (Zdigits2_upper ((now - last) ÷ 1000) 63 ltac:(lia) ltac:(lia)). lia.
Qed.

(** A deliverable packet keeps the session sound. *)
Lemma session_ok_step :
  forall (s : State) (now : time_point) (n : Z),
    session_ok s -> valid_packet (now, n) = true ->
    session_ok (fst (ProcessTrafficCore s now n)).
Proof.
  intros s now n (Hext & Hacc & Hlast & Hmin) Hv.
  unfold valid_packet in Hv. cbn [fst snd] in Hv.
  apply andb_true_iff in Hv. destruct Hv as [Hv Hn2].
  apply andb_true_iff in Hv. destruct Hv as [Hv Hn1].
  apply andb_true_iff in Hv. destruct Hv as [Ht1 Ht2].
  apply Z.leb_le in Ht1, Hn1, Hn2. apply Z.ltb_lt in Ht2.
  assert (Hbytes : (0 <=? double_of_Z n) = true).
  { apply double_of_Z_nonneg; [ exact Hn1 | ].
    unfold SIZE_MAX in Hn2.
    pose proof (Zdigits2_upper n 64 ltac:(lia) ltac:(lia)). lia. }
  pose proof (add_nonneg _ _ Hacc Hbytes) as Hacc'.
  split; [ apply (extremes_step s now n Hext) | ].
  pose proof Hext as (_ & _ & Hsent).
  unfold ProcessTrafficCore.
  destruct (g_isFirstPacket s).
  - cbn. repeat split; auto; lia.
  - destruct (duration_cast_us (now - g_lastPacketTime s) <? MIN_CALC_INTERVAL_US)%Z
      eqn:Hd.
    + cbn. repeat split; auto; lia.
    + destruct (tick_duration_range now (g_lastPacketTime s) Hlast ltac:(lia) Hd)
        as [Hus Hdig].
      pose proof (rate_nonneg _ _ Hacc' Hus Hdig) as Hrate.
      cbn.
      remember ((g_accumulatedBytes s + double_of_Z n) * 8 /
                (double_of_Z (duration_cast_us (now - g_lastPacketTime s)) / 1000000) /
                1024) as inst eqn:Hinst.
      clear Hinst.
      repeat split; try lia.
      intro H6.
      assert (H5 : (5 <? g_sampleCount s + 1)%Z = true) by (apply Z.ltb_lt; lia).
      rewrite H5.
      destruct (g_globalMin s <? 0) eqn:Hneg; cbn [orb]; [ exact Hrate | ].
      destruct (inst <? g_globalMin s); [ exact Hrate | ].
      destruct (Z.le_gt_cases 6 (g_sampleCount s)) as [Hc | Hc]; [ apply Hmin; exact Hc | ].
      rewrite Hsent in Hneg by lia. discriminate Hneg.
Qed.

Lemma session_ok_exec : forall (evs : list (time_point * Z)) (s : State),
  session_ok s -> forallb valid_packet evs = true -> session_ok (exec s (packets evs)).
Proof.
  induction evs as [| [now n] evs IH]; intros s Hs Hv.
  - exact Hs.
  - cbn [forallb] in Hv. apply andb_true_iff in Hv. destruct Hv as [Hv Hvs].
    cbn [packets map exec do_call fst snd]. fold (packets evs).
    apply IH; [ | exact Hvs ]. apply session_ok_step; assumption.
Qed.

(** C7: in a session without a reset the maxima handed back are
    non-decreasing, from snapshot to snapshot and in the stored value; the
    tick counter advances exactly on computed ticks and the minimum keeps
    its sentinel -1 while the counter is at most 5, so that it can be written
    from the 6th tick on; a stored minimum that is a non-negative number is
    never raised, nor is the minimum handed back; the sixth tick stores its
    own sample as the minimum, and for packets the platform can deliver the
    stored minimum is such a number from the sixth tick on; and a snapshot
    hands back 0 while the stored minimum is below 0. *)
Theorem extremes_tighten :
  forall (evs : list (time_point * Z)),
    nondecreasing (map maxKbps (snapshots (run fresh (packets evs)))) = true
    /\ (forallb valid_packet evs = true ->
        (6 <= g_sampleCount (exec fresh (packets evs)))%Z ->
        (0 <=? g_globalMin (exec fresh (packets evs))) = true)
    /\ forall (now : time_point) (n : Z),
         let s := exec fresh (packets evs) in
         let s' := fst (ProcessTrafficCore s now n) in
         (g_globalMax s <=? g_globalMax s') = true
         /\ (forall snap, snd (ProcessTrafficCore s now n) = JsResult snap ->
               maxKbps snap = g_globalMax s'
               /\ minKbps snap = reported_min (g_globalMin s'))
         /\ (g_sampleCount s' = g_sampleCount s
             \/ (g_sampleCount s' = g_sampleCount s + 1)%Z
                /\ g_isFirstPacket s = false
                /\ (100000000 <= now - g_lastPacketTime s)%Z)
         /\ ((g_sampleCount s' <= 5)%Z ->
               g_globalMin s' = -1.0 /\ reported_min (g_globalMin s') = 0)
         /\ ((g_globalMin s' <? 0) = true -> reported_min (g_globalMin s') = 0)
         /\ (forall snap, snd (ProcessTrafficCore s now n) = JsResult snap ->
               g_sampleCount s = 5%Z -> g_sampleCount s' = 6%Z ->
               g_globalMin s' = instantKbps snap)
         /\ ((0 <=? g_globalMin s) = true ->
               (g_globalMin s' <=? g_globalMin s) = true
               /\ (reported_min (g_globalMin s') <=? reported_min (g_globalMin s)) = true).
Proof.
  intro evs. split; [ | split ].
  - apply (nondecreasing_tail (g_globalMax fresh)).
    apply reported_max_nondecreasing. apply extremes_ok_fresh.
  - intros Hvalid H6.
    destruct (session_ok_exec evs fresh session_ok_fresh Hvalid) as (_ & _ & _ & Hmin).
    apply Hmin. exact H6.
  - intros now n s s'.
    assert (Hs : extremes_ok s) by (apply extremes_ok_exec; apply extremes_ok_fresh).
    destruct (extremes_step s now n Hs) as (Hs' & Hle & Hshape).
    destruct (minimum_step s now n) as (Hkeep & Hcount & Hdown).
    fold s' in Hs', Hle, Hshape, Hkeep, Hcount, Hdown.
    split; [ exact Hle | ].
    split.
    { intros snap Hsnap.
      destruct Hshape as [(Hr & _) | (snap' & Hr & Hm & Hn)].
      - rewrite Hr in Hsnap. discriminate Hsnap.
      - rewrite Hr in Hsnap. injection Hsnap as <-. split; assumption. }
    split; [ exact Hcount | ].
    split.
    { intro H5. destruct Hs' as (_ & _ & Hsent).
      rewrite (Hsent H5). split; reflexivity. }
    split.
    { intro Hneg. unfold reported_min. rewrite Hneg. reflexivity. }
    split; [ | exact Hdown ].
    intros snap Hsnap H5 H6. destruct Hs as (_ & _ & Hsent).
    apply (sixth_tick_writes_minimum s now n snap); auto.
    apply Hsent. lia.
Qed.

(** After six ticks the stored minimum is 78.125; a slower tick at 700 ms
    (500 bytes over 0.1 s) lowers it to 39.0625, and the maximum stays. *)
Lemma extremes_tighten_witness :
  g_globalMin (exec fresh (packets seven_packets)) = 78.125
  /\ (0 <=? g_globalMin (exec fresh (packets seven_packets))) = true
  /\ (g_globalMin (fst (ProcessTrafficCore (exec fresh (packets seven_packets))
                          700000000%Z 500%Z))
      <=? g_globalMin (exec fresh (packets seven_packets))) = true
  /\ (g_globalMax (exec fresh (packets seven_packets))
      <=? g_globalMax (fst (ProcessTrafficCore (exec fresh (packets seven_packets))
                              700000000%Z 500%Z))) = true
  /\ nondecreasing (map maxKbps (snapshots (run fresh (packets seven_packets)))) = true.
Proof.
  destruct (extremes_tighten seven_packets) as (Hmax & Hinit & Hstep).
  destruct (Hstep 700000000%Z 500%Z) as (Hle & _ & _ & _ & _ & _ & Hdown).
  split; [ vm_compute; reflexivity | ].
  split; [ apply Hinit; [ vm_compute; reflexivity | vm_compute; discriminate ] | ].
  split; [ apply Hdown; vm_compute; reflexivity | ].
  split; [ exact Hle | exact Hmax ].
Defined.

End Extremes.

(* ================================================================== *)
(** * Resetting the session *)
(* ================================================================== *)

Section ResetSession.

Import Numeric TrafficAnalyzer.
Open Scope float_scope.

(** Before the first packet the two timestamps are dead: two states that
    agree on everything else answer every call alike. *)
Lemma first_call_forgets_timestamps :
  forall (a b : State) (c : call),
    same_but_timestamps a b -> g_isFirstPacket a = true ->
    do_call a c = do_call b c.
Proof.
  intros [wa ta la fa aa xa va ma sa ca] [wb tb lb fb ab xb vb mb sb cb] c H Hf.
  unfold same_but_timestamps in H. cbn in H, Hf.
  destruct H as (-> & -> & <- & -> & -> & -> & -> & ->). subst fa.
  destruct c as [now n | now]; reflexivity.
Qed.

(** [ResetState] writes every global but [g_globalAvgKbps]. *)
Lemma ResetState_fields :
  forall (s : State) (now : time_point),
    let r := ResetState s now in
    g_speedWindow r = [] /\ g_totalBytes r = 0 /\ g_accumulatedBytes r = 0
    /\ g_isFirstPacket r = true /\ g_globalMax r = 0 /\ g_globalMin r = -1.0
    /\ g_sampleCount r = 0%Z
    /\ g_lastPacketTime r = now /\ g_sessionStartTime r = now
    /\ g_globalAvgKbps r = g_globalAvgKbps s.
Proof.
  intros s now. cbn. repeat split.
Qed.

(** When the stored average is 0 at the reset, the session that follows is
    the one a fresh engine would run. *)
Lemma reset_like_fresh_when_average_zero :
  forall (s : State) (now : time_point) (cs : list call),
    g_globalAvgKbps s = 0 ->
    run (ResetState s now) cs = run fresh cs.
Proof.
  intros s now cs Havg. destruct cs as [| c cs]; [ reflexivity | ].
  cbn [run].
  rewrite (first_call_forgets_timestamps (ResetState s now) fresh c).
  - reflexivity.
  - unfold same_but_timestamps. cbn. rewrite Havg. repeat split.
  - reflexivity.
Qed.

(** C8 at a concrete session. [running] has computed one tick and stores
    the average 78.125. After a reset at 300 ms, packets of 10 bytes at
    400 ms and 450 ms get 78.125 as their average; a fresh engine given the
    same two packets answers 0. *)
Theorem reset_keeps_stored_average :
  g_globalAvgKbps (ResetState running 300000000%Z) = 78.125
  /\ run (ResetState running 300000000%Z)
         [CallPacket 400000000%Z 10%Z; CallPacket 450000000%Z 10%Z]
     = [JsEmptyObject;
        JsResult {| instantKbps := 0; maxKbps := 0; minKbps := 0;
                    avgKbps := 78.125; jitter := 0; totalBytes := 20 |}]
  /\ run fresh [CallPacket 400000000%Z 10%Z; CallPacket 450000000%Z 10%Z]
     = [JsEmptyObject;
        JsResult {| instantKbps := 0; maxKbps := 0; minKbps := 0;
                    avgKbps := 0; jitter := 0; totalBytes := 20 |}].
Proof.
  repeat split; vm_compute; reflexivity.
Qed.

End ResetSession.

(* ================================================================== *)
(** * The chart sample buffer *)
(* ================================================================== *)

Section SampleBuffer.

Import Numeric RenderManager.
Open Scope float_scope.

Context {A : Type}.

Lemma lastn_all : forall (n : nat) (l : list A), (length l <= n)%nat -> lastn n l = l.
Proof.
  intros n l H. unfold lastn. replace (length l - n)%nat with 0%nat by lia.
  reflexivity.
Qed.

Lemma lastn_length : forall (n : nat) (l : list A), (length (lastn n l) <= n)%nat.
Proof.
  intros n l. unfold lastn. rewrite length_skipn. lia.
Qed.

(** Keeping the last [n] of a prefix first does not change the last [n] of
    the whole. *)
Lemma lastn_app_lastn : forall (n : nat) (a b : list A),
  lastn n (lastn n a ++ b) = lastn n (a ++ b).
Proof.
  intros n a b. unfold lastn.
  rewrite !length_app, length_skipn, !skipn_app, skipn_skipn, length_skipn.
  f_equal; f_equal; lia.
Qed.

End SampleBuffer.

Section ChartBuffer.

Import Numeric RenderManager.
Open Scope float_scope.

Lemma PushBuffer_lastn : forall (h : list float) (v : float),
  (length h <= MAX_HISTORY_SIZE)%nat ->
  PushBuffer h v = lastn MAX_HISTORY_SIZE (h ++ [v]).
Proof.
  intros h v Hh. unfold PushBuffer, lastn, MAX_HISTORY_SIZE in *.
  rewrite length_app. cbn [length].
  destruct (15 <? length h + 1)%nat eqn:E.
  - apply Nat.ltb_lt in E.
    replace (length h + 1 - 15)%nat with 1%nat by lia.
    destruct (h ++ [v]); reflexivity.
  - apply Nat.ltb_ge in E.
    replace (length h + 1 - 15)%nat with 0%nat by lia. reflexivity.
Qed.

(** The renderer writes the guard and nothing else. *)
Lemma DrawFrame_state : forall (st : RenderState) (env : FrameEnv),
  fst (DrawFrame st env) = set_rendering st false.
Proof.
  intros st env. unfold DrawFrame.
  destruct (nativeWindow_ st); [ | reflexivity ].
  destruct (negb (request_ret env =? 0)%Z || negb (request_buffer env));
    [ reflexivity | ].
  destruct (negb (virAddr_mapped env) && negb (mmap_ok env)); reflexivity.
Qed.

Lemma PushData_history : forall (st : RenderState) (env : FrameEnv) (v : float),
  speedHistory_ (fst (PushData st env v)) = PushBuffer (speedHistory_ st) v.
Proof.
  intros st env v. unfold PushData, compare_exchange.
  cbn [isRendering_ set_history].
  destruct (isRendering_ st).
  - reflexivity.
  - rewrite DrawFrame_state. reflexivity.
Qed.

Lemma push_all_history : forall (xs : list (float * FrameEnv)) (st : RenderState),
  (length (speedHistory_ st) <= MAX_HISTORY_SIZE)%nat ->
  speedHistory_ (push_all st xs) = lastn MAX_HISTORY_SIZE (speedHistory_ st ++ map fst xs).
Proof.
  induction xs as [| [v env] xs IH]; intros st Hst.
  - cbn [push_all map]. rewrite app_nil_r. symmetry. apply lastn_all. exact Hst.
  - cbn [push_all map fst].
    rewrite IH; rewrite PushData_history, (PushBuffer_lastn _ _ Hst).
    + rewrite lastn_app_lastn, <- app_assoc. reflexivity.
    + apply lastn_length.
Qed.

(** C5: whatever the surface and the guard are, after any number of pushes
    into an empty chart buffer the snapshot holds at most 15 values, namely
    the last 15 pushed, in arrival order; each push appends and drops the
    front when the length has passed 15; pushing 1..20 leaves 6..20. *)
Theorem chart_buffer_keeps_last_samples :
  forall (window : option Z) (w h : Z) (busy : bool) (xs : list (float * FrameEnv)),
    let st := push_all (mkRender window w h [] busy) xs in
    (length (GetDataSnapshot st) <= MAX_HISTORY_SIZE)%nat
    /\ GetDataSnapshot st = skipn (length xs - MAX_HISTORY_SIZE) (map fst xs)
    /\ (forall (env : FrameEnv) (v : float),
          GetDataSnapshot (fst (PushData st env v))
          = if (15 <? length (GetDataSnapshot st ++ [v]))%nat
            then tl (GetDataSnapshot st ++ [v])
            else GetDataSnapshot st ++ [v])
    /\ (forall env : nat -> FrameEnv,
          GetDataSnapshot
            (push_all (mkRender window w h [] busy)
               (map (fun k => (double_of_Z (Z.of_nat k), env k)) (seq 1 20)))
          = [6; 7; 8; 9; 10; 11; 12; 13; 14; 15; 16; 17; 18; 19; 20]).
Proof.
  intros window w h busy xs st.
  assert (Hgen : forall ys,
            speedHistory_ (push_all (mkRender window w h [] busy) ys)
            = lastn MAX_HISTORY_SIZE (map fst ys)).
  { intro ys. rewrite push_all_history; cbn [speedHistory_ length app]; [ reflexivity | ].
    unfold MAX_HISTORY_SIZE. lia. }
  unfold GetDataSnapshot. repeat split.
  - unfold st. rewrite Hgen. apply lastn_length.
  - unfold st. rewrite Hgen. unfold lastn. rewrite length_map. reflexivity.
  - intros env v. rewrite PushData_history. reflexivity.
  - intro env. rewrite Hgen. vm_compute. reflexivity.
Qed.

End ChartBuffer.

(* ================================================================== *)
(** * The frame renderer *)
(* ================================================================== *)

Section Waveform.

Import Numeric RenderManager.
Open Scope float_scope.

Variables (stepX : float32) (height : Z) (maxVal : float).

Lemma fill_loop_length : forall (data : list float) (i : Z) (lastX : float32),
  length (fst (fill_loop stepX height maxVal i data lastX)) = length data.
Proof.
  induction data as [| v data IH]; intros i lastX; cbn [fill_loop].
  - reflexivity.
  - specialize (IH (i + 1)%Z (f32_mul (f32_of_Z i) stepX)).
    destruct (fill_loop stepX height maxVal (i + 1) data (f32_mul (f32_of_Z i) stepX))
      as [evs lx].
    cbn [fst length] in *. rewrite IH. reflexivity.
Qed.

(** The [k]-th line of the fill path. *)
Lemma fill_loop_nth : forall (data : list float) (i : Z) (lastX : float32) (k : nat) (v : float),
  nth_error data k = Some v ->
  nth_error (fst (fill_loop stepX height maxVal i data lastX)) k
  = Some (PathLineTo FillPath
            (f32_mul (f32_of_Z (i + Z.of_nat k)) stepX)
            (f32_of_double (double_of_Z height - (v / maxVal) * double_of_Z height))).
Proof.
  induction data as [| a data IH]; intros i lastX k v Hk.
  - destruct k; discriminate Hk.
  - cbn [fill_loop].
    specialize (IH (i + 1)%Z (f32_mul (f32_of_Z i) stepX)).
    destruct (fill_loop stepX height maxVal (i + 1) data (f32_mul (f32_of_Z i) stepX))
      as [evs lx].
    destruct k as [| k]; cbn [nth_error fst] in *.
    + injection Hk as ->. rewrite Z.add_0_r. reflexivity.
    + rewrite (IH k v Hk).
      replace (i + 1 + Z.of_nat k)%Z with (i + Z.of_nat (S k))%Z by lia.
      reflexivity.
Qed.

(** [lastX] after the loop is the position of the last sample. *)
Lemma fill_loop_lastX : forall (data : list float) (i : Z) (lastX : float32) (a : float),
  snd (fill_loop stepX height maxVal i (a :: data) lastX)
  = f32_mul (f32_of_Z (i + Z.of_nat (length data))) stepX.
Proof.
  induction data as [| b data IH]; intros i lastX a.
  - cbn. rewrite Z.add_0_r. reflexivity.
  - specialize (IH (i + 1)%Z (f32_mul (f32_of_Z i) stepX) b).
    change (fill_loop stepX height maxVal i (a :: b :: data) lastX)
      with (let '(evs, lx) :=
              fill_loop stepX height maxVal (i + 1) (b :: data) (f32_mul (f32_of_Z i) stepX) in
            (PathLineTo FillPath (f32_mul (f32_of_Z i) stepX)
               (f32_of_double (double_of_Z height - (a / maxVal) * double_of_Z height)) :: evs,
             lx)).
    destruct (fill_loop stepX height maxVal (i + 1) (b :: data) (f32_mul (f32_of_Z i) stepX))
      as [evs lx].
    cbn [snd] in *. rewrite IH. cbn [length].
    replace (i + 1 + Z.of_nat (length data))%Z
      with (i + Z.of_nat (S (length data)))%Z by lia.
    reflexivity.
Qed.

Lemma stroke_loop_length : forall (data : list float) (i : Z),
  length (stroke_loop stepX height maxVal i data) = length data.
Proof.
  induction data as [| v data IH]; intro i; cbn [stroke_loop length].
  - reflexivity.
  - rewrite IH. reflexivity.
Qed.

(** The [k]-th point of the stroke path: a move for the first, a line for
    the others. *)
Lemma stroke_loop_nth : forall (data : list float) (i : Z) (k : nat) (v : float),
  nth_error data k = Some v ->
  nth_error (stroke_loop stepX height maxVal i data) k
  = Some ((if (i + Z.of_nat k =? 0)%Z then PathMoveTo else PathLineTo) StrokePath
            (f32_mul (f32_of_Z (i + Z.of_nat k)) stepX)
            (f32_of_double (double_of_Z height - (v / maxVal) * double_of_Z height))).
Proof.
  induction data as [| a data IH]; intros i k v Hk.
  - destruct k; discriminate Hk.
  - cbn [stroke_loop]. destruct k as [| k]; cbn [nth_error] in *.
    + injection Hk as ->. rewrite Z.add_0_r.
      destruct (i =? 0)%Z; reflexivity.
    + rewrite (IH (i + 1)%Z k v Hk).
      replace (i + 1 + Z.of_nat k)%Z with (i + Z.of_nat (S k))%Z by lia.
      reflexivity.
Qed.

End Waveform.

Section Geometry.

Import Numeric RenderManager.
Open Scope float_scope.

(** The drawing block for two samples or more, loop by loop. *)
Lemma draw_waveform_shape : forall (width height : Z) (v0 v1 : float) (rest : list float),
  let data := v0 :: v1 :: rest in
  let maxVal := spec_yMax (max_element v0 (v1 :: rest)) in
  let stepX := f32_div (f32_of_Z width) (f32_of_Z (Z.of_nat MAX_HISTORY_SIZE - 1)) in
  draw_waveform width height data
  = [PathMoveTo PathMain f32_zero (f32_of_Z height);
     PathMoveTo FillPath f32_zero (f32_of_Z height)]
    ++ fst (fill_loop stepX height maxVal 0 data f32_zero)
    ++ [PathLineTo FillPath (snd (fill_loop stepX height maxVal 0 data f32_zero))
          (f32_of_Z height);
        PathLineTo FillPath f32_zero (f32_of_Z height);
        PathClose FillPath;
        DrawFill FillPath (f32_of_Z height)]
    ++ stroke_loop stepX height maxVal 0 data
    ++ [DrawStroke StrokePath 0xFF007DFF%Z].
Proof.
  intros width height v0 v1 rest data maxVal stepX.
  subst data maxVal stepX. unfold draw_waveform, spec_yMax. cbv zeta.
  match goal with
  | |- context [fill_loop ?a ?b ?c ?d ?e ?f] =>
      destruct (fill_loop a b c d e f) as [fill lastX]
  end.
  reflexivity.
Qed.

(** A frame whose buffer request and mapping succeed contains the drawing
    block of the current samples. *)
Lemma DrawFrame_draws_waveform :
  forall (st : RenderState) (env : FrameEnv) (win : Z),
    nativeWindow_ st = Some win ->
    negb (request_ret env =? 0)%Z || negb (request_buffer env) = false ->
    negb (virAddr_mapped env) && negb (mmap_ok env) = false ->
    exists pre post,
      snd (DrawFrame st env)
      = pre ++ draw_waveform (width_ st) (height_ st) (speedHistory_ st) ++ post
      /\ In FlushBuffer post.
Proof.
  intros st env win Hwin Hreq Hmap. unfold DrawFrame.
  rewrite Hwin, Hreq, Hmap. cbn [snd].
  exists ([RequestBuffer]
            ++ (if (0 <? fenceFd env)%Z then [CloseFence (fenceFd env)] else [])
            ++ (if negb (virAddr_mapped env) then [Mmap] else [])
            ++ [BitmapBuild (wrap_u32 (width_ st)) (wrap_u32 (height_ st));
                CanvasClear 0xFFFFFFFF%Z]).
  exists (copy_pixels (width_ st) (height_ st) env
            ++ (if negb (virAddr_mapped env) then [Munmap] else [])
            ++ [FlushBuffer]).
  split.
  - unfold GetDataSnapshot. rewrite <- !app_assoc. reflexivity.
  - apply in_or_app. right. apply in_or_app. right. left. reflexivity.
Qed.

(** Three samples on a surface 1400 x 200: the points sit at x = 0, 100 and
    200, with [yMax = 120 * 1.2]. *)
Example waveform_three_samples :
  firstn 5 (draw_waveform 1400 200 [50.0; 120.0; 60.0])
  = [PathMoveTo PathMain f32_zero (f32_of_Z 200);
     PathMoveTo FillPath f32_zero (f32_of_Z 200);
     PathLineTo FillPath f32_zero (spec_y 200 (120.0 * 1.2) 50.0);
     PathLineTo FillPath (f32_of_Z 100) (spec_y 200 (120.0 * 1.2) 120.0);
     PathLineTo FillPath (f32_of_Z 200) (spec_y 200 (120.0 * 1.2) 60.0)].
Proof. vm_compute. reflexivity. Qed.

End Geometry.

Section Surface.

Import Numeric RenderManager.
Open Scope float_scope.

(** C4, as the code has it: without a surface handle [DrawFrame] calls
    nothing, submits nothing and clears the guard; so, once the surface is
    destroyed, does every entry into the renderer ([DrawFrame], [PushData],
    [OnSurfaceChanged]); and the guard is clear after [DrawFrame] on every
    path. The width and the height are not looked at. *)
Theorem DrawFrame_without_surface :
  forall (w h : Z) (hist : list float) (busy : bool) (env : FrameEnv),
    DrawFrame (mkRender None w h hist busy) env = (mkRender None w h hist false, [])
    /\ (forall (st : RenderState) (v : float) (size : option (Z * Z)),
          let gone := OnSurfaceDestroyed st in
          DrawFrame gone env = (set_rendering gone false, [])
          /\ snd (PushData gone env v) = []
          /\ nativeWindow_ (fst (PushData gone env v)) = None
          /\ snd (OnSurfaceChanged gone env size) = []
          /\ isRendering_ (fst (OnSurfaceChanged gone env size)) = false
          /\ nativeWindow_ (fst (OnSurfaceChanged gone env size)) = None)
    /\ (forall st : RenderState, isRendering_ (fst (DrawFrame st env)) = false).
Proof.
  intros w h hist busy env. split; [ reflexivity | split ].
  - intros st v size gone. split; [ reflexivity | ].
    split; [ | split; [ | split; [ | split ] ] ].
    + unfold PushData, compare_exchange. cbn [isRendering_ set_history gone OnSurfaceDestroyed set_window].
      destruct (isRendering_ st); reflexivity.
    + unfold PushData, compare_exchange. cbn [isRendering_ set_history gone OnSurfaceDestroyed set_window].
      destruct (isRendering_ st); reflexivity.
    + destruct size as [[w' h'] |]; reflexivity.
    + destruct size as [[w' h'] |]; reflexivity.
    + destruct size as [[w' h'] |]; reflexivity.
  - intro st. rewrite DrawFrame_state. reflexivity.
Qed.

(** C4 fails as stated for a surface of size 0 x 0 with a live handle: the
    frame is requested, cleared and handed to the compositor. *)
Lemma DrawFrame_zero_size_submits :
  nativeWindow_ zero_surface = Some 1%Z
  /\ width_ zero_surface = 0%Z /\ height_ zero_surface = 0%Z
  /\ snd (DrawFrame zero_surface env_ok)
     = [RequestBuffer; BitmapBuild 0 0; CanvasClear 0xFFFFFFFF%Z; FlushBuffer]
  /\ submissions (snd (DrawFrame zero_surface env_ok)) = 1%nat.
Proof.
  repeat split.
Qed.

End Surface.

(* ================================================================== *)
(** * Frames in flight *)
(* ================================================================== *)

Section InFlight.

Import Numeric RenderManager Scheduler.

Lemma set_thread_split : forall (ts : list thread) (i : nat) (old : thread),
  nth_error ts i = Some old ->
  ts = firstn i ts ++ old :: skipn (S i) ts.
Proof.
  induction ts as [| t ts IH]; intros i old Hi.
  - destruct i; discriminate Hi.
  - destruct i as [| i]; cbn [nth_error firstn skipn app] in *.
    + injection Hi as ->. reflexivity.
    + f_equal. apply IH. exact Hi.
Qed.

(** Replacing thread [i] changes the count of frames in flight by what the
    old and the new thread contribute. *)
Lemma in_flight_set_thread : forall (ts : list thread) (i : nat) (old new : thread),
  nth_error ts i = Some old ->
  (in_flight (set_thread ts i new) + (if is_in_flight old then 1 else 0)
   = in_flight ts + (if is_in_flight new then 1 else 0))%nat.
Proof.
  intros ts i old new Hi. unfold in_flight, set_thread.
  rewrite (set_thread_split ts i old Hi) at 3.
  rewrite !filter_app, !length_app. cbn [filter].
  destruct (is_in_flight old), (is_in_flight new); cbn [length]; lia.
Qed.

Lemma forallb_firstn : forall (p : thread -> bool) (i : nat) (ts : list thread),
  forallb p ts = true -> forallb p (firstn i ts) = true.
Proof.
  intros p. induction i as [| i IH]; intros [| t ts] H; cbn [firstn forallb] in *;
    try reflexivity.
  apply andb_true_iff in H. destruct H as [Ht Hts].
  rewrite Ht, (IH ts Hts). reflexivity.
Qed.

Lemma forallb_skipn : forall (p : thread -> bool) (i : nat) (ts : list thread),
  forallb p ts = true -> forallb p (skipn i ts) = true.
Proof.
  intros p. induction i as [| i IH]; intros [| t ts] H; cbn [skipn forallb] in *;
    try reflexivity; try exact H.
  apply andb_true_iff in H. apply IH. apply H.
Qed.

Lemma no_resize_set_thread : forall (ts : list thread) (i : nat) (new : thread),
  forallb (fun t => negb (is_resize_thread t)) ts = true ->
  is_resize_thread new = false ->
  forallb (fun t => negb (is_resize_thread t)) (set_thread ts i new) = true.
Proof.
  intros ts i new Hts Hnew. unfold set_thread.
  rewrite forallb_app. cbn [forallb]. rewrite Hnew. cbn [negb andb].
  rewrite (forallb_firstn _ i ts Hts), (forallb_skipn _ (S i) ts Hts).
  reflexivity.
Qed.

Lemma no_resize_nth : forall (ts : list thread) (i : nat) (size : option (Z * Z)),
  forallb (fun t => negb (is_resize_thread t)) ts = true ->
  nth_error ts i <> Some (AtOnSurfaceChanged size).
Proof.
  intros ts i size Hts Hi. rewrite forallb_forall in Hts.
  apply nth_error_In in Hi. specialize (Hts _ Hi). discriminate Hts.
Qed.

(** With [PushData] as the only trigger the guard does its work. *)
Lemma guarded_step : forall c c', guarded c -> step c c' -> guarded c'.
Proof.
  intros c c' (Hno & Hcount) Hstep. unfold guarded in *.
  destruct Hstep as [st ts tr i v Hi | st ts tr i Hi | st ts tr i size Hi | st ts tr i env Hi];
    cbn [threads shared] in *.
  - split; [ apply no_resize_set_thread; auto | ].
    pose proof (in_flight_set_thread ts i _ AtCompareExchange Hi) as H.
    cbn [is_in_flight isRendering_ set_history] in *. lia.
  - unfold compare_exchange. destruct (isRendering_ st) eqn:Hg; cbn [fst snd].
    + split; [ apply no_resize_set_thread; auto | ].
      pose proof (in_flight_set_thread ts i _ Returned Hi) as H.
      cbn [is_in_flight] in H. rewrite Hg. lia.
    + split; [ apply no_resize_set_thread; auto | ].
      pose proof (in_flight_set_thread ts i _ InDrawFrame Hi) as H.
      cbn [is_in_flight isRendering_ set_rendering] in *. lia.
  - exfalso. apply (no_resize_nth ts i size Hno Hi).
  - split; [ apply no_resize_set_thread; auto | ].
    pose proof (in_flight_set_thread ts i _ Returned Hi) as H.
    rewrite DrawFrame_state. cbn [is_in_flight isRendering_ set_rendering] in *.
    destruct (isRendering_ st); lia.
Qed.

(** The part of C2 the code keeps: when every trigger is a sample push, at
    most one frame is ever in flight. *)
Lemma push_only_single_frame : forall c c',
  guarded c -> steps c c' -> guarded c' /\ (in_flight (threads c') <= 1)%nat.
Proof.
  intros c c' Hc Hsteps. induction Hsteps as [c | c1 c2 c3 Hstep _ IH].
  - split; [ exact Hc | ]. destruct Hc as (_ & Hcount).
    destruct (isRendering_ (shared c)); lia.
  - apply IH. apply (guarded_step c1 c2 Hc Hstep).
Qed.

(** A push that finds the guard set draws nothing. *)
Lemma PushData_while_rendering : forall (st : RenderState) (env : FrameEnv) (v : float),
  isRendering_ st = true ->
  snd (PushData st env v) = [] /\ isRendering_ (fst (PushData st env v)) = true.
Proof.
  intros st env v Hg. unfold PushData, compare_exchange.
  cbn [isRendering_ set_history]. rewrite Hg. split; [ reflexivity | exact Hg ].
Qed.

(** C2 at a concrete schedule. One thread pushes a sample and wins the
    test-and-set: its frame is in flight. A resize arrives on a second
    thread: [OnSurfaceChanged] enters [DrawFrame] without testing the guard,
    and two frames are in flight. Both run to their end and the compositor
    receives two buffers. *)
Theorem resize_overlaps_frame :
  exists c1 c2 c3,
    steps push_and_resize c1
    /\ isRendering_ (shared c1) = true
    /\ threads c1 = [InDrawFrame; AtOnSurfaceChanged (Some (800%Z, 100%Z))]
    /\ step c1 c2
    /\ threads c2 = [InDrawFrame; InDrawFrame]
    /\ in_flight (threads c2) = 2%nat
    /\ steps c2 c3
    /\ threads c3 = [Returned; Returned]
    /\ submissions (trace c3) = 2%nat.
Proof.
  set (st1 := set_history surface_ready (PushBuffer (speedHistory_ surface_ready) 70.0%float)).
  set (st2 := set_rendering st1 true).
  set (st3 := resized st2 (Some (800%Z, 100%Z))).
  exists (mkConfig st2 [InDrawFrame; AtOnSurfaceChanged (Some (800%Z, 100%Z))] []).
  exists (mkConfig st3 [InDrawFrame; InDrawFrame] []).
  exists (mkConfig (fst (DrawFrame (fst (DrawFrame st3 env_ok)) env_ok))
            [Returned; Returned]
            (([] ++ snd (DrawFrame st3 env_ok))
               ++ snd (DrawFrame (fst (DrawFrame st3 env_ok)) env_ok))).
  split.
  { eapply steps_next.
    - apply (step_push surface_ready _ [] 0 70.0%float). reflexivity.
    - eapply steps_next.
      + apply (step_cas st1 _ [] 0). reflexivity.
      + apply steps_refl. }
  split; [ reflexivity | ].
  split; [ reflexivity | ].
  split.
  { exact (step_resize st2 [InDrawFrame; AtOnSurfaceChanged (Some (800%Z, 100%Z))]
             [] 1 (Some (800%Z, 100%Z)) eq_refl). }
  split; [ reflexivity | ].
  split; [ reflexivity | ].
  split.
  { eapply steps_next.
    - exact (step_draw st3 [InDrawFrame; InDrawFrame] [] 0 env_ok eq_refl).
    - eapply steps_next.
      + exact (step_draw (fst (DrawFrame st3 env_ok)) [Returned; InDrawFrame]
                 ([] ++ snd (DrawFrame st3 env_ok)) 1 env_ok eq_refl).
      + apply steps_refl. }
  split; [ reflexivity | ].
  vm_compute. reflexivity.
Qed.

End InFlight.

(* ================================================================== *)
(** * Integers that binary64 holds exactly *)
(* ================================================================== *)

Section ExactIntegers.

Import Numeric.
Open Scope Z_scope.

Lemma pow2_xO : forall p : positive, 2 ^ Z.pos p~0 = 2 ^ Z.pos p * 2 ^ Z.pos p.
Proof.
  intro p. assert (E : Z.pos p~0 = Z.pos p + Z.pos p) by lia.
  rewrite E. apply Z.pow_add_r; lia.
Qed.

Lemma pow2_xI : forall p : positive, 2 ^ Z.pos p~1 = 2 ^ Z.pos p * 2 ^ Z.pos p * 2.
Proof.
  intro p. assert (E : Z.pos p~1 = Z.pos p + Z.pos p + 1) by lia.
  rewrite E, !Z.pow_add_r by lia. rewrite Z.pow_1_r. reflexivity.
Qed.

Lemma iter_xO_value : forall (k m : positive),
  Z.pos (Pos.iter xO m k) = Z.pos m * 2 ^ Z.pos k.
Proof.
  intros k m. induction k as [| k IH] using Pos.peano_ind.
  - cbn [Pos.iter]. lia.
  - rewrite Pos.iter_succ, Pos2Z.inj_xO, IH, Pos2Z.inj_succ, Z.pow_succ_r by lia. lia.
Qed.

(** Shifting out zeros loses nothing. *)
Lemma iter_shr_1_exact : forall (p : positive) (m : Z),
  0 < m ->
  iter_pos shr_1 p (Build_shr_record (m * 2 ^ Z.pos p) false false)
  = Build_shr_record m false false.
Proof.
  assert (Hone : forall m, 0 < m ->
            shr_1 (Build_shr_record (m * 2) false false) = Build_shr_record m false false).
  { intros [| pm | pm] Hm; try lia.
    replace (Z.pos pm * 2) with (Z.pos pm~0) by lia. reflexivity. }
  induction p as [p IH | p IH | ]; intros m Hm; cbn [iter_pos].
  - assert (H2 : 0 < 2 ^ Z.pos p) by (apply Z.pow_pos_nonneg; lia).
    rewrite pow2_xI.
    replace (m * (2 ^ Z.pos p * 2 ^ Z.pos p * 2))
      with ((m * 2 ^ Z.pos p * 2 ^ Z.pos p) * 2) by ring.
    rewrite Hone by nia. rewrite IH by nia. apply IH. exact Hm.
  - assert (H2 : 0 < 2 ^ Z.pos p) by (apply Z.pow_pos_nonneg; lia).
    rewrite pow2_xO.
    replace (m * (2 ^ Z.pos p * 2 ^ Z.pos p))
      with ((m * 2 ^ Z.pos p) * 2 ^ Z.pos p) by ring.
    rewrite IH by nia. apply IH. exact Hm.
  - replace (m * 2 ^ 1) with (m * 2) by lia. apply Hone. exact Hm.
Qed.

(** A mantissa of exactly 53 bits at an exponent in range is its own
    rounding. *)
Lemma binary_round_aux_exact : forall s (x : positive) e,
  Z.pos (digits2_pos x) = 53 -> -1074 <= e <= 971 ->
  binary_round_aux prec emax s (Z.pos x) e loc_Exact = S754_finite s x e.
Proof.
  intros s x e Hd He. unfold binary_round_aux, shr_fexp.
  cbn [Zdigits2 shr_record_of_loc]. rewrite Hd, fexp64.
  replace (Z.max (53 + e - 53) (-1074) - e) with 0 by lia.
  cbn [shr shr_m loc_of_shr_record round_nearest_even Zdigits2 shr_record_of_loc].
  rewrite Hd, fexp64.
  replace (Z.max (53 + e - 53) (-1074) - e) with 0 by lia.
  cbn [shr shr_m].
  assert (H : (e <=? emax - prec) = true) by (apply Z.leb_le; unfold emax, prec; lia).
  rewrite H. reflexivity.
Qed.

(** A number [x * 2^e0] with a 53-bit [x] rounds to itself, however it is
    written: with a shorter mantissa at a higher exponent, or with a longer
    one, ending in zeros, at a lower exponent. *)
Lemma binary_round_representable : forall s (M x : positive) (ez e0 : Z),
  Z.pos (digits2_pos x) = 53 -> -1074 <= e0 <= 971 ->
  (e0 <= ez /\ Z.pos x = Z.pos M * 2 ^ (ez - e0)
   \/ ez <= e0 /\ Z.pos M = Z.pos x * 2 ^ (e0 - ez)) ->
  binary_round prec emax s M ez = S754_finite s x e0.
Proof.
  intros s M x ez e0 Hd He Hval.
  assert (HdM : Z.pos (digits2_pos M) + ez = 53 + e0).
  { pose proof (digits2_pos_bounds M) as [HMlo HMup].
    pose proof (digits2_pos_bounds x) as [Hxlo Hxup]. rewrite Hd in *.
    set (dM := Z.pos (digits2_pos M)) in *.
    assert (0 < dM) by (unfold dM; lia).
    destruct Hval as [[Hle Hx] | [Hle HM]].
    - (* x = M * 2^k *)
      set (k := ez - e0) in *.
      assert (H2k : 0 < 2 ^ k) by (apply Z.pow_pos_nonneg; lia).
      assert (Hup : 2 ^ (dM - 1 + k) <= Z.pos x).
      { rewrite Hx, Z.pow_add_r by lia. apply Z.mul_le_mono_nonneg_r; lia. }
      assert (Hlo : Z.pos x < 2 ^ (dM + k)).
      { rewrite Hx, Z.pow_add_r by lia. apply Z.mul_lt_mono_pos_r; lia. }
      assert (dM - 1 + k < 53) by (apply (Z.pow_lt_mono_r_iff 2); lia).
      assert (52 < dM + k) by (apply (Z.pow_lt_mono_r_iff 2); lia).
      lia.
    - set (k := e0 - ez) in *.
      assert (H2k : 0 < 2 ^ k) by (apply Z.pow_pos_nonneg; lia).
      assert (Hup : 2 ^ (52 + k) <= Z.pos M).
      { rewrite HM, Z.pow_add_r by lia. apply Z.mul_le_mono_nonneg_r; lia. }
      assert (Hlo : Z.pos M < 2 ^ (53 + k)).
      { rewrite HM, Z.pow_add_r by lia. apply Z.mul_lt_mono_pos_r; lia. }
      assert (52 + k < dM) by (apply (Z.pow_lt_mono_r_iff 2); lia).
      assert (dM - 1 < 53 + k) by (apply (Z.pow_lt_mono_r_iff 2); lia).
      lia. }
  unfold binary_round, shl_align. rewrite HdM, fexp64.
  replace (Z.max (53 + e0 - 53) (-1074)) with e0 by lia.
  destruct (e0 - ez) as [| k | k] eqn:Ek.
  - (* same exponent *)
    assert (M = x).
    { destruct Hval as [[_ H] | [_ H]];
        [ replace (ez - e0) with 0 in H by lia | ];
        rewrite Z.pow_0_r in H; lia. }
    assert (ez = e0) by lia. subst ez M. apply binary_round_aux_exact; assumption.
  - (* the mantissa is longer: shift right *)
    assert (HM : Z.pos M = Z.pos x * 2 ^ Z.pos k).
    { destruct Hval as [[Hle _] | [_ H]]; [ lia | exact H ]. }
    unfold binary_round_aux, shr_fexp. cbn [Zdigits2 shr_record_of_loc].
    rewrite fexp64.
    replace (Z.max (Z.pos (digits2_pos M) + ez - 53) (-1074) - ez) with (Z.pos k) by lia.
    cbn [shr]. rewrite HM, iter_shr_1_exact by lia.
    cbn [shr_m loc_of_shr_record round_nearest_even Zdigits2 shr_record_of_loc].
    rewrite Hd, fexp64.
    replace (Z.max (53 + (ez + Z.pos k) - 53) (-1074) - (ez + Z.pos k)) with 0 by lia.
    cbn [shr shr_m].
    replace (ez + Z.pos k) with e0 by lia.
    assert (H : (e0 <=? emax - prec) = true) by (apply Z.leb_le; unfold emax, prec; lia).
    rewrite H. reflexivity.
  - (* the mantissa is shorter: shift left *)
    assert (Hx : Z.pos x = Z.pos M * 2 ^ Z.pos k).
    { destruct Hval as [[_ H] | [Hle _]]; [ | lia ].
      replace (ez - e0) with (Z.pos k) in H by lia. exact H. }
    assert (Pos.iter xO M k = x).
    { apply Pos2Z.inj. rewrite iter_xO_value. symmetry. exact Hx. }
    rewrite H. apply binary_round_aux_exact; assumption.
Qed.

(** An integer up to 2^53 written with a mantissa of 53 bits. *)
Lemma integer_normal_form : forall n : positive,
  Z.pos n <= 2 ^ 53 ->
  exists (x : positive) (e0 : Z),
    Z.pos (digits2_pos x) = 53 /\ -53 <= e0 <= 1
    /\ (e0 <= 0 /\ Z.pos x = Z.pos n * 2 ^ (- e0) \/ e0 = 1 /\ Z.pos n = Z.pos x * 2).
Proof.
  intros n Hn. pose proof (digits2_pos_bounds n) as [Hlo Hup].
  set (d := Z.pos (digits2_pos n)) in *.
  assert (Hd1 : 1 <= d) by (unfold d; lia).
  assert (Hd54 : d <= 54).
  { assert (d - 1 < 54) by (apply (Z.pow_lt_mono_r_iff 2); lia). lia. }
  destruct (Z.eq_dec d 54) as [E54 | N54].
  - exists 4503599627370496%positive, 1. split; [ reflexivity | ].
    split; [ lia | ]. right. split; [ reflexivity | ].
    rewrite E54 in Hlo. change (2 ^ (54 - 1)) with (2 ^ 53) in Hlo. lia.
  - destruct (53 - d) as [| k | k] eqn:Ek; try lia.
    + exists n, 0. split; [ fold d; lia | ]. split; [ lia | ].
      left. split; [ lia | ]. change (2 ^ (- 0)) with 1. lia.
    + exists (Pos.iter xO n k), (- Z.pos k).
      split; [ rewrite digits2_pos_iter_xO; fold d; lia | ].
      split; [ lia | ]. left. split; [ lia | ].
      rewrite iter_xO_value, Z.opp_involutive. reflexivity.
Qed.

(** However an integer up to 2^53 is written, as [M * 2^ez] with [ez <= 0],
    it rounds to the double of that integer. *)
Lemma binary_round_integer : forall (n M : positive) (ez : Z),
  Z.pos n <= 2 ^ 53 -> -1074 <= ez <= 0 -> Z.pos M = Z.pos n * 2 ^ (- ez) ->
  exists (x : positive) (e0 : Z),
    Z.pos (digits2_pos x) = 53 /\ -53 <= e0 <= 1
    /\ (e0 <= 0 /\ Z.pos x = Z.pos n * 2 ^ (- e0) \/ e0 = 1 /\ Z.pos n = Z.pos x * 2)
    /\ binary_round prec emax false M ez = S754_finite false x e0.
Proof.
  intros n M ez Hn Hez HM.
  destruct (integer_normal_form n Hn) as (x & e0 & Hd & He0 & Hval).
  exists x, e0. split; [ exact Hd | ]. split; [ exact He0 | ]. split; [ exact Hval | ].
  apply binary_round_representable; [ exact Hd | lia | ].
  destruct (Z.le_gt_cases e0 ez) as [Hle | Hgt].
  - left. split; [ exact Hle | ].
    destruct Hval as [[_ Hx] | [-> _]]; [ | lia ].
    rewrite Hx, HM, <- Z.mul_assoc, <- Z.pow_add_r by lia.
    f_equal. f_equal. lia.
  - right. split; [ lia | ].
    destruct Hval as [[He00 Hx] | [-> Hx]].
    + rewrite HM, Hx, <- Z.mul_assoc, <- Z.pow_add_r by lia.
      f_equal. f_equal. lia.
    + rewrite HM, Hx.
      replace (1 - ez) with (1 + - ez) by lia.
      rewrite Z.pow_add_r by lia. rewrite Z.pow_1_r. ring.
Qed.

Lemma finite53_valid : forall (s : bool) (x : positive) (e0 : Z),
  Z.pos (digits2_pos x) = 53 -> -1074 <= e0 <= 971 ->
  valid_binary (S754_finite s x e0) = true.
Proof.
  intros s x e0 Hd He. cbn [valid_binary]. unfold bounded, canonical_mantissa.
  rewrite Hd, fexp64. apply andb_true_iff. split.
  - apply Z.eqb_eq. lia.
  - apply Z.leb_le. unfold emax, prec. lia.
Qed.

(** The double of an integer up to 2^53 is that integer. *)
Lemma double_of_Z_exact : forall n : positive,
  Z.pos n <= 2 ^ 53 ->
  exists (x : positive) (e0 : Z),
    Z.pos (digits2_pos x) = 53 /\ -53 <= e0 <= 1
    /\ (e0 <= 0 /\ Z.pos x = Z.pos n * 2 ^ (- e0) \/ e0 = 1 /\ Z.pos n = Z.pos x * 2)
    /\ Prim2SF (double_of_Z (Z.pos n)) = S754_finite false x e0.
Proof.
  intros n Hn.
  destruct (binary_round_integer n n 0 Hn ltac:(lia)) as (x & e0 & Hd & He0 & Hval & Hr).
  { change (2 ^ (- 0)) with 1. lia. }
  exists x, e0. repeat (split; [ assumption | ]).
  unfold double_of_Z. cbn [binary_normalize]. rewrite Hr.
  apply Prim2SF_SF2Prim. apply finite53_valid; [ exact Hd | lia ].
Qed.

Lemma shl_align_value : forall (m : positive) (e e' : Z),
  e' <= e ->
  Z.pos (fst (shl_align m e e')) = Z.pos m * 2 ^ (e - e')
  /\ snd (shl_align m e e') = e'.
Proof.
  intros m e e' Hle. unfold shl_align.
  destruct (e' - e) as [| k | k] eqn:Ek; try lia; cbn [fst snd].
  - replace (e - e') with 0 by lia. rewrite Z.pow_0_r. lia.
  - unfold shift_pos. rewrite iter_xO_value.
    replace (e - e') with (Z.pos k) by lia. split; reflexivity.
Qed.

(** Adding the doubles of two byte counts is exact as long as the sum is at
    most 2^53. *)
Lemma double_add_exact : forall a b : Z,
  0 <= a -> 0 <= b -> a + b <= 2 ^ 53 ->
  (double_of_Z a + double_of_Z b)%float = double_of_Z (a + b).
Proof.
  intros a b Ha Hb Hsum.
  apply Prim2SF_inj. rewrite add_spec. unfold SF64add.
  destruct a as [| pa | pa]; try lia.
  { change (Prim2SF (double_of_Z 0)) with (S754_zero false).
    rewrite Z.add_0_l.
    destruct b as [| pb | pb]; try lia; [ reflexivity | ].
    destruct (double_of_Z_exact pb ltac:(lia)) as (x & e0 & _ & _ & _ & ->). reflexivity. }
  destruct b as [| pb | pb]; try lia.
  { change (Prim2SF (double_of_Z 0)) with (S754_zero false).
    rewrite Z.add_0_r.
    destruct (double_of_Z_exact pa ltac:(lia)) as (x & e0 & _ & _ & _ & ->). reflexivity. }
  destruct (double_of_Z_exact pa ltac:(lia)) as (xa & ea & Hda & Hea & Hva & ->).
  destruct (double_of_Z_exact pb ltac:(lia)) as (xb & eb & Hdb & Heb & Hvb & ->).
  pose proof (digits2_pos_bounds xa) as Bxa. rewrite Hda in Bxa.
  pose proof (digits2_pos_bounds xb) as Bxb. rewrite Hdb in Bxb.
  change (2 ^ (53 - 1)) with 4503599627370496 in Bxa, Bxb.
  change (2 ^ 53) with 9007199254740992 in Hsum.
  destruct Hva as [[Hea0 Hxa] | [-> Hxa]]; [ | lia ].
  destruct Hvb as [[Heb0 Hxb] | [-> Hxb]]; [ | lia ].
  cbn [SFadd cond_Zopp].
  destruct (shl_align_value xa ea (Z.min ea eb) ltac:(lia)) as [Hsa _].
  destruct (shl_align_value xb eb (Z.min ea eb) ltac:(lia)) as [Hsb _].
  set (ma := fst (shl_align xa ea (Z.min ea eb))) in *.
  set (mb := fst (shl_align xb eb (Z.min ea eb))) in *.
  change (Z.pos ma + Z.pos mb) with (Z.pos (ma + mb)).
  cbn [binary_normalize].
  destruct (binary_round_integer (pa + pb) (ma + mb) (Z.min ea eb))
    as (x & e0 & Hd & He0 & Hval & Hr).
  - lia.
  - lia.
  - rewrite !Pos2Z.inj_add, Hsa, Hsb, Hxa, Hxb, <- !Z.mul_assoc, <- !Z.pow_add_r by lia.
    replace (- ea + (ea - Z.min ea eb)) with (- Z.min ea eb) by lia.
    replace (- eb + (eb - Z.min ea eb)) with (- Z.min ea eb) by lia.
    ring.
  - rewrite Hr. change (Z.pos pa + Z.pos pb) with (Z.pos (pa + pb)).
    destruct (double_of_Z_exact (pa + pb) ltac:(lia)) as (x' & e0' & Hd' & He0' & Hval' & Hr').
    rewrite Hr'.
    (* both mantissas are the 53-bit form of the same integer *)
    assert (e0 = e0' /\ x = x') as [<- <-]; [ | reflexivity ].
    pose proof (digits2_pos_bounds x) as Bx. rewrite Hd in Bx.
    pose proof (digits2_pos_bounds x') as Bx'. rewrite Hd' in Bx'.
    change (2 ^ (53 - 1)) with 4503599627370496 in *.
    change (2 ^ 53) with 9007199254740992 in *.
    destruct Hval as [[Hle Hx] | [-> Hx]], Hval' as [[Hle' Hx'] | [-> Hx']].
    + assert (e0 = e0').
      { destruct (Z.lt_trichotomy e0 e0') as [Hlt | [Heq | Hgt]]; [ exfalso | exact Heq | exfalso ].
        - assert (Hp : 2 ^ (- e0) = 2 ^ (- e0') * 2 ^ (e0' - e0))
            by (rewrite <- Z.pow_add_r by lia; f_equal; lia).
          assert (2 <= 2 ^ (e0' - e0)).
          { change 2 with (2 ^ 1) at 1. apply Z.pow_le_mono_r; lia. }
          rewrite Hp in Hx. nia.
        - assert (Hp : 2 ^ (- e0') = 2 ^ (- e0) * 2 ^ (e0 - e0'))
            by (rewrite <- Z.pow_add_r by lia; f_equal; lia).
          assert (2 <= 2 ^ (e0 - e0')).
          { change 2 with (2 ^ 1) at 1. apply Z.pow_le_mono_r; lia. }
          rewrite Hp in Hx'. nia. }
      subst e0'. split; [ reflexivity | ]. apply Pos2Z.inj. lia.
    + exfalso. assert (0 < 2 ^ (- e0)) by (apply Z.pow_pos_nonneg; lia).
      assert (Z.pos (pa + pb) <= Z.pos (pa + pb) * 2 ^ (- e0))
        by (apply Z.le_mul_diag_r; lia).
      lia.
    + exfalso. assert (0 < 2 ^ (- e0')) by (apply Z.pow_pos_nonneg; lia).
      assert (Z.pos (pa + pb) <= Z.pos (pa + pb) * 2 ^ (- e0'))
        by (apply Z.le_mul_diag_r; lia).
      lia.
    + split; [ reflexivity | ]. apply Pos2Z.inj. lia.
Qed.

(** Converting back the double of a byte count up to 2^53 gives the count. *)
Lemma static_cast_size_t_double_of_Z : forall n : Z,
  0 <= n <= 2 ^ 53 -> static_cast_size_t (double_of_Z n) = Some n.
Proof.
  intros n Hn. destruct n as [| p | p]; try lia; [ reflexivity | ].
  destruct (double_of_Z_exact p ltac:(lia)) as (x & e0 & Hd & He0 & Hval & Hr).
  unfold static_cast_size_t, double_value. rewrite Hr. cbn [SF_value].
  cbv zeta. unfold Qtrunc. cbn [Qnum Qden].
  assert (Hq : (Z.pos x * 2 ^ Z.max e0 0) ÷ Z.pos (Z.to_pos (2 ^ Z.max (- e0) 0)) = Z.pos p).
  { destruct Hval as [[Hle Hx] | [-> Hx]].
    - replace (Z.max e0 0) with 0 by lia. replace (Z.max (- e0) 0) with (- e0) by lia.
      assert (Hpow : 0 < 2 ^ (- e0)) by (apply Z.pow_pos_nonneg; lia).
      rewrite Z2Pos.id by exact Hpow.
      rewrite Z.pow_0_r, Z.mul_1_r, Hx.
      rewrite Z.quot_mul by lia. reflexivity.
    - change (Z.max 1 0) with 1. change (Z.max (- (1)) 0) with 0.
      change (Z.to_pos (2 ^ 0)) with 1%positive.
      rewrite Z.quot_1_r, Z.pow_1_r. lia. }
  rewrite Hq.
  assert (H0 : (0 <=? Z.pos p) = true) by (apply Z.leb_le; lia).
  assert (H1 : (Z.pos p <=? SIZE_MAX) = true) by (apply Z.leb_le; unfold SIZE_MAX; lia).
  rewrite H0, H1. reflexivity.
Qed.

End ExactIntegers.

(* ================================================================== *)
(** * Byte counts *)
(* ================================================================== *)

Section ByteCounts.

Import Numeric TrafficAnalyzer.
Open Scope float_scope.

(** Every packet adds its size to the total, in each of the three branches. *)
Lemma ProcessTrafficCore_total : forall (s : State) (now : time_point) (n : Z),
  g_totalBytes (fst (ProcessTrafficCore s now n)) = g_totalBytes s + double_of_Z n.
Proof.
  intros s now n. unfold ProcessTrafficCore.
  destruct (g_isFirstPacket s); [ reflexivity | ].
  destruct (duration_cast_us (now - g_lastPacketTime s) <? MIN_CALC_INTERVAL_US)%Z;
    reflexivity.
Qed.

Lemma snapshot_total : forall (s : State) (now : time_point) (n : Z) (snap : Snapshot),
  snd (ProcessTrafficCore s now n) = JsResult snap ->
  totalBytes snap = g_totalBytes s + double_of_Z n.
Proof.
  intros s now n snap. unfold ProcessTrafficCore.
  destruct (g_isFirstPacket s); [ discriminate | ].
  destruct (duration_cast_us (now - g_lastPacketTime s) <? MIN_CALC_INTERVAL_US)%Z;
    cbn [snd CreateResultObject]; intro H; injection H as <-; reflexivity.
Qed.

Lemma sizes_sum_nonneg : forall l : list Z,
  forallb (fun z => 0 <=? z)%Z l = true -> (0 <= total_size l)%Z.
Proof.
  unfold total_size.
  induction l as [| z l IH]; cbn [forallb fold_right]; intro H; [ lia | ].
  apply andb_true_iff in H. destruct H as [Hz Hl]. apply Z.leb_le in Hz.
  specialize (IH Hl). lia.
Qed.

Lemma total_size_app : forall a b : list Z,
  total_size (a ++ b) = (total_size a + total_size b)%Z.
Proof.
  unfold total_size. induction a as [| z a IH]; intro b; cbn [app fold_right].
  - lia.
  - rewrite IH. lia.
Qed.

(** Without a reset among the calls the session goes on. *)
Lemma session_sizes_no_reset : forall (cs : list call) (acc : list Z),
  existsb is_reset cs = false -> session_sizes acc cs = acc ++ sizes cs.
Proof.
  induction cs as [| [now n | now] cs IH]; intros acc H.
  - cbn. rewrite app_nil_r. reflexivity.
  - cbn [existsb is_reset orb] in H. cbn [session_sizes sizes flat_map].
    fold (sizes cs). rewrite (IH _ H), <- app_assoc. reflexivity.
  - discriminate H.
Qed.

(** While the sizes of the current session stay within 2^53 the stored
    total is their sum, whatever was received before the last reset. *)
Lemma total_exec : forall (cs : list call) (s : State) (acc : list Z),
  forallb (fun z => 0 <=? z)%Z (session_sizes acc cs) = true ->
  (total_size (session_sizes acc cs) <= 2 ^ 53)%Z ->
  g_totalBytes s = double_of_Z (total_size acc) \/ existsb is_reset cs = true ->
  g_totalBytes (exec s cs) = double_of_Z (total_size (session_sizes acc cs)).
Proof.
  induction cs as [| [now n | now] cs IH]; intros s acc Hpos Hsum Hs.
  - cbn [exec session_sizes]. destruct Hs as [Hs | Hs]; [ exact Hs | discriminate Hs ].
  - cbn [exec do_call fst session_sizes] in *.
    apply IH; [ exact Hpos | exact Hsum | ].
    destruct (existsb is_reset cs) eqn:Hreset; [ right; reflexivity | left ].
    cbn [existsb is_reset orb] in Hs. rewrite Hreset in Hs.
    destruct Hs as [Hs | Hs]; [ | discriminate Hs ].
    rewrite (session_sizes_no_reset cs _ Hreset) in Hpos, Hsum.
    rewrite !forallb_app in Hpos. cbn [forallb] in Hpos.
    apply andb_true_iff in Hpos. destruct Hpos as [Hpos Hrest].
    apply andb_true_iff in Hpos. destruct Hpos as [Hacc Hn].
    rewrite andb_true_r in Hn. apply Z.leb_le in Hn.
    pose proof (sizes_sum_nonneg _ Hacc) as Hacc0.
    pose proof (sizes_sum_nonneg _ Hrest) as Hrest0.
    rewrite !total_size_app in Hsum.
    assert (Hone : total_size [n] = n) by (unfold total_size; cbn; lia).
    rewrite Hone in Hsum.
    rewrite ProcessTrafficCore_total, Hs, total_size_app, Hone.
    apply double_add_exact; lia.
  - cbn [exec do_call fst session_sizes] in *.
    apply IH; [ exact Hpos | exact Hsum | ]. left. reflexivity.
Qed.

(** X1: the total of a snapshot is exact. As long as the sizes of the
    packets of the current session, those received since the last reset,
    add up to at most 2^53 bytes, the total handed back with a packet is the
    double of the integer number of bytes of the session, this packet
    included: the additions in binary64 lose nothing, whatever the arrival
    times are and whatever was received before the last reset. *)
Theorem total_bytes_exact :
  forall (cs : list call) (now : time_point) (n : Z) (snap : Snapshot),
    forallb (fun z => 0 <=? z)%Z (session_sizes [] cs) = true -> (0 <= n)%Z ->
    (total_size (session_sizes [] cs) + n <= 2 ^ 53)%Z ->
    snd (ProcessTrafficCore (exec fresh cs) now n) = JsResult snap ->
    totalBytes snap = double_of_Z (total_size (session_sizes [] cs) + n).
Proof.
  intros cs now n snap Hpos Hn Hsum Hsnap.
  pose proof (sizes_sum_nonneg _ Hpos) as Hrest.
  rewrite (snapshot_total _ _ _ _ Hsnap).
  rewrite (total_exec cs fresh []); [ | exact Hpos | lia | left; reflexivity ].
  apply double_add_exact; lia.
Qed.

(** A packet of 2^60 bytes at 0 ms, a reset at 100 ms, 1000 bytes at
    200 ms and at 400 ms: the last packet reports the 2000 bytes of its
    session. *)
Lemma total_bytes_exact_witness :
  exists snap : Snapshot,
    snd (ProcessTrafficCore
           (exec fresh [CallPacket 0%Z (2 ^ 60)%Z; CallReset 100000000%Z;
                        CallPacket 200000000%Z 1000%Z])
           400000000%Z 1000%Z) = JsResult snap
    /\ totalBytes snap = 2000.
Proof.
  eexists. split; [ vm_compute; reflexivity | ].
  refine (eq_trans
            (total_bytes_exact
               [CallPacket 0%Z (2 ^ 60)%Z; CallReset 100000000%Z;
                CallPacket 200000000%Z 1000%Z]
               400000000%Z 1000%Z _ _ _ _ _) _).
  - reflexivity.
  - lia.
  - vm_compute. discriminate.
  - vm_compute. reflexivity.
  - vm_compute. reflexivity.
Defined.

(** X2: the two entry points agree on integers. A JS number that holds an
    integer from 0 to 2^53 passes through [static_cast<size_t>] unchanged, so
    [analyzeLength] does with it what [analyzeTraffic] does with an
    ArrayBuffer of that many bytes: same state, same returned value. *)
Theorem AnalyzeLength_agrees_with_AnalyzeTraffic :
  forall (s : State) (now : time_point) (n : Z),
    (0 <= n <= 2 ^ 53)%Z ->
    AnalyzeLength s now (JsNumber (double_of_Z n))
    = Some (AnalyzeTraffic s now (JsArrayBuffer n)).
Proof.
  intros s now n Hn. unfold AnalyzeLength, AnalyzeTraffic.
  rewrite (static_cast_size_t_double_of_Z n Hn). reflexivity.
Qed.

Lemma AnalyzeLength_agrees_with_AnalyzeTraffic_witness :
  AnalyzeLength started 100000000%Z (JsNumber 1500)
  = Some (AnalyzeTraffic started 100000000%Z (JsArrayBuffer 1500%Z)).
Proof.
  refine (eq_trans _ (AnalyzeLength_agrees_with_AnalyzeTraffic started 100000000%Z 1500%Z _)).
  - reflexivity.
  - vm_compute. split; discriminate.
Defined.

End ByteCounts.

(* ================================================================== *)
(** * The first packet, bursts and the window *)
(* ================================================================== *)

Section Sessions.

Import Numeric TrafficAnalyzer.
Open Scope float_scope.

(** X3: the first packet of a session returns the empty object and no
    statistics, but its bytes are not lost. When the next packet arrives
    100 ms or more later, the first computed tick divides the bytes of both
    packets by the time between them: [instantKbps] is
    [(n0 + n1) * 8 / seconds / 1024], and the average is taken over the same
    bytes and the same time, the session having started at the first
    packet. *)
Theorem first_tick_counts_first_packet :
  forall (s : State) (t0 t1 : time_point) (n0 n1 : Z),
    g_isFirstPacket s = true ->
    g_accumulatedBytes s = 0 -> g_totalBytes s = 0 -> g_speedWindow s = [] ->
    (0 <= n0)%Z -> (0 <= n1)%Z -> (n0 + n1 <= 2 ^ 53)%Z ->
    (100000000 <= t1 - t0)%Z ->
    let seconds := double_of_Z (duration_cast_us (t1 - t0)) / 1000000.0 in
    exists (s1 s2 : State) (snap : Snapshot),
      ProcessTrafficCore s t0 n0 = (s1, JsEmptyObject)
      /\ ProcessTrafficCore s1 t1 n1 = (s2, JsResult snap)
      /\ instantKbps snap = double_of_Z (n0 + n1) * 8.0 / seconds / 1024.0
      /\ avgKbps snap
         = (if 0 <? seconds then double_of_Z (n0 + n1) * 8.0 / 1024.0 / seconds else 0)
      /\ totalBytes snap = double_of_Z (n0 + n1)
      /\ jitter snap = 0
      /\ g_speedWindow s2 = [instantKbps snap]
      /\ g_sessionStartTime s2 = t0 /\ g_lastPacketTime s2 = t1
      /\ g_accumulatedBytes s2 = 0.
Proof.
  intros s t0 t1 n0 n1 Hfirst Hacc Htot Hwin Hn0 Hn1 Hsum Helapsed seconds.
  apply tick_test in Helapsed.
  assert (Hadd : 0 + double_of_Z n0 + double_of_Z n1 = double_of_Z (n0 + n1)).
  { change 0 with (double_of_Z 0).
    rewrite (double_add_exact 0 n0) by lia. rewrite Z.add_0_l.
    apply double_add_exact; lia. }
  unfold ProcessTrafficCore at 1. rewrite Hfirst.
  eexists. eexists. eexists. split; [ reflexivity | ].
  unfold ProcessTrafficCore.
  cbn [g_isFirstPacket g_lastPacketTime g_speedWindow g_totalBytes
       g_accumulatedBytes g_globalMax g_globalAvgKbps g_globalMin
       g_sessionStartTime g_sampleCount].
  cbv iota. rewrite Helapsed, Hacc, Htot, Hadd, Hwin. fold seconds.
  split; [ reflexivity | ].
  cbn [instantKbps avgKbps totalBytes jitter CreateResultObject g_speedWindow
       g_sessionStartTime g_lastPacketTime g_accumulatedBytes].
  repeat split.
Qed.

(** A packet of 1000 bytes at 0 ms and one of 500 bytes at 200 ms on a
    fresh engine: the first tick reports 1500 bytes over 0.2 s, which is
    58.59375 kbps. *)
Lemma first_tick_counts_first_packet_witness :
  exists (s1 s2 : State) (snap : Snapshot),
    ProcessTrafficCore fresh 0%Z 1000%Z = (s1, JsEmptyObject)
    /\ ProcessTrafficCore s1 200000000%Z 500%Z = (s2, JsResult snap)
    /\ instantKbps snap = 58.59375
    /\ avgKbps snap = 58.59375
    /\ totalBytes snap = 1500.
Proof.
  destruct (first_tick_counts_first_packet fresh 0%Z 200000000%Z 1000%Z 500%Z)
    as (s1 & s2 & snap & H1 & H2 & Hinst & Havg & Htot & _);
    [ reflexivity | reflexivity | reflexivity | reflexivity | lia | lia | lia | lia | ].
  exists s1, s2, snap.
  split; [ exact H1 | ]. split; [ exact H2 | ].
  split; [ rewrite Hinst; vm_compute; reflexivity | ].
  split; [ rewrite Havg; vm_compute; reflexivity | ].
  rewrite Htot. vm_compute. reflexivity.
Defined.


(** What a state shows to a packet inside the 100 ms floor. *)
Lemma debounce_run :
  forall (evs : list (time_point * Z)) (s : State) (t : time_point),
    g_isFirstPacket s = false -> g_lastPacketTime s = t ->
    forallb (fun e => fst e - t <? 100000000)%Z evs = true ->
    let w := g_speedWindow s in
    Forall (fun v => exists b : Snapshot,
              v = JsResult b
              /\ instantKbps b = match w with [] => 0 | _ => last w 0 end
              /\ jitter b
                 = CalculateJitter w
                     match w with [] => 0 | _ => accumulate w / size_as_double w end
              /\ maxKbps b = g_globalMax s
              /\ minKbps b = reported_min (g_globalMin s)
              /\ avgKbps b = g_globalAvgKbps s)
           (run s (packets evs))
    /\ g_speedWindow (exec s (packets evs)) = w
    /\ g_lastPacketTime (exec s (packets evs)) = t
    /\ g_sampleCount (exec s (packets evs)) = g_sampleCount s
    /\ g_accumulatedBytes (exec s (packets evs))
       = fold_left (fun acc e => acc + double_of_Z (snd e)) evs (g_accumulatedBytes s).
Proof.
  induction evs as [| [now n] evs IH]; intros s t Hfirst Hlast Hclose w.
  - cbn [packets map run exec fold_left].
    split; [ constructor | ]. split; [ reflexivity | ].
    split; [ exact Hlast | ]. split; reflexivity.
  - cbn [forallb fst] in Hclose. apply andb_true_iff in Hclose.
    destruct Hclose as [Hnow Hrest]. apply Z.ltb_lt in Hnow.
    cbn [packets map run exec do_call fst snd fold_left]. fold (packets evs).
    assert (Hd : (duration_cast_us (now - g_lastPacketTime s) <? MIN_CALC_INTERVAL_US)%Z = true)
      by (apply debounce_test; lia).
    assert (Hstep : ProcessTrafficCore s now n
                    = ({| g_speedWindow := w;
                          g_totalBytes := g_totalBytes s + double_of_Z n;
                          g_lastPacketTime := g_lastPacketTime s;
                          g_isFirstPacket := g_isFirstPacket s;
                          g_accumulatedBytes := g_accumulatedBytes s + double_of_Z n;
                          g_globalMax := g_globalMax s;
                          g_globalAvgKbps := g_globalAvgKbps s;
                          g_globalMin := g_globalMin s;
                          g_sessionStartTime := g_sessionStartTime s;
                          g_sampleCount := g_sampleCount s |},
                        CreateResultObject
                          match w with [] => 0 | _ => last w 0 end
                          (g_globalMax s) (reported_min (g_globalMin s))
                          (g_globalAvgKbps s)
                          (CalculateJitter w
                             match w with [] => 0 | _ => accumulate w / size_as_double w end)
                          (g_totalBytes s + double_of_Z n))).
    { unfold ProcessTrafficCore. rewrite Hfirst, Hd. reflexivity. }
    rewrite Hstep. cbn [fst snd].
    match goal with
    | |- context [exec ?s1 (packets evs)] =>
        destruct (IH s1 t) as (Hall & Hw & Ht & Hc & Ha);
          [ exact Hfirst | exact Hlast | exact Hrest | ]
    end.
    cbn [g_speedWindow g_globalMax g_globalMin g_globalAvgKbps g_sampleCount
         g_accumulatedBytes] in Hall, Hw, Hc, Ha.
    split; [ | split; [ exact Hw | split; [ exact Ht | split; [ exact Hc | exact Ha ] ] ] ].
    constructor; [ | exact Hall ].
    unfold CreateResultObject. eexists. split; [ reflexivity | ].
    cbn [instantKbps jitter maxKbps minKbps avgKbps].
    split; [ reflexivity | ]. split; [ reflexivity | ]. split; [ reflexivity | ].
    split; reflexivity.
Qed.

(** X4: a burst inside the 100 ms floor. After a computed tick, every
    packet that arrives less than 100 ms after that tick, however many there
    are, gets the tick's instantaneous rate, jitter, extremes and average
    again; none of them moves the window, the tick counter or the time of
    the last tick, and their bytes are kept in the accumulator for the next
    tick. *)
Theorem burst_repeats_tick :
  forall (s : State) (t1 : time_point) (n1 : Z) (evs : list (time_point * Z)),
    g_isFirstPacket s = false ->
    (100000000 <= t1 - g_lastPacketTime s)%Z ->
    forallb (fun e => fst e - t1 <? 100000000)%Z evs = true ->
    exists (s1 : State) (a : Snapshot),
      ProcessTrafficCore s t1 n1 = (s1, JsResult a)
      /\ Forall (fun v => exists b : Snapshot,
                   v = JsResult b
                   /\ instantKbps b = instantKbps a /\ jitter b = jitter a
                   /\ maxKbps b = maxKbps a /\ minKbps b = minKbps a
                   /\ avgKbps b = avgKbps a)
                (run s1 (packets evs))
      /\ g_speedWindow (exec s1 (packets evs)) = g_speedWindow s1
      /\ g_lastPacketTime (exec s1 (packets evs)) = t1
      /\ g_sampleCount (exec s1 (packets evs)) = (g_sampleCount s + 1)%Z
      /\ g_accumulatedBytes (exec s1 (packets evs))
         = fold_left (fun acc e => acc + double_of_Z (snd e)) evs 0.
Proof.
  intros s t1 n1 evs Hfirst Htick Hclose.
  apply tick_test in Htick.
  destruct (ProcessTrafficCore s t1 n1) as [s1 r] eqn:Hrun.
  unfold ProcessTrafficCore in Hrun. rewrite Hfirst, Htick in Hrun.
  cbv zeta in Hrun.
  remember ((g_accumulatedBytes s + double_of_Z n1) * 8.0 /
            (double_of_Z (duration_cast_us (t1 - g_lastPacketTime s)) / 1000000.0) /
            1024.0) as inst eqn:Hinst.
  clear Hinst.
  injection Hrun as Hs1 Hr. unfold CreateResultObject in Hr.
  destruct (push_window_cons (g_speedWindow s) inst) as (x & l & Hw).
  pose proof (push_window_last (g_speedWindow s) inst) as Hlastw.
  destruct (debounce_run evs s1 t1) as (Hall & Hwin & Ht & Hc & Ha).
  { subst s1. reflexivity. }
  { subst s1. reflexivity. }
  { exact Hclose. }
  eexists. eexists. split; [ rewrite <- Hr; reflexivity | ].
  cbn [instantKbps jitter maxKbps minKbps avgKbps].
  split; [ | split; [ exact Hwin | split; [ exact Ht | split ] ] ].
  - eapply Forall_impl; [ | exact Hall ].
    intros v (b & Hv & Hi & Hj & Hmx & Hmn & Hav).
    exists b. split; [ exact Hv | ].
    rewrite Hi, Hj, Hmx, Hmn, Hav. subst s1.
    cbn [g_speedWindow g_globalMax g_globalMin g_globalAvgKbps].
    rewrite Hw in *. repeat split. exact Hlastw.
  - rewrite Hc. subst s1. reflexivity.
  - rewrite Ha. subst s1. reflexivity.
Qed.

(** After the first packet at 0 ms, a tick at 200 ms and packets of 300 and
    200 bytes at 250 ms and at 299.999999 ms: both repeat the tick, and 500
    bytes wait for the next one. *)
Lemma burst_repeats_tick_witness :
  exists (s1 : State) (a : Snapshot),
    ProcessTrafficCore started 200000000%Z 1000%Z = (s1, JsResult a)
    /\ Forall (fun v => exists b : Snapshot,
                 v = JsResult b
                 /\ instantKbps b = instantKbps a /\ jitter b = jitter a
                 /\ maxKbps b = maxKbps a /\ minKbps b = minKbps a
                 /\ avgKbps b = avgKbps a)
              (run s1 (packets [(250000000%Z, 300%Z); (299999999%Z, 200%Z)]))
    /\ g_accumulatedBytes
         (exec s1 (packets [(250000000%Z, 300%Z); (299999999%Z, 200%Z)])) = 500.
Proof.
  destruct (burst_repeats_tick started 200000000%Z 1000%Z
              [(250000000%Z, 300%Z); (299999999%Z, 200%Z)])
    as (s1 & a & Hrun & Hall & _ & _ & _ & Hacc).
  - reflexivity.
  - vm_compute. discriminate.
  - vm_compute. reflexivity.
  - exists s1, a. split; [ exact Hrun | ]. split; [ exact Hall | ].
    rewrite Hacc. vm_compute. reflexivity.
Defined.

(** X5: the window holds one sample per computed tick, up to its capacity.
    After any calls, resets included, the length of the window is the
    smaller of the tick counter and 100. *)
Theorem window_length_is_tick_count :
  forall cs : list call,
    Z.of_nat (length (g_speedWindow (exec fresh cs)))
    = Z.min (g_sampleCount (exec fresh cs)) 100
    /\ (length (g_speedWindow (exec fresh cs)) <= WINDOW_SIZE)%nat
    /\ (0 <= g_sampleCount (exec fresh cs))%Z.
Proof.
  assert (Hgen : forall cs s,
            Z.of_nat (length (g_speedWindow s)) = Z.min (g_sampleCount s) 100
            /\ (0 <= g_sampleCount s)%Z ->
            Z.of_nat (length (g_speedWindow (exec s cs)))
            = Z.min (g_sampleCount (exec s cs)) 100
            /\ (0 <= g_sampleCount (exec s cs))%Z).
  { induction cs as [| [now n | now] cs IH]; intros s [Hlen Hcount].
    - split; assumption.
    - cbn [exec do_call fst]. apply IH. unfold ProcessTrafficCore.
      destruct (g_isFirstPacket s); [ split; assumption | ].
      destruct (duration_cast_us (now - g_lastPacketTime s) <? MIN_CALC_INTERVAL_US)%Z;
        [ split; assumption | ].
      cbn [fst g_speedWindow g_sampleCount]. unfold push_window, WINDOW_SIZE.
      destruct (100 <=? length (g_speedWindow s))%nat eqn:E.
      + apply Nat.leb_le in E. rewrite length_app. cbn [length].
        destruct (g_speedWindow s) as [| a w']; cbn [tl length] in *; lia.
      + apply Nat.leb_gt in E. rewrite length_app. cbn [length]. lia.
    - cbn [exec do_call fst]. apply IH. cbn. lia. }
  intro cs. destruct (Hgen cs fresh) as [Hlen Hcount].
  - cbn. lia.
  - split; [ exact Hlen | ]. split; [ unfold WINDOW_SIZE; lia | exact Hcount ].
Qed.

(** X6: the floor limits the tick rate. After any calls, resets included
    and whatever the clock readings are, the ticks computed in the current
    session are at least 100 ms apart: 100 ms times the tick counter is at
    most the time from the start of the session to the last computed tick,
    so that no more than ten samples per second enter the window. *)
Theorem tick_rate_bounded :
  forall cs : list call,
    (g_sampleCount (exec fresh cs) * 100000000
     <= g_lastPacketTime (exec fresh cs) - g_sessionStartTime (exec fresh cs))%Z
    /\ (0 <= g_sampleCount (exec fresh cs))%Z.
Proof.
  assert (Hgen : forall cs s,
            (g_isFirstPacket s = true -> g_sampleCount s = 0%Z)
            /\ (g_sampleCount s * 100000000
                <= g_lastPacketTime s - g_sessionStartTime s)%Z
            /\ (0 <= g_sampleCount s)%Z ->
            (g_sampleCount (exec s cs) * 100000000
             <= g_lastPacketTime (exec s cs) - g_sessionStartTime (exec s cs))%Z
            /\ (0 <= g_sampleCount (exec s cs))%Z).
  { induction cs as [| [now n | now] cs IH]; intros s (Hfirst & Hrate & Hcount).
    - split; assumption.
    - cbn [exec do_call fst]. apply IH. unfold ProcessTrafficCore.
      destruct (g_isFirstPacket s) eqn:Ef.
      + cbn [fst g_isFirstPacket g_sampleCount g_lastPacketTime g_sessionStartTime].
        rewrite (Hfirst eq_refl). split; [ discriminate | lia ].
      + destruct (duration_cast_us (now - g_lastPacketTime s) <? MIN_CALC_INTERVAL_US)%Z
          eqn:Ed.
        * cbn [fst g_isFirstPacket g_sampleCount g_lastPacketTime g_sessionStartTime].
          split; [ discriminate | split; assumption ].
        * apply tick_test in Ed.
          cbn [fst g_isFirstPacket g_sampleCount g_lastPacketTime g_sessionStartTime].
          split; [ discriminate | lia ].
    - cbn [exec do_call fst]. apply IH. cbn. split; [ reflexivity | lia ]. }
  intro cs. apply Hgen. cbn. split; [ reflexivity | lia ].
Qed.

End Sessions.

(* ================================================================== *)
(** * What a reset leaves behind *)
(* ================================================================== *)

Section ResetLeftover.

Import Numeric TrafficAnalyzer.
Open Scope float_scope.

Lemma same_session_start : forall (s : State) (now : time_point),
  same_session (ResetState s now) fresh.
Proof.
  intros s now. unfold same_session. cbn.
  repeat (split; [ reflexivity | ]). split; [ discriminate | lia ].
Qed.

Lemma same_session_step : forall (a b : State) (c : call),
  same_session a b ->
  same_session (fst (do_call a c)) (fst (do_call b c))
  /\ forget_avg (snd (do_call a c)) = forget_avg (snd (do_call b c)).
Proof.
  intros [wa ta la fa aa xa va ma sa ca] [wb tb lb fb ab xb vb mb sb cb] c H.
  unfold same_session in H.
  cbn [g_speedWindow g_totalBytes g_lastPacketTime g_isFirstPacket g_accumulatedBytes
       g_globalMax g_globalAvgKbps g_globalMin g_sessionStartTime g_sampleCount] in H.
  destruct H as (<- & <- & <- & <- & <- & <- & <- & Htime & Havg).
  destruct c as [now n | now].
  - cbn [do_call]. unfold ProcessTrafficCore.
    cbn [g_speedWindow g_totalBytes g_lastPacketTime g_isFirstPacket g_accumulatedBytes
         g_globalMax g_globalAvgKbps g_globalMin g_sessionStartTime g_sampleCount].
    destruct fa.
    + cbn [fst snd]. split; [ | reflexivity ].
      unfold same_session.
      cbn [g_speedWindow g_totalBytes g_lastPacketTime g_isFirstPacket
           g_accumulatedBytes g_globalMax g_globalAvgKbps g_globalMin
           g_sessionStartTime g_sampleCount].
      repeat (split; [ reflexivity | ]).
      split; [ intros _; split; reflexivity | ].
      intro Hc. destruct (Havg Hc) as [_ Hf]. discriminate Hf.
    + destruct (Htime eq_refl) as [<- <-].
      destruct (duration_cast_us (now - la) <? MIN_CALC_INTERVAL_US)%Z.
      * cbn [fst snd]. split; [ | reflexivity ].
        unfold same_session.
        cbn [g_speedWindow g_totalBytes g_lastPacketTime g_isFirstPacket
             g_accumulatedBytes g_globalMax g_globalAvgKbps g_globalMin
             g_sessionStartTime g_sampleCount].
        repeat (split; [ reflexivity | ]).
        split; [ intros _; split; reflexivity | ].
        intro Hc. split; [ apply (Havg Hc) | reflexivity ].
      * cbn [fst snd]. split; [ | reflexivity ].
        unfold same_session.
        cbn [g_speedWindow g_totalBytes g_lastPacketTime g_isFirstPacket
             g_accumulatedBytes g_globalMax g_globalAvgKbps g_globalMin
             g_sessionStartTime g_sampleCount].
        repeat (split; [ reflexivity | ]).
        split; [ intros _; split; reflexivity | ].
        intros _. split; reflexivity.
  - cbn [do_call fst snd]. split; [ | reflexivity ].
    unfold same_session. cbn.
    repeat (split; [ reflexivity | ]). split; [ discriminate | lia ].
Qed.

Lemma same_session_run : forall (cs : list call) (a b : State),
  same_session a b ->
  same_session (exec a cs) (exec b cs)
  /\ map forget_avg (run a cs) = map forget_avg (run b cs).
Proof.
  induction cs as [| c cs IH]; intros a b H.
  - split; [ exact H | reflexivity ].
  - destruct (same_session_step a b c H) as [Hs Hv].
    destruct (IH _ _ Hs) as [Hs' Hvs].
    cbn [exec run map]. split; [ exact Hs' | ]. rewrite Hv, Hvs. reflexivity.
Qed.

(** X7: what a reset leaves behind. Whatever the engine did before
    [resetState], every value it returns afterwards is the value a freshly
    loaded engine returns for the same calls, except for the [avgKbps] of
    the snapshots; and as soon as the new session has computed a tick the
    two engines are in the same state, so that all later answers are the
    same, averages included. *)
Theorem reset_session_like_fresh :
  forall (s : State) (now : time_point) (cs : list call),
    map forget_avg (run (ResetState s now) cs) = map forget_avg (run fresh cs)
    /\ ((0 < g_sampleCount (exec (ResetState s now) cs))%Z ->
        exec (ResetState s now) cs = exec fresh cs).
Proof.
  intros s now cs.
  destruct (same_session_run cs _ _ (same_session_start s now)) as [Hs Hv].
  split; [ exact Hv | ]. intro Hc.
  destruct (exec (ResetState s now) cs) as [wa ta la fa aa xa va ma sa ca].
  destruct (exec fresh cs) as [wb tb lb fb ab xb vb mb sb cb].
  unfold same_session in Hs.
  cbn [g_speedWindow g_totalBytes g_lastPacketTime g_isFirstPacket g_accumulatedBytes
       g_globalMax g_globalAvgKbps g_globalMin g_sessionStartTime g_sampleCount] in Hs, Hc.
  destruct Hs as (<- & <- & <- & <- & <- & <- & <- & Htime & Havg).
  destruct (Havg Hc) as [<- Hf]. destruct (Htime Hf) as [<- <-]. reflexivity.
Qed.

(** [running] stores the average 78.125. After a reset at 300 ms and
    packets at 400 ms and 600 ms, the second of which computes a tick, the
    engine is in the state of a fresh engine given these two packets. *)
Lemma reset_session_like_fresh_witness :
  exec (ResetState running 300000000%Z)
       [CallPacket 400000000%Z 10%Z; CallPacket 600000000%Z 10%Z]
  = exec fresh [CallPacket 400000000%Z 10%Z; CallPacket 600000000%Z 10%Z].
Proof.
  apply (proj2 (reset_session_like_fresh running 300000000%Z
                  [CallPacket 400000000%Z 10%Z; CallPacket 600000000%Z 10%Z])).
  vm_compute. reflexivity.
Defined.

End ResetLeftover.

(* ================================================================== *)
(** * The rates handed back are numbers *)
(* ================================================================== *)

Section Rates.

Import Numeric TrafficAnalyzer.
Open Scope float_scope.

(** A positive count of microseconds is a positive number of seconds. *)
Lemma seconds_positive : forall us : Z,
  (1 <= us)%Z -> (Zdigits2 us <= 1000)%Z ->
  SFpositive (Prim2SF (double_of_Z us / 1000000.0)) = true.
Proof.
  intros us Hus Hd. rewrite div_spec. unfold SF64div.
  destruct (double_of_Z_normal us ltac:(lia) ltac:(lia)) as (m & e & H & Hm & He).
  rewrite H.
  pose proof (Zdigits2_pos us ltac:(lia)) as Hd1.
  change (Prim2SF 1000000.0) with (S754_finite false 8589934592000000 (-33)).
  destruct (SFdiv_normal false m e false 8589934592000000 (-33)) as (m' & e' & H').
  - rewrite Hm. change (Z.pos (digits2_pos 8589934592000000)) with 53%Z. lia.
  - rewrite Hm. change (Z.pos (digits2_pos 8589934592000000)) with 53%Z. lia.
  - rewrite H'. reflexivity.
Qed.

Lemma ltb_zero_positive : forall x : float,
  SFpositive (Prim2SF x) = true -> (0 <? x) = true.
Proof.
  intros x H. rewrite ltb_spec. change (Prim2SF 0) with (S754_zero false).
  destruct (Prim2SF x) as [s | s | | [|] m e]; cbn [SFpositive] in H;
    try discriminate H. reflexivity.
Qed.

Lemma avg_nonneg : forall total secs : float,
  (0 <=? total) = true -> SFpositive (Prim2SF secs) = true ->
  (0 <=? total * 8.0 / 1024.0 / secs) = true.
Proof.
  intros total secs Ht Hs. apply leb_zero_nonneg.
  rewrite !div_spec, mul_spec. unfold SF64div, SF64mul.
  apply SFdiv_nonneg; [ | exact Hs ].
  apply SFdiv_nonneg; [ | vm_compute; reflexivity ].
  apply SFmul_nonneg; [ apply leb_zero_nonneg; exact Ht | vm_compute; reflexivity ].
Qed.

Lemma reported_min_nonneg : forall m : float,
  m = -1.0 \/ (0 <=? m) = true -> (0 <=? reported_min m) = true.
Proof.
  intros m [-> | H]; unfold reported_min.
  - reflexivity.
  - rewrite (leb_not_ltb _ _ H). exact H.
Qed.

Lemma last_nonneg : forall (w : list float) (d : float),
  (0 <=? d) = true -> forallb (fun v => 0 <=? v) w = true -> (0 <=? last w d) = true.
Proof.
  induction w as [| a w IH]; intros d Hd Hw; [ exact Hd | ].
  cbn [forallb] in Hw. apply andb_true_iff in Hw. destruct Hw as [Ha Hw].
  destruct w as [| b w']; [ exact Ha | ].
  change (last (a :: b :: w') d) with (last (b :: w') d). apply IH; assumption.
Qed.

Lemma push_window_nonneg : forall (w : list float) (v : float),
  forallb (fun v => 0 <=? v) w = true -> (0 <=? v) = true ->
  forallb (fun v => 0 <=? v) (push_window w v) = true.
Proof.
  intros w v Hw Hv. unfold push_window. rewrite forallb_app.
  cbn [forallb]. rewrite Hv. cbn [andb]. rewrite andb_true_r.
  destruct (WINDOW_SIZE <=? length w)%nat; [ | exact Hw ].
  destruct w as [| a w']; [ reflexivity | ].
  cbn [forallb tl] in *. apply andb_true_iff in Hw. apply Hw.
Qed.

(** The time since the session started, at a computed tick. *)
Lemma tick_session_range : forall (s : State) (now : time_point),
  (0 <= g_sessionStartTime s <= g_lastPacketTime s)%Z ->
  (0 <= now < 2 ^ 63)%Z ->
  (100000000 <= now - g_lastPacketTime s)%Z ->
  (100000 <= duration_cast_us (now - g_sessionStartTime s))%Z
  /\ (Zdigits2 (duration_cast_us (now - g_sessionStartTime s)) <= 1000)%Z.
Proof.
  intros s now Hstart Hnow Htick.
  apply (tick_duration_range now (g_sessionStartTime s)); [ lia | lia | ].
  apply tick_test. lia.
Qed.

(** A deliverable packet keeps the rates sound, and the snapshot it gets
    holds no negative number and no NaN among its rates and its total. *)
Lemma rates_ok_step :
  forall (s : State) (now : time_point) (n : Z),
    rates_ok s -> valid_packet (now, n) = true ->
    rates_ok (fst (ProcessTrafficCore s now n))
    /\ match snd (ProcessTrafficCore s now n) with
       | JsResult r => nonneg_snapshot r = true
       | _ => True
       end.
Proof.
  intros s now n (Hclock & Hlast & Hacc & Htot & Hmax & Havg & Hmin & Hwin) Hv.
  unfold valid_packet in Hv. cbn [fst snd] in Hv.
  apply andb_true_iff in Hv. destruct Hv as [Hv Hn2].
  apply andb_true_iff in Hv. destruct Hv as [Hv Hn1].
  apply andb_true_iff in Hv. destruct Hv as [Ht1 Ht2].
  apply Z.leb_le in Ht1, Hn1, Hn2. apply Z.ltb_lt in Ht2.
  assert (Hbytes : (0 <=? double_of_Z n) = true).
  { apply double_of_Z_nonneg; [ exact Hn1 | ].
    unfold SIZE_MAX in Hn2.
    pose proof (Zdigits2_upper n 64 ltac:(lia) ltac:(lia)). lia. }
  pose proof (add_nonneg _ _ Hacc Hbytes) as Hacc'.
  pose proof (add_nonneg _ _ Htot Hbytes) as Htot'.
  unfold ProcessTrafficCore.
  destruct (g_isFirstPacket s).
  - cbn [fst snd]. split; [ | exact I ]. unfold rates_ok.
    cbn [g_speedWindow g_totalBytes g_lastPacketTime g_accumulatedBytes
         g_globalMax g_globalAvgKbps g_globalMin g_sessionStartTime].
    split; [ lia | ]. split; [ exact Ht2 | ].
    split; [ exact Hacc' | ]. split; [ exact Htot' | ].
    split; [ exact Hmax | ]. split; [ exact Havg | ].
    split; [ exact Hmin | exact Hwin ].
  - destruct (duration_cast_us (now - g_lastPacketTime s) <? MIN_CALC_INTERVAL_US)%Z
      eqn:Hd.
    + cbn [fst snd CreateResultObject]. split.
      * unfold rates_ok.
        cbn [g_speedWindow g_totalBytes g_lastPacketTime g_accumulatedBytes
             g_globalMax g_globalAvgKbps g_globalMin g_sessionStartTime].
        split; [ exact Hclock | ]. split; [ exact Hlast | ].
        split; [ exact Hacc' | ]. split; [ exact Htot' | ].
        split; [ exact Hmax | ]. split; [ exact Havg | ].
        split; [ exact Hmin | exact Hwin ].
      * unfold nonneg_snapshot. cbn [instantKbps maxKbps minKbps avgKbps totalBytes].
        rewrite Hmax, Havg, Htot', (reported_min_nonneg _ Hmin).
        assert (Hi : (0 <=? match g_speedWindow s with
                            | [] => 0
                            | _ :: _ => last (g_speedWindow s) 0
                            end) = true).
        { destruct (g_speedWindow s) as [| a w'] eqn:Ew; [ reflexivity | ].
          apply last_nonneg; [ reflexivity | exact Hwin ]. }
        rewrite Hi. reflexivity.
    + pose proof (proj1 (tick_test _) Hd) as Htick.
      destruct (tick_duration_range now (g_lastPacketTime s) ltac:(lia) ltac:(lia) Hd)
        as [Hus Hdig].
      destruct (tick_session_range s now Hclock ltac:(lia) Htick) as [Hsus Hsdig].
      pose proof (rate_nonneg _ _ Hacc' Hus Hdig) as Hrate.
      pose proof (seconds_positive (duration_cast_us (now - g_sessionStartTime s))
                  ltac:(lia) Hsdig) as Hsec.
      pose proof (avg_nonneg _ _ Htot' Hsec) as Havg'.
      rewrite (ltb_zero_positive _ Hsec).
      cbv zeta.
      remember ((g_accumulatedBytes s + double_of_Z n) * 8.0 /
                (double_of_Z (duration_cast_us (now - g_lastPacketTime s)) / 1000000.0) /
                1024.0) as inst eqn:Hinst.
      clear Hinst.
      remember ((g_totalBytes s + double_of_Z n) * 8.0 / 1024.0 /
                (double_of_Z (duration_cast_us (now - g_sessionStartTime s)) / 1000000.0))
        as avg eqn:Hav.
      clear Hav.
      assert (Hmax' : (0 <=? (if g_globalMax s <? inst then inst else g_globalMax s)) = true)
        by (destruct (g_globalMax s <? inst); assumption).
      assert (Hmin' : (if (5 <? g_sampleCount s + 1)%Z
                       then if (g_globalMin s <? 0) || (inst <? g_globalMin s)
                            then inst else g_globalMin s
                       else g_globalMin s) = -1.0
                      \/ (0 <=? (if (5 <? g_sampleCount s + 1)%Z
                                 then if (g_globalMin s <? 0) || (inst <? g_globalMin s)
                                      then inst else g_globalMin s
                                 else g_globalMin s)) = true).
      { destruct (5 <? g_sampleCount s + 1)%Z; [ | exact Hmin ].
        destruct ((g_globalMin s <? 0) || (inst <? g_globalMin s));
          [ right; exact Hrate | exact Hmin ]. }
      cbn [fst snd CreateResultObject]. split.
      * unfold rates_ok.
        cbn [g_speedWindow g_totalBytes g_lastPacketTime g_accumulatedBytes
             g_globalMax g_globalAvgKbps g_globalMin g_sessionStartTime].
        split; [ lia | ]. split; [ exact Ht2 | ].
        split; [ reflexivity | ]. split; [ exact Htot' | ].
        split; [ exact Hmax' | ]. split; [ exact Havg' | ].
        split; [ exact Hmin' | ].
        apply push_window_nonneg; assumption.
      * unfold nonneg_snapshot. cbn [instantKbps maxKbps minKbps avgKbps totalBytes].
        rewrite Hrate, Hmax', Havg', Htot', (reported_min_nonneg _ Hmin'). reflexivity.
Qed.

Lemma rates_ok_fresh : rates_ok fresh.
Proof.
  unfold rates_ok. cbn. repeat split; try lia. left. reflexivity.
Qed.

Lemma rates_ok_exec : forall (cs : list call) (s : State),
  rates_ok s -> forallb valid_call cs = true ->
  rates_ok (exec s cs) /\ forallb nonneg_snapshot (snapshots (run s cs)) = true.
Proof.
  induction cs as [| c cs IH]; intros s Hs Hv.
  - split; [ exact Hs | reflexivity ].
  - cbn [forallb] in Hv. apply andb_true_iff in Hv. destruct Hv as [Hc Hv].
    cbn [exec run]. destruct c as [now n | now]; cbn [valid_call do_call fst snd] in *.
    + destruct (rates_ok_step s now n Hs Hc) as [Hs' Hr].
      destruct (IH _ Hs' Hv) as [Hfin Hall]. split; [ exact Hfin | ].
      destruct (snd (ProcessTrafficCore s now n)); cbn [snapshots forallb];
        try exact Hall.
      rewrite Hr, Hall. reflexivity.
    + apply andb_true_iff in Hc. destruct Hc as [H0 H1].
      apply Z.leb_le in H0. apply Z.ltb_lt in H1.
      destruct Hs as (_ & _ & _ & _ & _ & Havg & _).
      apply IH; [ | exact Hv ].
      unfold rates_ok. cbn. repeat split; try lia; try assumption.
      left. reflexivity.
Qed.

(** X8: no snapshot holds a negative number or a NaN among its rates. For
    calls the platform can make (clock readings of 63 bits, sizes that are a
    [size_t]), resets included, every snapshot handed back has
    [instantKbps], [maxKbps], [minKbps], [avgKbps] and [totalBytes] that are
    numbers not below zero. *)
Theorem reported_rates_nonneg :
  forall cs : list call,
    forallb valid_call cs = true ->
    forallb nonneg_snapshot (snapshots (run fresh cs)) = true.
Proof.
  intros cs Hv. apply (rates_ok_exec cs fresh rates_ok_fresh Hv).
Qed.

(** Six packets of 1000 bytes 100 ms apart, a reset at 700 ms, and two
    packets more. *)
Lemma reported_rates_nonneg_witness :
  forallb nonneg_snapshot
    (snapshots (run fresh (packets seven_packets
                             ++ [CallReset 700000000%Z; CallPacket 800000000%Z 0%Z;
                                 CallPacket 850000000%Z 10%Z]))) = true.
Proof.
  apply (reported_rates_nonneg
           (packets seven_packets
              ++ [CallReset 700000000%Z; CallPacket 800000000%Z 0%Z;
                  CallPacket 850000000%Z 10%Z])).
  vm_compute. reflexivity.
Defined.

(** X9: the fallback of the average is never taken. For calls the platform
    can make, the session never starts after the last computed tick, so at
    every computed tick at least 100 ms of session time have passed: the
    test [total_sec > 0] holds and [avgKbps] is
    [(totalBytes * 8 / 1024) / sessionSeconds], not the 0 of the other
    branch. *)
Theorem average_guard_never_fires :
  forall (cs : list call) (now : time_point) (n : Z),
    forallb valid_call cs = true -> valid_packet (now, n) = true ->
    let s := exec fresh cs in
    g_isFirstPacket s = false ->
    (100000000 <= now - g_lastPacketTime s)%Z ->
    let sessionSeconds :=
      double_of_Z (duration_cast_us (now - g_sessionStartTime s)) / 1000000.0 in
    (g_sessionStartTime s <= g_lastPacketTime s)%Z
    /\ (100000 <= duration_cast_us (now - g_sessionStartTime s))%Z
    /\ (0 <? sessionSeconds) = true
    /\ exists (s' : State) (snap : Snapshot),
         ProcessTrafficCore s now n = (s', JsResult snap)
         /\ avgKbps snap = (g_totalBytes s + double_of_Z n) * 8.0 / 1024.0 / sessionSeconds
         /\ g_globalAvgKbps s' = avgKbps snap.
Proof.
  intros cs now n Hcs Hv s Hfirst Htick sessionSeconds.
  destruct (rates_ok_exec cs fresh rates_ok_fresh Hcs) as [Hs _]. fold s in Hs.
  destruct Hs as (Hclock & Hlast & _).
  unfold valid_packet in Hv. cbn [fst snd] in Hv.
  apply andb_true_iff in Hv. destruct Hv as [Hv _].
  apply andb_true_iff in Hv. destruct Hv as [Hv _].
  apply andb_true_iff in Hv. destruct Hv as [Ht1 Ht2].
  apply Z.leb_le in Ht1. apply Z.ltb_lt in Ht2.
  destruct (tick_session_range s now Hclock ltac:(lia) Htick) as [Hsus Hsdig].
  pose proof (ltb_zero_positive _
                (seconds_positive (duration_cast_us (now - g_sessionStartTime s))
                   ltac:(lia) Hsdig)) as Hpos.
  fold sessionSeconds in Hpos.
  split; [ lia | ]. split; [ exact Hsus | ]. split; [ exact Hpos | ].
  apply tick_test in Htick.
  unfold ProcessTrafficCore. rewrite Hfirst, Htick. cbv zeta.
  fold sessionSeconds. rewrite Hpos.
  eexists. eexists. split; [ reflexivity | ].
  split; reflexivity.
Qed.

(** The second packet of [running]'s session, 200 ms after the first: 2000
    bytes over 0.2 s of session time. *)
Lemma average_guard_never_fires_witness :
  exists (s' : State) (snap : Snapshot),
    ProcessTrafficCore (exec fresh [CallPacket 0%Z 1000%Z]) 200000000%Z 1000%Z
    = (s', JsResult snap)
    /\ avgKbps snap = 78.125.
Proof.
  destruct (average_guard_never_fires [CallPacket 0%Z 1000%Z] 200000000%Z 1000%Z)
    as (_ & _ & _ & s' & snap & Hrun & Havg & _).
  - reflexivity.
  - reflexivity.
  - reflexivity.
  - vm_compute. discriminate.
  - exists s', snap. split; [ exact Hrun | ]. rewrite Havg. vm_compute. reflexivity.
Defined.

End Rates.

(* ================================================================== *)
(** * What a frame calls *)
(* ================================================================== *)

Section FrameCalls.

Import Numeric RenderManager.
Open Scope float_scope.

Lemma count_app : forall (p : event -> bool) (a b : list event),
  count p (a ++ b) = (count p a + count p b)%nat.
Proof.
  intros p a b. unfold count. rewrite filter_app, length_app. reflexivity.
Qed.

(** A trace of one class holds no event of a class disjoint from it. *)
Lemma count_other_class : forall (p q : event -> bool) (l : list event),
  (forall e, q e = true -> p e = false) ->
  forallb q l = true -> count p l = 0%nat.
Proof.
  intros p q l Hpq. unfold count.
  induction l as [| e l IH]; cbn [forallb filter]; intro H; [ reflexivity | ].
  apply andb_true_iff in H. destruct H as [He Hl].
  rewrite (Hpq e He). apply IH. exact Hl.
Qed.

Lemma count_same_class : forall (p : event -> bool) (l : list event),
  forallb p l = true -> count p l = length l.
Proof.
  intros p l. unfold count.
  induction l as [| e l IH]; cbn [forallb filter]; intro H; [ reflexivity | ].
  apply andb_true_iff in H. destruct H as [He Hl].
  rewrite He. cbn [length]. rewrite (IH Hl). reflexivity.
Qed.

Lemma fill_loop_drawing :
  forall (stepX : float32) (height : Z) (maxVal : float)
         (data : list float) (i : Z) (lastX : float32),
    forallb is_drawing (fst (fill_loop stepX height maxVal i data lastX)) = true.
Proof.
  intros stepX height maxVal.
  induction data as [| v data IH]; intros i lastX; cbn [fill_loop].
  - reflexivity.
  - specialize (IH (i + 1)%Z (f32_mul (f32_of_Z i) stepX)).
    destruct (fill_loop stepX height maxVal (i + 1) data (f32_mul (f32_of_Z i) stepX))
      as [evs lx].
    cbn [fst forallb is_drawing andb] in *. exact IH.
Qed.

Lemma stroke_loop_drawing :
  forall (stepX : float32) (height : Z) (maxVal : float) (data : list float) (i : Z),
    forallb is_drawing (stroke_loop stepX height maxVal i data) = true.
Proof.
  intros stepX height maxVal.
  induction data as [| v data IH]; intro i; cbn [stroke_loop forallb].
  - reflexivity.
  - rewrite IH. destruct (i =? 0)%Z; reflexivity.
Qed.

(** The drawing block builds and draws paths and calls nothing else; with
    two samples or more it makes [2 * n + 7] calls. *)
Lemma draw_waveform_calls : forall (width height : Z) (data : list float),
  forallb is_drawing (draw_waveform width height data) = true
  /\ length (draw_waveform width height data)
     = (if (1 <? length data)%nat then 2 * length data + 7 else 0)%nat.
Proof.
  intros width height data.
  destruct data as [| v0 [| v1 rest]]; [ split; reflexivity | split; reflexivity | ].
  pose proof (draw_waveform_shape width height v0 v1 rest) as Hshape.
  cbv zeta in Hshape. rewrite Hshape. clear Hshape.
  split.
  - rewrite !forallb_app, fill_loop_drawing, stroke_loop_drawing. reflexivity.
  - rewrite !length_app, fill_loop_length, stroke_loop_length.
    cbn [length Nat.ltb Nat.leb]. lia.
Qed.

Lemma copy_pixels_memcpy : forall (width height : Z) (env : FrameEnv),
  forallb is_memcpy (copy_pixels width height env) = true.
Proof.
  intros width height env. unfold copy_pixels.
  destruct (bitmap_pixels env); [ | reflexivity ].
  destruct (stride env =? to_int32 (wrap_u64 (width * 4)))%Z; [ reflexivity | ].
  apply forallb_forall. intros e He. apply in_map_iff in He.
  destruct He as (i & <- & _). reflexivity.
Qed.

(** Counting, in a frame, the events of a class that holds neither drawing
    calls nor copies: the drawing block and the copy contribute nothing. *)
Lemma count_around_drawing :
  forall (p : event -> bool) (width height : Z) (data : list float) (env : FrameEnv)
         (pre post : list event),
    (forall e, is_drawing e = true -> p e = false) ->
    (forall e, is_memcpy e = true -> p e = false) ->
    count p (pre ++ draw_waveform width height data ++ copy_pixels width height env ++ post)
    = (count p pre + count p post)%nat.
Proof.
  intros p width height data env pre post Hd Hm.
  rewrite !count_app.
  rewrite (count_other_class p is_drawing _ Hd (proj1 (draw_waveform_calls width height data))).
  rewrite (count_other_class p is_memcpy _ Hm (copy_pixels_memcpy width height env)).
  lia.
Qed.

(** The trace of a frame that got its buffer and its mapping. *)
Lemma DrawFrame_complete : forall (st : RenderState) (env : FrameEnv),
  has_window st && request_ok env && mapping_ok env = true ->
  snd (DrawFrame st env)
  = ([RequestBuffer]
       ++ (if (0 <? fenceFd env)%Z then [CloseFence (fenceFd env)] else [])
       ++ (if negb (virAddr_mapped env) then [Mmap] else [])
       ++ [BitmapBuild (wrap_u32 (width_ st)) (wrap_u32 (height_ st));
           CanvasClear 0xFFFFFFFF%Z])
    ++ draw_waveform (width_ st) (height_ st) (speedHistory_ st)
    ++ copy_pixels (width_ st) (height_ st) env
    ++ ((if negb (virAddr_mapped env) then [Munmap] else []) ++ [FlushBuffer]).
Proof.
  intros st env H. unfold has_window, request_ok, mapping_ok in H. unfold DrawFrame.
  destruct (nativeWindow_ st); [ | discriminate H ].
  destruct (request_ret env =? 0)%Z; [ | discriminate H ].
  destruct (request_buffer env); [ | discriminate H ].
  cbn [negb orb andb] in *.
  destruct (virAddr_mapped env); cbn [negb andb orb] in *.
  - cbn [snd]. unfold GetDataSnapshot. rewrite <- !app_assoc. reflexivity.
  - destruct (mmap_ok env); [ | discriminate H ].
    cbn [snd negb]. unfold GetDataSnapshot. rewrite <- !app_assoc. reflexivity.
Qed.

(** The trace of a frame that did not: no drawing, no copy, no submission. *)
Lemma DrawFrame_incomplete : forall (st : RenderState) (env : FrameEnv),
  has_window st && request_ok env && mapping_ok env = false ->
  snd (DrawFrame st env)
  = if has_window st
    then if request_ok env
         then [RequestBuffer]
                ++ (if (0 <? fenceFd env)%Z then [CloseFence (fenceFd env)] else [])
                ++ [Mmap; LogError; AbortBuffer]
         else [RequestBuffer; LogError]
    else [].
Proof.
  intros st env H. unfold has_window, request_ok, mapping_ok in *. unfold DrawFrame.
  destruct (nativeWindow_ st); [ | reflexivity ].
  destruct (request_ret env =? 0)%Z; [ | reflexivity ].
  destruct (request_buffer env); [ | reflexivity ].
  cbn [negb orb andb] in *.
  destruct (virAddr_mapped env); [ discriminate H | ].
  destruct (mmap_ok env); [ discriminate H | ]. reflexivity.
Qed.

(** A frame is handed to the compositor exactly when it got its buffer and
    its mapping, and then once. *)
Lemma DrawFrame_submissions : forall (st : RenderState) (env : FrameEnv),
  submissions (snd (DrawFrame st env))
  = (if has_window st && request_ok env && mapping_ok env then 1 else 0)%nat.
Proof.
  intros st env.
  destruct (has_window st && request_ok env && mapping_ok env) eqn:H.
  - rewrite (DrawFrame_complete st env H).
    change submissions with (count is_flush).
    rewrite count_around_drawing;
      [ | intros [] He; try discriminate He; reflexivity
        | intros [] He; try discriminate He; reflexivity ].
    destruct (0 <? fenceFd env)%Z, (virAddr_mapped env); reflexivity.
  - rewrite (DrawFrame_incomplete st env H).
    destruct (has_window st); [ | reflexivity ].
    destruct (request_ok env); [ | reflexivity ].
    destruct (0 <? fenceFd env)%Z; reflexivity.
Qed.

Lemma nth_error_class : forall (p : event -> bool) (l : list event) (i : nat) (e : event),
  forallb p l = true -> nth_error l i = Some e -> p e = true.
Proof.
  intros p l i e Hl Hi. rewrite forallb_forall in Hl.
  apply Hl. apply (nth_error_In l i Hi).
Qed.

(** Where an event that is neither a drawing call nor a copy stands in a
    frame: before the drawing block, or after the copy. *)
Lemma frame_position :
  forall (before drawing copy after : list event) (i : nat) (e : event),
    forallb is_drawing drawing = true -> forallb is_memcpy copy = true ->
    is_drawing e = false -> is_memcpy e = false ->
    nth_error (before ++ drawing ++ copy ++ after) i = Some e ->
    (i < length before)%nat /\ nth_error before i = Some e
    \/ exists k : nat,
         i = (length before + length drawing + length copy + k)%nat
         /\ nth_error after k = Some e.
Proof.
  intros A B C D i e HB HC Hd Hm Hi.
  destruct (Nat.lt_ge_cases i (length A)) as [HA | HA].
  { left. split; [ exact HA | ]. rewrite nth_error_app1 in Hi by exact HA. exact Hi. }
  rewrite nth_error_app2 in Hi by exact HA.
  destruct (Nat.lt_ge_cases (i - length A) (length B)) as [HB' | HB'].
  { rewrite nth_error_app1 in Hi by exact HB'.
    rewrite (nth_error_class _ _ _ _ HB Hi) in Hd. discriminate Hd. }
  rewrite nth_error_app2 in Hi by exact HB'.
  destruct (Nat.lt_ge_cases (i - length A - length B) (length C)) as [HC' | HC'].
  { rewrite nth_error_app1 in Hi by exact HC'.
    rewrite (nth_error_class _ _ _ _ HC Hi) in Hm. discriminate Hm. }
  rewrite nth_error_app2 in Hi by exact HC'.
  right. exists (i - length A - length B - length C)%nat. split; [ lia | exact Hi ].
Qed.

Ltac enum_nth H i :=
  repeat match type of H with
         | nth_error _ i = _ =>
             destruct i as [| i]; cbn [nth_error] in H; try discriminate H
         end.

(** The order of the calls on the buffer in one frame. *)
Lemma DrawFrame_buffer_order :
  forall (st : RenderState) (env : FrameEnv) (i j : nat) (a b : event),
    nth_error (snd (DrawFrame st env)) i = Some a ->
    nth_error (snd (DrawFrame st env)) j = Some b ->
    (a = RequestBuffer -> i = 0%nat)
    /\ (b = FlushBuffer \/ b = AbortBuffer -> S j = length (snd (DrawFrame st env)))
    /\ (a = Mmap -> b = Munmap -> (i < j)%nat)
    /\ (a = Munmap -> b = FlushBuffer -> (i < j)%nat).
Proof.
  intros st env i j a b Hi Hj.
  destruct (has_window st && request_ok env && mapping_ok env) eqn:H.
  - rewrite (DrawFrame_complete st env H) in *.
    destruct (draw_waveform_calls (width_ st) (height_ st) (speedHistory_ st))
      as [Hclass _].
    pose proof (copy_pixels_memcpy (width_ st) (height_ st) env) as Hcopy.
    rewrite !length_app.
    set (drawing := draw_waveform (width_ st) (height_ st) (speedHistory_ st)) in *.
    set (copy := copy_pixels (width_ st) (height_ st) env) in *.
    pose proof (fun Hd Hm => frame_position _ _ _ _ _ _ Hclass Hcopy Hd Hm Hi) as Pi.
    pose proof (fun Hd Hm => frame_position _ _ _ _ _ _ Hclass Hcopy Hd Hm Hj) as Pj.
    clear Hi Hj.
    split; [ | split; [ | split ] ].
    + intros ->. destruct (Pi eq_refl eq_refl) as [[_ Ha] | (k & _ & Ha)];
        destruct (0 <? fenceFd env)%Z, (virAddr_mapped env); cbn [negb app] in Ha;
        first [ solve [ enum_nth Ha i; reflexivity ] | solve [ enum_nth Ha k ] ].
    + intros [-> | ->];
        (destruct (Pj eq_refl eq_refl) as [[_ Hb] | (k & -> & Hb)];
         destruct (0 <? fenceFd env)%Z, (virAddr_mapped env);
         cbn [negb app length] in *;
         first [ solve [ enum_nth Hb j ] | solve [ enum_nth Hb k; lia ] ]).
    + intros -> ->.
      destruct (Pi eq_refl eq_refl) as [[Hlt Ha] | (k & _ & Ha)];
        destruct (Pj eq_refl eq_refl) as [[_ Hb] | (k' & -> & Hb)];
        destruct (0 <? fenceFd env)%Z, (virAddr_mapped env);
        cbn [negb app length] in *;
        first [ solve [ enum_nth Hb j ] | solve [ enum_nth Ha k ]
              | solve [ enum_nth Ha i ] | lia ].
    + intros -> ->.
      destruct (Pi eq_refl eq_refl) as [[_ Ha] | (k & -> & Ha)];
        destruct (Pj eq_refl eq_refl) as [[_ Hb] | (k' & -> & Hb)];
        destruct (0 <? fenceFd env)%Z, (virAddr_mapped env);
        cbn [negb app length] in *;
        first [ solve [ enum_nth Ha i ] | solve [ enum_nth Hb j ]
              | solve [ enum_nth Ha k; enum_nth Hb k'; lia ] ].
  - rewrite (DrawFrame_incomplete st env H) in *.
    destruct (has_window st); [ | destruct i; discriminate Hi ].
    destruct (request_ok env), (0 <? fenceFd env)%Z; cbn [app length] in *;
      (split; [ intros -> ; enum_nth Hi i; reflexivity | ]);
      (split; [ intros [-> | ->]; enum_nth Hj j; reflexivity | ]);
      (split; intros -> ->; enum_nth Hj j).
Qed.

(** X10: what becomes of the buffer. On every path through [DrawFrame] the
    buffer is requested once if there is a surface and not at all otherwise,
    and the request is the first call; a buffer that was obtained is given
    back exactly once, flushed to the compositor when it is mapped and
    aborted when [mmap] fails, and that is the last call of the frame;
    [mmap] is called only for a buffer the system did not map, and a mapping
    made here is removed after it was made and before the buffer is
    flushed. *)
Theorem DrawFrame_buffer_accounting :
  forall (st : RenderState) (env : FrameEnv),
    let tr := snd (DrawFrame st env) in
    let got := has_window st && request_ok env in
    count is_request tr = (if has_window st then 1 else 0)%nat
    /\ (submissions tr + count is_abort tr = if got then 1 else 0)%nat
    /\ submissions tr = (if got && mapping_ok env then 1 else 0)%nat
    /\ count is_mmap tr = (if got && negb (virAddr_mapped env) then 1 else 0)%nat
    /\ count is_munmap tr
       = (if got && negb (virAddr_mapped env) && mmap_ok env then 1 else 0)%nat
    /\ (forall i : nat, nth_error tr i = Some RequestBuffer -> i = 0%nat)
    /\ (forall j : nat, nth_error tr j = Some FlushBuffer -> S j = length tr)
    /\ (forall j : nat, nth_error tr j = Some AbortBuffer -> S j = length tr)
    /\ (forall i j : nat,
          nth_error tr i = Some Mmap -> nth_error tr j = Some Munmap -> (i < j)%nat)
    /\ (forall i j : nat,
          nth_error tr i = Some Munmap -> nth_error tr j = Some FlushBuffer ->
          (i < j)%nat).
Proof.
  intros st env tr got.
  pose proof (DrawFrame_submissions st env) as Hsub. fold tr got in Hsub.
  assert (Hrest : count is_request tr = (if has_window st then 1 else 0)%nat
                  /\ count is_abort tr = (if got && negb (mapping_ok env) then 1 else 0)%nat
                  /\ count is_mmap tr
                     = (if got && negb (virAddr_mapped env) then 1 else 0)%nat
                  /\ count is_munmap tr
                     = (if got && negb (virAddr_mapped env) && mmap_ok env
                        then 1 else 0)%nat).
  { unfold tr, got.
    destruct (has_window st && request_ok env && mapping_ok env) eqn:H.
    - rewrite (DrawFrame_complete st env H).
      rewrite !count_around_drawing;
        try (intros [] He; try discriminate He; reflexivity).
      unfold mapping_ok in *.
      destruct (has_window st); [ | discriminate H ].
      destruct (request_ok env); [ | discriminate H ].
      destruct (0 <? fenceFd env)%Z, (virAddr_mapped env), (mmap_ok env);
        try discriminate H; repeat split.
    - rewrite (DrawFrame_incomplete st env H).
      unfold mapping_ok in *.
      destruct (has_window st); [ | repeat split ].
      destruct (request_ok env); [ | repeat split ].
      destruct (0 <? fenceFd env)%Z, (virAddr_mapped env), (mmap_ok env);
        try discriminate H; repeat split. }
  destruct Hrest as (Hreq & Habort & Hmmap & Hmunmap).
  split; [ exact Hreq | ].
  split; [ rewrite Hsub, Habort; destruct got, (mapping_ok env); reflexivity | ].
  split; [ exact Hsub | ]. split; [ exact Hmmap | ]. split; [ exact Hmunmap | ].
  split; [ intros i Hi;
           apply (proj1 (DrawFrame_buffer_order st env i i _ _ Hi Hi)); reflexivity | ].
  split; [ intros j Hj;
           apply (proj1 (proj2 (DrawFrame_buffer_order st env j j _ _ Hj Hj)));
           left; reflexivity | ].
  split; [ intros j Hj;
           apply (proj1 (proj2 (DrawFrame_buffer_order st env j j _ _ Hj Hj)));
           right; reflexivity | ].
  split; intros i j Hi Hj.
  - apply (proj1 (proj2 (proj2 (DrawFrame_buffer_order st env i j _ _ Hi Hj))));
      reflexivity.
  - apply (proj2 (proj2 (proj2 (DrawFrame_buffer_order st env i j _ _ Hi Hj))));
      reflexivity.
Qed.

(** A frame on a buffer the system did not map: requested first, mapped,
    unmapped after the copy and flushed last. *)
Lemma DrawFrame_buffer_accounting_witness :
  snd (DrawFrame (mkRender (Some 1%Z) 1400%Z 200%Z [] true)
         (mkEnv 0%Z true (-1)%Z false true true 5600%Z))
  = [RequestBuffer; Mmap; BitmapBuild 1400 200; CanvasClear 0xFFFFFFFF%Z;
     MemcpyAll 1120000; Munmap; FlushBuffer]
  /\ (1 < 5)%nat /\ (5 < 6)%nat.
Proof.
  split; [ reflexivity | ].
  destruct (DrawFrame_buffer_accounting (mkRender (Some 1%Z) 1400%Z 200%Z [] true)
              (mkEnv 0%Z true (-1)%Z false true true 5600%Z))
    as (_ & _ & _ & _ & _ & _ & _ & _ & Hmap & Hflush).
  split.
  - apply (Hmap 1%nat 5%nat); reflexivity.
  - apply (Hflush 5%nat 6%nat); reflexivity.
Defined.

(** X11: how much a frame draws. A frame that got its buffer and its
    mapping, with [n >= 2] samples in the chart buffer, makes [2 * n + 7]
    path and draw calls: every sample once on the fill path and once on the
    stroke path, and seven calls that do not depend on the samples. With
    fewer than two samples the frame is cleared, copied and submitted
    without a single path call, and a frame that failed draws nothing. *)
Theorem DrawFrame_drawing_calls :
  forall (st : RenderState) (env : FrameEnv),
    count is_drawing (snd (DrawFrame st env))
    = (if has_window st && request_ok env && mapping_ok env
          && (1 <? length (speedHistory_ st))%nat
       then 2 * length (speedHistory_ st) + 7 else 0)%nat.
Proof.
  intros st env.
  destruct (has_window st && request_ok env && mapping_ok env) eqn:H.
  - rewrite (DrawFrame_complete st env H). rewrite !count_app.
    destruct (draw_waveform_calls (width_ st) (height_ st) (speedHistory_ st))
      as [Hclass Hlen].
    rewrite (count_same_class _ _ Hclass), Hlen.
    rewrite (count_other_class is_drawing is_memcpy _
               ltac:(intros [] He; try discriminate He; reflexivity)
               (copy_pixels_memcpy (width_ st) (height_ st) env)).
    cbn [andb].
    destruct (0 <? fenceFd env)%Z, (virAddr_mapped env);
      cbn [negb app count filter is_drawing length]; lia.
  - rewrite (DrawFrame_incomplete st env H). cbn [andb].
    destruct (has_window st); [ | reflexivity ].
    destruct (request_ok env); [ | reflexivity ].
    destruct (0 <? fenceFd env)%Z; reflexivity.
Qed.

End FrameCalls.

(* ================================================================== *)
(** * Copying the bitmap *)
(* ================================================================== *)

Section BitmapCopy.

Import Numeric RenderManager.
Open Scope Z_scope.





Lemma filter_same_class : forall (p : event -> bool) (l : list event),
  forallb p l = true -> filter p l = l.
Proof.
  intros p. induction l as [| e l IH]; cbn [forallb filter]; intro H; [ reflexivity | ].
  apply andb_true_iff in H. destruct H as [He Hl]. rewrite He, (IH Hl). reflexivity.
Qed.

Lemma filter_other_class : forall (p q : event -> bool) (l : list event),
  (forall e, q e = true -> p e = false) -> forallb q l = true -> filter p l = [].
Proof.
  intros p q l Hpq. induction l as [| e l IH]; cbn [forallb filter]; intro H;
    [ reflexivity | ].
  apply andb_true_iff in H. destruct H as [He Hl]. rewrite (Hpq e He). apply IH. exact Hl.
Qed.




End BitmapCopy.

(* ================================================================== *)
(** * Rounding to a C++ float *)
(* ================================================================== *)

Section Rounding32.

Import Numeric RenderManager.
Open Scope Z_scope.

Lemma fexp32 : forall z, fexp prec32 emax32 z = Z.max (z - 24) (-149).
Proof. intro z. reflexivity. Qed.

(** One step to the right halves the mantissa. *)
Lemma shr_1_value : forall mrs, 0 <= shr_m mrs -> shr_m (shr_1 mrs) = shr_m mrs / 2.
Proof.
  intros [m r s] Hm. cbn [shr_m] in *.
  destruct m as [| [p | p |] | p]; cbn [shr_1 shr_m]; try lia.
  - reflexivity.
  - apply (Z.div_unique _ _ _ 1); lia.
  - apply (Z.div_unique _ _ _ 0); lia.
  - reflexivity.
Qed.

Lemma iter_shr_1_value : forall p mrs,
  0 <= shr_m mrs ->
  0 <= shr_m (iter_pos shr_1 p mrs)
  /\ shr_m (iter_pos shr_1 p mrs) = shr_m mrs / 2 ^ Z.pos p.
Proof.
  induction p as [p IH | p IH | ]; intros mrs Hm; cbn [iter_pos].
  - assert (H2 : 0 < 2 ^ Z.pos p) by (apply Z.pow_pos_nonneg; lia).
    pose proof (shr_1_digits mrs Hm) as [H1 _].
    pose proof (shr_1_value mrs Hm) as V1.
    destruct (IH _ H1) as [H2' V2]. destruct (IH _ H2') as [H3 V3].
    split; [ exact H3 | ].
    rewrite V3, V2, V1, pow2_xI, !Z.div_div by lia.
    f_equal. lia.
  - assert (H2 : 0 < 2 ^ Z.pos p) by (apply Z.pow_pos_nonneg; lia).
    destruct (IH _ Hm) as [H2' V2]. destruct (IH _ H2') as [H3 V3].
    split; [ exact H3 | ].
    rewrite V3, V2, pow2_xO, !Z.div_div by lia. reflexivity.
  - pose proof (shr_1_digits mrs Hm) as [H1 _].
    split; [ exact H1 | ]. rewrite shr_1_value by exact Hm. reflexivity.
Qed.

(** Shifting right never gains: what is left, shifted back, is at most the
    mantissa. *)
Lemma shr_floor : forall mrs e n,
  0 <= shr_m mrs ->
  shr_m (fst (shr mrs e n)) * 2 ^ Z.max 0 n <= shr_m mrs.
Proof.
  intros mrs e n Hm. destruct n as [| p | p]; cbn [shr fst].
  - cbn. lia.
  - destruct (iter_shr_1_value p mrs Hm) as [_ V]. rewrite V.
    replace (Z.max 0 (Z.pos p)) with (Z.pos p) by lia.
    assert (H2 : 0 < 2 ^ Z.pos p) by (apply Z.pow_pos_nonneg; lia).
    rewrite Z.mul_comm. apply Z.mul_div_le. exact H2.
  - cbn. lia.
Qed.

Lemma digits_succ_range32 : forall m,
  Zdigits2 m = 24 -> 0 < m -> Zdigits2 (m + 1) = 24 \/ Zdigits2 (m + 1) = 25.
Proof.
  intros m Hd Hm. pose proof (Zdigits2_bounds m Hm) as [Hlo Hup]. rewrite Hd in *.
  destruct (Z.eq_dec (m + 1) (2 ^ 24)) as [E | E].
  - right. rewrite E. reflexivity.
  - left. pose proof (Zdigits2_lower (m + 1) 23 ltac:(lia) ltac:(lia)).
    pose proof (Zdigits2_upper (m + 1) 24 ltac:(lia) ltac:(lia)). lia.
Qed.

(** A positive mantissa of at least 24 bits in the normal range of a C++
    float rounds to a normal float, and rounding adds at most one part in
    2^23 to its value. *)
Lemma binary_round_aux32_bound : forall q e l,
  0 < q -> 24 <= Zdigits2 q ->
  -149 <= Zdigits2 q + e - 24 -> Zdigits2 q + e <= 127 ->
  exists m e2,
    binary_round_aux prec32 emax32 false q e l = S754_finite false m e2
    /\ Z.pos (digits2_pos m) = 24
    /\ Zdigits2 q + e - 24 <= e2 <= Zdigits2 q + e - 23
    /\ Z.pos m * 2 ^ (e2 - e) * 2 ^ 23 <= q * (2 ^ 23 + 1).
Proof.
  intros q e l Hq Hlong Hlo Hhi.
  pose proof (Zdigits2_bounds q Hq) as [Hqlo _].
  unfold binary_round_aux, shr_fexp. rewrite fexp32.
  set (z := Zdigits2 q + e) in *.
  set (n1 := Z.max (z - 24) (-149) - e).
  assert (Hn1 : n1 = Zdigits2 q - 24) by (unfold n1, z; lia).
  pose proof (shr_digits (shr_record_of_loc q l) e n1) as H1.
  pose proof (shr_floor (shr_record_of_loc q l) e n1) as F1.
  rewrite shr_record_of_loc_m in H1, F1.
  specialize (H1 ltac:(lia)). specialize (F1 ltac:(lia)).
  destruct (shr (shr_record_of_loc q l) e n1) as [mrs' e1].
  cbn [fst snd] in H1, F1. destruct H1 as (Hm' & Hd' & He1).
  replace (Z.max 0 n1) with n1 in * by lia.
  assert (Hd24 : Zdigits2 (shr_m mrs') = 24) by lia.
  assert (Hm'pos : 0 < shr_m mrs').
  { destruct (shr_m mrs'); cbn [Zdigits2] in Hd24; lia. }
  set (m1 := round_nearest_even (shr_m mrs') (loc_of_shr_record mrs')).
  assert (Hm1 : 0 < m1 <= shr_m mrs' + 1 /\ (Zdigits2 m1 = 24 \/ Zdigits2 m1 = 25)).
  { unfold m1.
    destruct (round_nearest_even_range (shr_m mrs') (loc_of_shr_record mrs')) as [E | E];
      rewrite E.
    - split; [ lia | left; exact Hd24 ].
    - split; [ lia | apply digits_succ_range32; assumption ]. }
  destruct Hm1 as [Hm1pos Hm1d].
  rewrite fexp32.
  set (n2 := Z.max (Zdigits2 m1 + e1 - 24) (-149) - e1).
  assert (Hn2 : n2 = Zdigits2 m1 - 24) by (unfold n2; lia).
  pose proof (shr_digits (shr_record_of_loc m1 loc_Exact) e1 n2) as H2.
  pose proof (shr_floor (shr_record_of_loc m1 loc_Exact) e1 n2) as F2.
  rewrite shr_record_of_loc_m in H2, F2.
  specialize (H2 ltac:(lia)). specialize (F2 ltac:(lia)).
  destruct (shr (shr_record_of_loc m1 loc_Exact) e1 n2) as [mrs'' e2].
  cbn [fst snd] in H2, F2. destruct H2 as (Hm'' & Hd'' & He2).
  replace (Z.max 0 n2) with n2 in * by lia.
  assert (Hd2 : Zdigits2 (shr_m mrs'') = 24) by lia.
  destruct (shr_m mrs'') as [| m | m]; cbn [Zdigits2] in Hd2; try lia.
  assert (Hov : (e2 <=? emax32 - prec32) = true).
  { apply Z.leb_le. unfold emax32, prec32. lia. }
  rewrite Hov. exists m, e2.
  split; [ reflexivity | ]. split; [ exact Hd2 | ]. split; [ lia | ].
  replace (e2 - e) with (n2 + n1) by lia.
  rewrite Z.pow_add_r by lia.
  assert (P1 : 0 < 2 ^ n1) by (apply Z.pow_pos_nonneg; lia).
  assert (P2 : 0 < 2 ^ n2) by (apply Z.pow_pos_nonneg; lia).
  assert (Hunit : 2 ^ n1 * 2 ^ 23 <= q).
  { rewrite <- Z.pow_add_r by lia.
    replace (n1 + 23) with (Zdigits2 q - 1) by lia. exact Hqlo. }
  assert (Hstep : Z.pos m * (2 ^ n2 * 2 ^ n1) <= q + 2 ^ n1).
  { rewrite Z.mul_assoc.
    apply Z.le_trans with (m1 * 2 ^ n1).
    - apply Z.mul_le_mono_nonneg_r; lia.
    - apply Z.le_trans with ((shr_m mrs' + 1) * 2 ^ n1).
      + apply Z.mul_le_mono_nonneg_r; lia.
      + lia. }
  apply Z.le_trans with ((q + 2 ^ n1) * 2 ^ 23).
  - apply Z.mul_le_mono_nonneg_r; lia.
  - lia.
Qed.

Lemma binary_round32_normal : forall m e,
  -149 <= Z.pos (digits2_pos m) + e - 24 ->
  Z.pos (digits2_pos m) + e <= 127 ->
  exists m' e',
    binary_round prec32 emax32 false m e = S754_finite false m' e'
    /\ Z.pos (digits2_pos m') = 24
    /\ Z.pos (digits2_pos m) + e - 24 <= e' <= Z.pos (digits2_pos m) + e - 23.
Proof.
  intros m e Hlo Hhi. unfold binary_round, shl_align. rewrite fexp32.
  set (d := Z.pos (digits2_pos m)) in *.
  replace (Z.max (d + e - 24) (-149) - e) with (d - 24) by lia.
  destruct (d - 24) as [| p | p] eqn:Ed.
  - destruct (binary_round_aux32_bound (Z.pos m) e loc_Exact) as (m' & e' & H & Hd & He & _);
      cbn [Zdigits2]; fold d; try lia.
    exists m', e'. cbn [Zdigits2] in He. fold d in He. repeat split; try assumption; lia.
  - destruct (binary_round_aux32_bound (Z.pos m) e loc_Exact) as (m' & e' & H & Hd & He & _);
      cbn [Zdigits2]; fold d; try lia.
    exists m', e'. cbn [Zdigits2] in He. fold d in He. repeat split; try assumption; lia.
  - pose proof (digits2_pos_iter_xO p m) as Hsh. fold d in Hsh.
    destruct (binary_round_aux32_bound (Z.pos (Pos.iter xO m p))
                (Z.max (d + e - 24) (-149)) loc_Exact)
      as (m' & e' & H & Hd & He & _); cbn [Zdigits2]; rewrite ?Hsh; try lia.
    exists m', e'. cbn [Zdigits2] in He. rewrite Hsh in He.
    repeat split; try assumption; lia.
Qed.

(** The float of a surface width: a normal float. *)
Lemma f32_of_width : forall W,
  1 <= W < 2 ^ 64 ->
  exists mw ew,
    f32_of_Z W = S754_finite false mw ew
    /\ Z.pos (digits2_pos mw) = 24 /\ -23 <= ew <= 41.
Proof.
  intros W HW. destruct W as [| p | p]; try lia.
  pose proof (Zdigits2_upper (Z.pos p) 64 ltac:(lia) ltac:(lia)) as Hd.
  cbn [Zdigits2] in Hd.
  destruct (binary_round32_normal p 0) as (mw & ew & H & Hd24 & He); try lia.
  exists mw, ew. split; [ exact H | ]. split; [ exact Hd24 | lia ].
Qed.

(** Two positive floats with mantissas of the same length compare as their
    values do. *)
Lemma SFltb_same_length : forall ma ea mb eb c,
  Z.pos (digits2_pos ma) = Z.pos (digits2_pos mb) ->
  c <= ea -> c <= eb ->
  Z.pos ma * 2 ^ (ea - c) < Z.pos mb * 2 ^ (eb - c) ->
  SFltb (S754_finite false ma ea) (S754_finite false mb eb) = true.
Proof.
  intros ma ea mb eb c Hd Ha Hb Hlt.
  unfold SFltb. cbn [SFcompare].
  destruct (Z.compare_spec ea eb) as [E | L | G].
  - subst eb.
    assert (P : 0 < 2 ^ (ea - c)) by (apply Z.pow_pos_nonneg; lia).
    assert (Hm : Z.pos ma < Z.pos mb) by nia.
    change (Pos.compare_cont Eq ma mb) with (Pos.compare ma mb).
    apply Pos.compare_lt_iff in Hm. rewrite Hm. reflexivity.
  - reflexivity.
  - exfalso.
    pose proof (digits2_pos_bounds ma) as [Hlo _].
    pose proof (digits2_pos_bounds mb) as [_ Hup].
    rewrite Hd in Hlo.
    set (d := Z.pos (digits2_pos mb)) in *.
    assert (Hd1 : 1 <= d) by (unfold d; lia).
    assert (P : 0 < 2 ^ (eb - c)) by (apply Z.pow_pos_nonneg; lia).
    assert (Hp : 2 ^ (ea - c) = 2 ^ (ea - eb) * 2 ^ (eb - c))
      by (rewrite <- Z.pow_add_r by lia; f_equal; lia).
    assert (H2 : 2 <= 2 ^ (ea - eb)).
    { change 2 with (2 ^ 1) at 1. apply Z.pow_le_mono_r; lia. }
    assert (Hd2 : 2 ^ d = 2 ^ (d - 1) * 2).
    { replace d with (d - 1 + 1) at 1 by lia. rewrite Z.pow_add_r by lia. reflexivity. }
    rewrite Hp in Hlt.
    assert (Z.pos mb * 2 ^ (eb - c) < 2 ^ (d - 1) * 2 * 2 ^ (eb - c)) by nia.
    assert (2 ^ (d - 1) * 2 * 2 ^ (eb - c) <= Z.pos ma * (2 ^ (ea - eb) * 2 ^ (eb - c))).
    { rewrite Z.mul_assoc. apply Z.mul_le_mono_nonneg_r; [ lia | ].
      assert (0 < 2 ^ (d - 1)) by (apply Z.pow_pos_nonneg; lia). nia. }
    lia.
Qed.

Lemma f32_capacity_span :
  f32_of_Z (Z.of_nat MAX_HISTORY_SIZE - 1) = S754_finite false 14680064 (-20).
Proof. vm_compute. reflexivity. Qed.

(** [stepX]: the float of a width divided by 14 is a normal float, at most
    one part in 2^23 above the fourteenth of the width. *)
Lemma f32_div_capacity : forall mw ew,
  Z.pos (digits2_pos mw) = 24 -> -23 <= ew <= 41 ->
  exists ms es,
    f32_div (S754_finite false mw ew) (S754_finite false 14680064 (-20))
    = S754_finite false ms es
    /\ Z.pos (digits2_pos ms) = 24
    /\ ew - 4 <= es <= ew - 2
    /\ Z.pos ms * 2 ^ (es - (ew - 4)) * 2 ^ 23 * 14 <= 16 * Z.pos mw * (2 ^ 23 + 1).
Proof.
  intros mw ew Hd He.
  pose proof (digits2_pos_bounds mw) as [Hlo Hup]. rewrite Hd in Hlo, Hup.
  change (2 ^ (24 - 1)) with 8388608 in Hlo. change (2 ^ 24) with 16777216 in Hup.
  set (q := Z.pos mw * 2 ^ 24 / 14680064).
  assert (Hcore : exists l,
            SFdiv_core_binary prec32 emax32 (Z.pos mw) ew 14680064 (-20) = (q, ew - 4, l)).
  { unfold SFdiv_core_binary. cbn [Zdigits2]. rewrite Hd.
    change (Z.pos (digits2_pos 14680064)) with 24. rewrite fexp32.
    replace (Z.min (Z.max (24 + ew - (24 + -20) - 24) (-149)) (ew - -20)) with (ew - 4) by lia.
    replace (ew - -20 - (ew - 4)) with 24 by lia.
    rewrite Z.shiftl_mul_pow2 by lia. rewrite div_eucl_pair.
    eexists. reflexivity. }
  destruct Hcore as [l Hcore].
  assert (Hq : 9586980 <= q <= 19173961).
  { unfold q. change (2 ^ 24) with 16777216. split.
    - change 9586980 with (8388608 * 16777216 / 14680064).
      apply Z.div_le_mono; lia.
    - change 19173961 with (16777216 * 16777216 / 14680064).
      apply Z.div_le_mono; lia. }
  assert (Hq14 : q * 14 <= 16 * Z.pos mw).
  { assert (14680064 * q <= Z.pos mw * 2 ^ 24) by (apply Z.mul_div_le; lia).
    change (2 ^ 24) with 16777216 in H. lia. }
  pose proof (Zdigits2_lower q 23 ltac:(lia) ltac:(change (2 ^ 23) with 8388608; lia)) as Dlo.
  pose proof (Zdigits2_upper q 25 ltac:(lia) ltac:(change (2 ^ 25) with 33554432; lia)) as Dup.
  destruct (binary_round_aux32_bound q (ew - 4) l) as (ms & es & Hr & Hds & Hes & Hval);
    try lia.
  exists ms, es.
  split.
  { unfold f32_div, SFdiv. rewrite Hcore. exact Hr. }
  split; [ exact Hds | ]. split; [ lia | ].
  apply Z.le_trans with (q * (2 ^ 23 + 1) * 14).
  - apply Z.mul_le_mono_nonneg_r; [ lia | exact Hval ].
  - change (2 ^ 23 + 1) with 8388609. lia.
Qed.

(** The floats of the sample indices 1 to 13. *)
Lemma f32_of_index : forall k,
  1 <= k <= 13 ->
  exists (mk : positive) (j : Z),
    f32_of_Z k = S754_finite false mk (- j)
    /\ Z.pos mk = k * 2 ^ j /\ 20 <= j <= 23.
Proof.
  intros k Hk.
  assert (C : k = 1 \/ (k = 2 \/ k = 3) \/ (k = 4 \/ k = 5 \/ k = 6 \/ k = 7)
              \/ (k = 8 \/ k = 9 \/ k = 10 \/ k = 11 \/ k = 12 \/ k = 13)) by lia.
  destruct C as [-> | [C | [C | C]]].
  - exists 8388608%positive, 23. split; [ vm_compute; reflexivity | split; [ reflexivity | lia ] ].
  - exists (Z.to_pos (k * 2 ^ 22)), 22.
    destruct C as [-> | ->];
      (split; [ vm_compute; reflexivity | split; [ reflexivity | lia ] ]).
  - exists (Z.to_pos (k * 2 ^ 21)), 21.
    destruct C as [-> | [-> | [-> | ->]]];
      (split; [ vm_compute; reflexivity | split; [ reflexivity | lia ] ]).
  - exists (Z.to_pos (k * 2 ^ 20)), 20.
    destruct C as [-> | [-> | [-> | [-> | [-> | ->]]]]];
      (split; [ vm_compute; reflexivity | split; [ reflexivity | lia ] ]).
Qed.

(** With the spacing of a full window, the samples 0 to 13 are drawn
    strictly left of the right edge, whatever the width of the surface. *)
Lemma point_left_of_edge : forall (W : Z) (i : nat),
  1 <= W < 2 ^ 64 -> (i < MAX_HISTORY_SIZE - 1)%nat ->
  SFltb (spec_x W MAX_HISTORY_SIZE i) (f32_of_Z W) = true.
Proof.
  intros W i HW Hi. unfold spec_x.
  rewrite f32_capacity_span.
  destruct (f32_of_width W HW) as (mw & ew & -> & Hdw & Hew).
  destruct (f32_div_capacity mw ew Hdw Hew) as (ms & es & -> & Hds & Hes & Hstep).
  change (MAX_HISTORY_SIZE - 1)%nat with 14%nat in Hi.
  destruct i as [| i].
  { reflexivity. }
  destruct (f32_of_index (Z.of_nat (S i)) ltac:(lia)) as (mk & j & -> & Hmk & Hj).
  set (k := Z.of_nat (S i)) in *.
  assert (Hk : 1 <= k <= 13) by (unfold k; lia).
  pose proof (digits2_pos_bounds ms) as [Hslo Hsup]. rewrite Hds in Hslo, Hsup.
  change (2 ^ (24 - 1)) with 8388608 in *. change (2 ^ 24) with 16777216 in *.
  assert (PT : 2 ^ 20 <= 2 ^ j <= 2 ^ 23) by (split; apply Z.pow_le_mono_r; lia).
  change (2 ^ 20) with 1048576 in PT. change (2 ^ 23) with 8388608 in PT.
  (* the product of the two mantissas *)
  unfold f32_mul, SFmul. cbn [xorb].
  set (q := Z.pos (mk * ms)).
  assert (Eq : q = k * 2 ^ j * Z.pos ms) by (unfold q; rewrite Pos2Z.inj_mul, Hmk; reflexivity).
  assert (Hqlo : 2 ^ 23 <= q).
  { change (2 ^ 23) with 8388608. rewrite Eq. nia. }
  assert (Hqup : 0 <= q < 2 ^ 51).
  { change (2 ^ 51) with (16 * 8388608 * 16777216). rewrite Eq. nia. }
  pose proof (Zdigits2_lower q 23 ltac:(lia) Hqlo) as Dlo.
  pose proof (Zdigits2_upper q 51 ltac:(lia) Hqup) as Dup.
  destruct (binary_round_aux32_bound q (- j + es) loc_Exact)
    as (mx & ex & -> & Hdx & Hex & Hval); try lia.
  apply (SFltb_same_length mx ex mw ew (ew - 4 - j)); try lia.
  (* the values, at the common exponent *)
  replace (ew - (ew - 4 - j)) with (4 + j) by lia.
  replace (ex - (ew - 4 - j)) with ((ex - (- j + es)) + (es - (ew - 4))) by lia.
  rewrite !Z.pow_add_r by lia.
  change (2 ^ 4) with 16. change (2 ^ 23) with 8388608 in *.
  set (A := 2 ^ (es - (ew - 4))) in *.
  set (B := 2 ^ (ex - (- j + es))) in *.
  set (T := 2 ^ j) in *.
  assert (PA : 0 < A) by (apply Z.pow_pos_nonneg; lia).
  assert (PB : 0 < B) by (apply Z.pow_pos_nonneg; lia).
  set (P1 := Z.pos mx * B * A).
  set (P2 := k * T * Z.pos ms * A).
  set (P4 := T * Z.pos mw).
  assert (E1 : P1 * 8388608 <= P2 * 8388609).
  { pose proof (Z.mul_le_mono_nonneg_r _ _ A ltac:(lia) Hval) as H.
    rewrite Eq in H. unfold P1, P2. lia. }
  assert (E2 : P2 * (8388608 * 14) <= k * P4 * (16 * 8388609)).
  { pose proof (Z.mul_le_mono_nonneg_l _ _ (k * T) ltac:(nia) Hstep) as H.
    unfold P2, P4. lia. }
  assert (E3 : k * P4 <= 13 * P4).
  { apply Z.mul_le_mono_nonneg_r; unfold P4; nia. }
  assert (P4pos : 0 < P4) by (unfold P4; nia).
  assert (Hleft : P1 < 16 * P4) by lia.
  unfold P1, P4 in Hleft. lia.
Qed.

End Rounding32.

(* ================================================================== *)
(** * Where a frame puts the samples *)
(* ================================================================== *)

Section ChartGeometry.

Import Numeric RenderManager.
Open Scope float_scope.

(** The drawing calls of a frame that got its buffer and its mapping are
    those of the drawing block, in its order. *)
Lemma DrawFrame_drawing_block : forall (st : RenderState) (env : FrameEnv),
  has_window st && request_ok env && mapping_ok env = true ->
  filter is_drawing (snd (DrawFrame st env))
  = draw_waveform (width_ st) (height_ st) (speedHistory_ st).
Proof.
  intros st env H. rewrite (DrawFrame_complete st env H).
  rewrite !filter_app.
  rewrite (filter_same_class is_drawing _
             (proj1 (draw_waveform_calls (width_ st) (height_ st) (speedHistory_ st)))).
  rewrite (filter_other_class is_drawing is_memcpy _
             ltac:(intros [] He; try discriminate He; reflexivity)
             (copy_pixels_memcpy (width_ st) (height_ st) env)).
  destruct (0 <? fenceFd env)%Z, (virAddr_mapped env);
    cbn [negb filter is_drawing app]; rewrite app_nil_r; reflexivity.
Qed.

(** C9: in a frame of [DrawFrame] that got its buffer, with two samples or
    more, sample [i] with value [v] is drawn, on the fill path and on the
    stroke path, at the horizontal position [i * (width / (15 - 1))], 15
    being the capacity of the buffer and not the number of samples, and at
    the vertical position [height - (v / yMax) * height] with
    [yMax = max(maxSampleValue, 100) * 1.2]; the fill path closes below the
    last sample, at [(n - 1) * (width / 14)]. Consequently, on a surface of
    any width from 1 to 2^64 - 1, every sample of a chart of fewer than 15
    samples is drawn strictly left of the right edge, the float of the
    width. On a surface 1400 wide the 15th sample is the one that reaches
    the edge. *)
Theorem waveform_geometry :
  forall (st : RenderState) (env : FrameEnv) (v0 v1 : float) (rest : list float),
    has_window st && request_ok env && mapping_ok env = true ->
    speedHistory_ st = v0 :: v1 :: rest ->
    let data := v0 :: v1 :: rest in
    let n := length data in
    let width := width_ st in
    let height := height_ st in
    let yMax := spec_yMax (max_element v0 (v1 :: rest)) in
    let calls := filter is_drawing (snd (DrawFrame st env)) in
    (forall (i : nat) (v : float), nth_error data i = Some v ->
       nth_error calls (2 + i)
       = Some (PathLineTo FillPath (spec_x width MAX_HISTORY_SIZE i) (spec_y height yMax v))
       /\ nth_error calls (n + 6 + i)
          = Some ((if (i =? 0)%nat then PathMoveTo else PathLineTo) StrokePath
                    (spec_x width MAX_HISTORY_SIZE i) (spec_y height yMax v)))
    /\ nth_error calls (2 + n)
       = Some (PathLineTo FillPath (spec_x width MAX_HISTORY_SIZE (n - 1)) (f32_of_Z height))
    /\ ((1 <= width < 2 ^ 64)%Z -> (n < MAX_HISTORY_SIZE)%nat ->
        forall i : nat, (i < n)%nat ->
          SFltb (spec_x width MAX_HISTORY_SIZE i) (f32_of_Z width) = true)
    /\ forallb (fun m => SFltb (spec_x 1400 MAX_HISTORY_SIZE (m - 1)) (f32_of_Z 1400))
               (seq 2 13) = true
    /\ spec_x 1400 MAX_HISTORY_SIZE 14 = f32_of_Z 1400.
Proof.
  intros st env v0 v1 rest Hframe Hdata data n width height yMax calls.
  assert (Hcalls : calls = draw_waveform width height data).
  { unfold calls, data, width, height. rewrite <- Hdata.
    apply DrawFrame_drawing_block. exact Hframe. }
  pose proof (draw_waveform_shape width height v0 v1 rest) as Hshape.
  cbv zeta in Hshape. fold data yMax in Hshape. rewrite <- Hcalls in Hshape.
  clearbody calls. clear Hcalls.
  set (stepX := f32_div (f32_of_Z width) (f32_of_Z (Z.of_nat MAX_HISTORY_SIZE - 1))) in *.
  pose proof (fill_loop_length stepX height yMax data 0%Z f32_zero) as Hfill.
  fold n in Hfill.
  split; [ | split; [ | split; [ | split ] ] ].
  - intros i v Hi.
    assert (Hlt : (i < n)%nat) by (apply nth_error_Some; rewrite Hi; discriminate).
    split.
    + rewrite Hshape. cbn [app nth_error Nat.add].
      rewrite nth_error_app1 by lia.
      rewrite (fill_loop_nth stepX height yMax data 0%Z f32_zero i v Hi).
      reflexivity.
    + rewrite Hshape. cbn [app].
      replace (n + 6 + i)%nat with (S (S (n + (4 + i))))%nat by lia.
      cbn [nth_error].
      rewrite nth_error_app2 by lia. rewrite Hfill.
      replace (n + (4 + i) - n)%nat with (S (S (S (S i)))) by lia.
      cbn [nth_error].
      rewrite nth_error_app1 by (rewrite stroke_loop_length; exact Hlt).
      rewrite (stroke_loop_nth stepX height yMax data 0%Z i v Hi).
      rewrite Z.add_0_l.
      destruct i as [| i]; reflexivity.
  - rewrite Hshape. cbn [app nth_error Nat.add].
    rewrite nth_error_app2 by lia. rewrite Hfill, Nat.sub_diag.
    cbn [nth_error].
    unfold data at 1. rewrite fill_loop_lastX.
    unfold spec_x. subst n. cbn [data length Nat.sub].
    rewrite Z.add_0_l. reflexivity.
  - intros Hwidth Hfew i Hi. apply point_left_of_edge; [ exact Hwidth | ].
    change (MAX_HISTORY_SIZE - 1)%nat with 14%nat.
    change MAX_HISTORY_SIZE with 15%nat in Hfew. lia.
  - vm_compute. reflexivity.
  - vm_compute. reflexivity.
Qed.

(** Three samples on a surface 1400 x 200 whose frame gets its buffer: the
    second sample is drawn at x = 100, and the third, the last one, left of
    the right edge. *)
Lemma waveform_geometry_witness :
  nth_error (filter is_drawing (snd (DrawFrame chart_surface env_ok))) 3
  = Some (PathLineTo FillPath (f32_of_Z 100) (spec_y 200 (120.0 * 1.2) 120.0))
  /\ SFltb (spec_x 1400 MAX_HISTORY_SIZE 2) (f32_of_Z 1400) = true.
Proof.
  destruct (waveform_geometry chart_surface env_ok 50.0 120.0 [60.0] eq_refl eq_refl)
    as (Hpoints & _ & Hleft & _).
  split.
  - destruct (Hpoints 1%nat 120.0 eq_refl) as (Hfill & _).
    refine (eq_trans Hfill _). vm_compute. reflexivity.
  - apply (Hleft ltac:(cbn; lia) ltac:(unfold MAX_HISTORY_SIZE; cbn; lia) 2%nat ltac:(cbn; lia)).
Defined.

End ChartGeometry.

(* ================================================================== *)
(** * The life of a surface *)
(* ================================================================== *)

Section Lifecycle.

Import Numeric RenderManager.
Open Scope float_scope.

Lemma PushBuffer_length : forall (h : list float) (v : float),
  (length h <= MAX_HISTORY_SIZE)%nat -> (length (PushBuffer h v) <= MAX_HISTORY_SIZE)%nat.
Proof.
  intros h v Hh. rewrite (PushBuffer_lastn h v Hh). apply lastn_length.
Qed.

(** A push that finds the guard clear is a frame on the buffer with the new
    sample. *)
Lemma PushData_draws : forall (st : RenderState) (env : FrameEnv) (v : float),
  isRendering_ st = false ->
  PushData st env v
  = DrawFrame (set_rendering (set_history st (PushBuffer (speedHistory_ st) v)) true) env.
Proof.
  intros st env v Hg. unfold PushData, compare_exchange.
  cbn [isRendering_ set_history]. rewrite Hg. reflexivity.
Qed.

(** Calls that return before the next one starts leave the guard clear and
    the chart buffer within its capacity. *)
Lemma do_op_keeps : forall (st : RenderState) (o : op),
  isRendering_ st = false -> (length (speedHistory_ st) <= MAX_HISTORY_SIZE)%nat ->
  isRendering_ (fst (do_op st o)) = false
  /\ (length (speedHistory_ (fst (do_op st o))) <= MAX_HISTORY_SIZE)%nat.
Proof.
  intros st o Hg Hlen. destruct o as [v env | | window size usage | env size | ]; cbn [do_op fst].
  - rewrite (PushData_draws st env v Hg), DrawFrame_state.
    cbn [isRendering_ speedHistory_ set_rendering set_history].
    split; [ reflexivity | apply PushBuffer_length; exact Hlen ].
  - split; [ exact Hg | cbn; lia ].
  - unfold OnSurfaceCreated. cbn [fst].
    destruct size as [[w h] |]; cbn; split; assumption.
  - unfold OnSurfaceChanged. rewrite DrawFrame_state.
    destruct size as [[w h] |]; cbn; split; try reflexivity; exact Hlen.
  - cbn. split; assumption.
Qed.

Lemma run_ops_keeps : forall (os : list op) (st : RenderState),
  isRendering_ st = false -> (length (speedHistory_ st) <= MAX_HISTORY_SIZE)%nat ->
  isRendering_ (fst (run_ops st os)) = false
  /\ (length (speedHistory_ (fst (run_ops st os))) <= MAX_HISTORY_SIZE)%nat.
Proof.
  induction os as [| o os IH]; intros st Hg Hlen; cbn [run_ops fst].
  - split; assumption.
  - destruct (do_op_keeps st o Hg Hlen) as [Hg' Hlen']. apply IH; assumption.
Qed.

(** X13: calls made one after the other. Whatever entry points of the
    renderer are called, in whatever order, each returning before the next
    starts, the in-flight guard is clear between the calls and the chart
    buffer holds at most 15 samples. So no sample that is pushed finds the
    guard taken: every [PushData] enters [DrawFrame], and it hands exactly one
    frame to the compositor when there is a surface and the platform gives
    the buffer and its mapping, and none otherwise. *)
Theorem sequential_calls_release_guard :
  forall (os : list op) (env : FrameEnv) (v : float),
    let st := fst (run_ops initial os) in
    isRendering_ st = false
    /\ (length (GetDataSnapshot st) <= MAX_HISTORY_SIZE)%nat
    /\ isRendering_ (fst (PushData st env v)) = false
    /\ submissions (snd (PushData st env v))
       = (if has_window st && request_ok env && mapping_ok env then 1 else 0)%nat.
Proof.
  intros os env v st.
  destruct (run_ops_keeps os initial eq_refl) as [Hg Hlen].
  { cbn. lia. }
  fold st in Hg, Hlen.
  split; [ exact Hg | ]. split; [ exact Hlen | ].
  rewrite (PushData_draws st env v Hg). split.
  - rewrite DrawFrame_state. reflexivity.
  - rewrite DrawFrame_submissions. reflexivity.
Qed.

Lemma DrawFrame_no_window : forall (st : RenderState) (env : FrameEnv),
  nativeWindow_ st = None -> snd (DrawFrame st env) = [].
Proof.
  intros st env H. unfold DrawFrame. rewrite H. reflexivity.
Qed.

Lemma do_op_no_window : forall (st : RenderState) (o : op),
  nativeWindow_ st = None -> is_created o = false ->
  snd (do_op st o) = [] /\ nativeWindow_ (fst (do_op st o)) = None.
Proof.
  intros st o Hw Ho. destruct o as [v env | | window size usage | env size | ];
    cbn [do_op fst snd is_created] in *; try discriminate Ho.
  - unfold PushData, compare_exchange. cbn [isRendering_ set_history].
    destruct (isRendering_ st).
    + split; [ reflexivity | exact Hw ].
    + rewrite DrawFrame_state. split; [ | exact Hw ].
      apply DrawFrame_no_window. exact Hw.
  - split; [ reflexivity | exact Hw ].
  - unfold OnSurfaceChanged. rewrite DrawFrame_state. split.
    + apply DrawFrame_no_window. destruct size as [[w h] |]; exact Hw.
    + destruct size as [[w h] |]; exact Hw.
  - split; reflexivity.
Qed.

(** X14: without a surface the platform is left alone. From a state without
    a surface handle (before the first [OnSurfaceCreated], or after
    [OnSurfaceDestroyed]) no sequence of pushes, clears, resize and destroy
    callbacks makes a single call into the window or drawing libraries, and
    the handle stays null, until [OnSurfaceCreated] is called. *)
Theorem no_surface_no_platform_calls :
  forall (os : list op) (st : RenderState),
    nativeWindow_ st = None ->
    forallb (fun o => negb (is_created o)) os = true ->
    snd (run_ops st os) = [] /\ nativeWindow_ (fst (run_ops st os)) = None.
Proof.
  induction os as [| o os IH]; intros st Hw Hos; cbn [run_ops fst snd].
  - split; [ reflexivity | exact Hw ].
  - cbn [forallb] in Hos. apply andb_true_iff in Hos. destruct Hos as [Ho Hos].
    apply negb_true_iff in Ho.
    destruct (do_op_no_window st o Hw Ho) as [Htr Hw'].
    destruct (IH _ Hw' Hos) as [Htr' Hw''].
    rewrite Htr, Htr'. split; [ reflexivity | exact Hw'' ].
Qed.

(** A surface is destroyed; samples are pushed, the host reports a resize,
    the buffer is cleared and the surface is destroyed once more: nothing is
    called. *)
Lemma no_surface_no_platform_calls_witness :
  snd (run_ops (OnSurfaceDestroyed Scheduler.surface_ready)
         [OpPushData 1 env_ok; OpPushData 2 env_ok;
          OpSurfaceChanged env_ok (Some (800%Z, 100%Z)); OpClearData;
          OpPushData 3 env_ok; OpSurfaceDestroyed]) = []
  /\ nativeWindow_
       (fst (run_ops (OnSurfaceDestroyed Scheduler.surface_ready)
               [OpPushData 1 env_ok; OpPushData 2 env_ok;
                OpSurfaceChanged env_ok (Some (800%Z, 100%Z)); OpClearData;
                OpPushData 3 env_ok; OpSurfaceDestroyed])) = None.
Proof.
  apply (no_surface_no_platform_calls
           [OpPushData 1 env_ok; OpPushData 2 env_ok;
            OpSurfaceChanged env_ok (Some (800%Z, 100%Z)); OpClearData;
            OpPushData 3 env_ok; OpSurfaceDestroyed]
           (OnSurfaceDestroyed Scheduler.surface_ready)).
  - reflexivity.
  - reflexivity.
Defined.

(** X15: which size a frame has. [OnSurfaceCreated] stores the size the
    host reports, keeps the stored one when the query fails, sets the usage,
    logs an error when that fails, and sets the buffer geometry of the
    window to the stored size and the format. [OnSurfaceChanged] stores the
    reported size, and 0 x 0 when the query fails, its outputs being left at
    their initial 0; it sets no option of the window, so the buffer geometry
    stays the one of the creation; and the frame it draws builds its bitmap
    with the size just stored, each dimension narrowed to the 32 bits of the
    parameters of [OH_Drawing_BitmapBuild]: the stored size itself when it is
    below 2^32. *)
Theorem surface_size_callbacks :
  forall (st : RenderState) (window : Z) (env : FrameEnv) (size : option (Z * Z))
         (usage_ret : Z),
    let created := fst (OnSurfaceCreated st window size usage_ret) in
    let changed := fst (OnSurfaceChanged st env size) in
    (width_ created, height_ created)
    = match size with Some p => p | None => (width_ st, height_ st) end
    /\ snd (OnSurfaceCreated st window size usage_ret)
       = [SetUsage]
         ++ (if (usage_ret =? 0)%Z then [] else [LogError])
         ++ [SetBufferGeometry (width_ created) (height_ created); SetFormat]
    /\ (width_ changed, height_ changed)
       = match size with Some p => p | None => (0%Z, 0%Z) end
    /\ count is_window_option (snd (OnSurfaceChanged st env size)) = 0%nat
    /\ (has_window st && request_ok env && mapping_ok env = true ->
        In (BitmapBuild (wrap_u32 (width_ changed)) (wrap_u32 (height_ changed)))
           (snd (OnSurfaceChanged st env size))
        /\ ((0 <= width_ changed < 2 ^ 32)%Z -> (0 <= height_ changed < 2 ^ 32)%Z ->
            In (BitmapBuild (width_ changed) (height_ changed))
               (snd (OnSurfaceChanged st env size)))).
Proof.
  intros st window env size usage_ret created changed.
  split; [ destruct size as [[w h] |]; reflexivity | ].
  split; [ reflexivity | ].
  assert (Hchanged : changed = set_rendering (resized st size) false)
    by (unfold changed, OnSurfaceChanged; apply DrawFrame_state).
  split; [ rewrite Hchanged; destruct size as [[w h] |]; reflexivity | ].
  unfold OnSurfaceChanged. split.
  - destruct (has_window (resized st size) && request_ok env && mapping_ok env) eqn:H.
    + rewrite (DrawFrame_complete _ env H).
      rewrite count_around_drawing;
        [ | intros [] He; try discriminate He; reflexivity
          | intros [] He; try discriminate He; reflexivity ].
      destruct (0 <? fenceFd env)%Z, (virAddr_mapped env); reflexivity.
    + rewrite (DrawFrame_incomplete _ env H).
      destruct (has_window (resized st size)); [ | reflexivity ].
      destruct (request_ok env); [ | reflexivity ].
      destruct (0 <? fenceFd env)%Z; reflexivity.
  - intro H.
    assert (H' : has_window (resized st size) && request_ok env && mapping_ok env = true)
      by (destruct size as [[w h] |]; exact H).
    assert (Hin : In (BitmapBuild (wrap_u32 (width_ changed)) (wrap_u32 (height_ changed)))
                     (snd (DrawFrame (resized st size) env))).
    { rewrite (DrawFrame_complete _ env H'). rewrite Hchanged.
      apply in_or_app. left.
      apply in_or_app. right. apply in_or_app. right. apply in_or_app. right.
      left. destruct size as [[w h] |]; reflexivity. }
    split; [ exact Hin | ].
    intros Hw Hh. unfold wrap_u32 in Hin.
    rewrite !Z.mod_small in Hin by assumption. exact Hin.
Qed.

(** A surface created 1400 x 200 is resized to 800 x 100: the frame of the
    resize builds a bitmap 800 x 100. Resized to a width of 2^32 + 6, the
    frame builds a bitmap 6 wide. A creation whose usage cannot be set logs
    the error between the usage and the geometry. *)
Lemma surface_size_callbacks_witness :
  In (BitmapBuild 800 100)
     (snd (OnSurfaceChanged Scheduler.surface_ready env_ok (Some (800%Z, 100%Z))))
  /\ In (BitmapBuild 6 100)
        (snd (OnSurfaceChanged Scheduler.surface_ready env_ok
                (Some (4294967302%Z, 100%Z))))
  /\ snd (OnSurfaceCreated initial 1%Z (Some (1400%Z, 200%Z)) (-1)%Z)
     = [SetUsage; LogError; SetBufferGeometry 1400 200; SetFormat].
Proof.
  split; [ | split ].
  - apply (proj2 (proj2 (proj2 (proj2 (proj2
             (surface_size_callbacks Scheduler.surface_ready 1%Z env_ok
                (Some (800%Z, 100%Z)) 0%Z)))) eq_refl)).
    + cbn. lia.
    + cbn. lia.
  - exact (proj1 (proj2 (proj2 (proj2 (proj2
             (surface_size_callbacks Scheduler.surface_ready 1%Z env_ok
                (Some (4294967302%Z, 100%Z)) 0%Z)))) eq_refl)).
  - exact (proj1 (proj2
             (surface_size_callbacks initial 1%Z env_ok (Some (1400%Z, 200%Z)) (-1)%Z))).
Defined.

End Lifecycle.

(* ================================================================== *)
(** * The largest sample *)
(* ================================================================== *)

Section LargestSample.

Import Numeric RenderManager.

Ltac compare_cases :=
  repeat match goal with
         | H : context [Pos.compare_cont Eq ?a ?b] |- _ =>
             change (Pos.compare_cont Eq a b) with (Pos.compare a b) in H
         | |- context [Pos.compare_cont Eq ?a ?b] =>
             change (Pos.compare_cont Eq a b) with (Pos.compare a b)
         end;
  repeat match goal with
         | H : context [(?a ?= ?b)%Z] |- _ => destruct (Z.compare_spec a b)
         | |- context [(?a ?= ?b)%Z] => destruct (Z.compare_spec a b)
         | H : context [(?a ?= ?b)%positive] |- _ => destruct (Pos.compare_spec a b)
         | |- context [(?a ?= ?b)%positive] => destruct (Pos.compare_spec a b)
         end;
  cbn [CompOpp] in *; try discriminate; try reflexivity; try lia.

(** [<=] on doubles is transitive. *)
Lemma SFleb_trans : forall x y z : spec_float,
  SFleb x y = true -> SFleb y z = true -> SFleb x z = true.
Proof.
  intros [sx | sx | | sx mx ex] [sy | sy | | sy my ey] [sz | sz | | sz mz ez];
    unfold SFleb; cbn [SFcompare]; intros Hxy Hyz;
    try discriminate; try reflexivity;
    try (destruct sx; try discriminate; try reflexivity);
    try (destruct sy; try discriminate; try reflexivity);
    try (destruct sz; try discriminate; try reflexivity);
    compare_cases.
Qed.

(** Of two numbers, one is [<=] the other. *)
Lemma SFltb_false_SFleb : forall x y : spec_float,
  SFleb x x = true -> SFleb y y = true -> SFltb x y = false -> SFleb y x = true.
Proof.
  intros [sx | sx | | sx mx ex] [sy | sy | | sy my ey];
    unfold SFleb, SFltb; cbn [SFcompare]; intros Hx Hy Hxy;
    try discriminate; try reflexivity;
    try (destruct sx; try discriminate; try reflexivity);
    try (destruct sy; try discriminate; try reflexivity);
    compare_cases.
Qed.

Open Scope float_scope.

Lemma leb_trans : forall x y z : float,
  (x <=? y) = true -> (y <=? z) = true -> (x <=? z) = true.
Proof.
  intros x y z. rewrite !leb_spec. apply SFleb_trans.
Qed.

Lemma ltb_false_leb : forall x y : float,
  (x <=? x) = true -> (y <=? y) = true -> (x <? y) = false -> (y <=? x) = true.
Proof.
  intros x y. rewrite !leb_spec, ltb_spec. apply SFltb_false_SFleb.
Qed.

Lemma max_element_bounds : forall (rest : list float) (first : float),
  (first <=? first) = true -> forallb (fun v => v <=? v) rest = true ->
  (first <=? max_element first rest) = true
  /\ forallb (fun v => v <=? max_element first rest) rest = true
  /\ In (max_element first rest) (first :: rest).
Proof.
  induction rest as [| v rest IH]; intros first Hf Hrest.
  - cbn. split; [ exact Hf | split; [ reflexivity | left; reflexivity ] ].
  - cbn [forallb] in Hrest. apply andb_true_iff in Hrest. destruct Hrest as [Hv Hrest].
    change (max_element first (v :: rest))
      with (max_element (if first <? v then v else first) rest).
    destruct (first <? v) eqn:E.
    + destruct (IH v Hv Hrest) as (Hle & Hall & Hin).
      split; [ apply (leb_trans _ v); [ apply (ltb_leb _ _ E) | exact Hle ] | ].
      split; [ cbn [forallb]; rewrite Hle, Hall; reflexivity | ].
      right. exact Hin.
    + destruct (IH first Hf Hrest) as (Hle & Hall & Hin).
      split; [ exact Hle | ].
      split.
      * cbn [forallb]. rewrite Hall, andb_true_r.
        apply (leb_trans _ first); [ apply ltb_false_leb; assumption | exact Hle ].
      * destruct Hin as [Hin | Hin]; [ left; exact Hin | right; right; exact Hin ].
Qed.

(** X16: the value the chart is scaled by. For samples that are numbers
    (no NaN among them), the [max_element] that [DrawFrame] takes of the
    snapshot is one of the samples, and no sample is above it. *)
Theorem max_element_largest :
  forall (first : float) (rest : list float),
    forallb (fun v => v <=? v) (first :: rest) = true ->
    In (max_element first rest) (first :: rest)
    /\ forallb (fun v => v <=? max_element first rest) (first :: rest) = true.
Proof.
  intros first rest Hnum.
  cbn [forallb] in Hnum. apply andb_true_iff in Hnum. destruct Hnum as [Hf Hrest].
  destruct (max_element_bounds rest first Hf Hrest) as (Hle & Hall & Hin).
  split; [ exact Hin | ].
  cbn [forallb]. rewrite Hle, Hall. reflexivity.
Qed.

(** The samples 50, 120 and 60: the largest is 120. *)
Lemma max_element_largest_witness :
  In (max_element 50.0 [120.0; 60.0]) [50.0; 120.0; 60.0]
  /\ forallb (fun v => v <=? max_element 50.0 [120.0; 60.0]) [50.0; 120.0; 60.0] = true.
Proof.
  apply (max_element_largest 50.0 [120.0; 60.0]). reflexivity.
Defined.

End LargestSample.

(* ================================================================== *)
(** * Interleaved calls *)
(* ================================================================== *)

Section Interleaving.

Import Numeric RenderManager Scheduler.

Lemma unfinished_set_thread : forall (ts : list thread) (i : nat) (old new : thread),
  nth_error ts i = Some old ->
  (unfinished (set_thread ts i new) + (if is_returned old then 0 else 1)
   = unfinished ts + (if is_returned new then 0 else 1))%nat.
Proof.
  intros ts i old new Hi. unfold unfinished, set_thread.
  rewrite (set_thread_split ts i old Hi) at 3.
  rewrite !filter_app, !length_app. cbn [filter].
  destruct (is_returned old), (is_returned new); cbn [negb length]; lia.
Qed.

Lemma submissions_app : forall a b : list event,
  submissions (a ++ b) = (submissions a + submissions b)%nat.
Proof.
  intros a b. unfold submissions. rewrite filter_app, length_app. reflexivity.
Qed.

(** One action of one thread: frames handed over and calls still running
    do not grow together, and the chart buffer stays within its capacity. *)
Lemma step_bounds : forall c c' : config,
  step c c' ->
  (submissions (trace c') + unfinished (threads c')
   <= submissions (trace c) + unfinished (threads c))%nat
  /\ ((length (speedHistory_ (shared c)) <= MAX_HISTORY_SIZE)%nat ->
      (length (speedHistory_ (shared c')) <= MAX_HISTORY_SIZE)%nat).
Proof.
  intros c c' Hstep.
  destruct Hstep as [st ts tr i v Hi | st ts tr i Hi | st ts tr i size Hi | st ts tr i env Hi];
    cbn [threads shared trace].
  - pose proof (unfinished_set_thread ts i _ AtCompareExchange Hi) as H.
    cbn [is_returned] in H. split; [ lia | ].
    cbn [speedHistory_ set_history]. apply PushBuffer_length.
  - split.
    + destruct (snd (compare_exchange st)).
      * pose proof (unfinished_set_thread ts i _ InDrawFrame Hi) as H.
        cbn [is_returned] in H. lia.
      * pose proof (unfinished_set_thread ts i _ Returned Hi) as H.
        cbn [is_returned] in H. lia.
    + unfold compare_exchange. destruct (isRendering_ st); cbn; auto.
  - pose proof (unfinished_set_thread ts i _ InDrawFrame Hi) as H.
    cbn [is_returned] in H. split; [ lia | ].
    destruct size as [[w h] |]; cbn; auto.
  - pose proof (unfinished_set_thread ts i _ Returned Hi) as H.
    cbn [is_returned] in H.
    rewrite submissions_app, DrawFrame_submissions, DrawFrame_state.
    split; [ | cbn; auto ].
    destruct (has_window st && request_ok env && mapping_ok env); lia.
Qed.

(** X17: under any interleaving, resizes included, the compositor never
    receives more frames than calls were made: the frames submitted so far
    and the calls that have not returned yet never add up to more than at the
    start; and the chart buffer never exceeds its capacity of 15, however
    pushes, resizes and frames interleave. *)
Theorem frames_bounded_by_calls :
  forall c c' : config,
    steps c c' ->
    (submissions (trace c') + unfinished (threads c')
     <= submissions (trace c) + unfinished (threads c))%nat
    /\ ((length (speedHistory_ (shared c)) <= MAX_HISTORY_SIZE)%nat ->
        (length (speedHistory_ (shared c')) <= MAX_HISTORY_SIZE)%nat).
Proof.
  intros c c' Hsteps. induction Hsteps as [c | c1 c2 c3 Hstep _ IH].
  - split; [ lia | auto ].
  - destruct (step_bounds c1 c2 Hstep) as [H1 H2]. destruct IH as [H3 H4].
    split; [ lia | auto ].
Qed.

(** A push and a resize, interleaved as in [push_and_resize]: the push is
    stored and wins the guard, the resize enters [DrawFrame] at once, and
    both frames run to their end. *)
Lemma push_and_resize_run :
  { c' : config | steps push_and_resize c' /\ threads c' = [Returned; Returned] }.
Proof.
  eexists. split.
  - eapply steps_next.
    { exact (step_push surface_ready
               [AtPushData 70.0%float; AtOnSurfaceChanged (Some (800%Z, 100%Z))]
               [] 0 70.0%float eq_refl). }
    eapply steps_next.
    { exact (step_cas _ [AtCompareExchange; AtOnSurfaceChanged (Some (800%Z, 100%Z))]
               [] 0 eq_refl). }
    eapply steps_next.
    { exact (step_resize _ [InDrawFrame; AtOnSurfaceChanged (Some (800%Z, 100%Z))]
               [] 1 (Some (800%Z, 100%Z)) eq_refl). }
    eapply steps_next.
    { exact (step_draw _ [InDrawFrame; InDrawFrame] [] 0 env_ok eq_refl). }
    eapply steps_next.
    { exact (step_draw _ [Returned; InDrawFrame] _ 1 env_ok eq_refl). }
    apply steps_refl.
  - reflexivity.
Defined.

(** In that run two calls were made and at most two frames are handed
    over. *)
Lemma frames_bounded_by_calls_witness :
  (submissions (trace (proj1_sig push_and_resize_run))
   + unfinished (threads (proj1_sig push_and_resize_run))
   <= 0 + 2)%nat.
Proof.
  apply (proj1 (frames_bounded_by_calls push_and_resize (proj1_sig push_and_resize_run)
                  (proj1 (proj2_sig push_and_resize_run)))).
Defined.

Lemma returned_not_in_flight : forall ts : list thread,
  forallb is_returned ts = true -> in_flight ts = 0%nat.
Proof.
  unfold in_flight. induction ts as [| t ts IH]; cbn [forallb filter]; intro H;
    [ reflexivity | ].
  apply andb_true_iff in H. destruct H as [Ht Hts].
  destruct t; try discriminate Ht. cbn [is_in_flight]. apply IH. exact Hts.
Qed.

(** X18: the guard is never left behind. When every trigger is a sample
    push, whatever the interleaving, at most one frame is in flight, a frame
    is in flight exactly while the guard is set, and once every call has
    returned the guard is clear, so that the next push draws. *)
Theorem push_only_guard_released :
  forall c c' : config,
    guarded c -> steps c c' ->
    (in_flight (threads c') <= 1)%nat
    /\ in_flight (threads c') = (if isRendering_ (shared c') then 1 else 0)%nat
    /\ (forallb is_returned (threads c') = true ->
        isRendering_ (shared c') = false
        /\ forall (env : FrameEnv) (v : float),
             PushData (shared c') env v
             = DrawFrame (set_rendering
                            (set_history (shared c')
                               (PushBuffer (speedHistory_ (shared c')) v)) true) env).
Proof.
  intros c c' Hc Hsteps.
  assert (Hg : guarded c').
  { induction Hsteps as [c | c1 c2 c3 Hstep _ IH]; [ exact Hc | ].
    apply IH. apply (guarded_step c1 c2 Hc Hstep). }
  destruct Hg as (_ & Hcount).
  split; [ rewrite Hcount; destruct (isRendering_ (shared c')); lia | ].
  split; [ exact Hcount | ].
  intro Hall. rewrite (returned_not_in_flight _ Hall) in Hcount.
  assert (Hclear : isRendering_ (shared c') = false)
    by (destruct (isRendering_ (shared c')); [ discriminate Hcount | reflexivity ]).
  split; [ exact Hclear | ].
  intros env v. apply PushData_draws. exact Hclear.
Qed.

(** Two pushes race: both store their sample, the first wins the guard,
    the second finds it set and returns, the frame of the first runs to its
    end. *)
Lemma two_pushes_run :
  { c' : config | steps two_pushes c' /\ threads c' = [Returned; Returned] }.
Proof.
  eexists. split.
  - eapply steps_next.
    { exact (step_push surface_ready [AtPushData 70.0%float; AtPushData 80.0%float]
               [] 0 70.0%float eq_refl). }
    eapply steps_next.
    { exact (step_push _ [AtCompareExchange; AtPushData 80.0%float]
               [] 1 80.0%float eq_refl). }
    eapply steps_next.
    { exact (step_cas _ [AtCompareExchange; AtCompareExchange] [] 0 eq_refl). }
    eapply steps_next.
    { exact (step_cas _ [InDrawFrame; AtCompareExchange] [] 1 eq_refl). }
    eapply steps_next.
    { exact (step_draw _ [InDrawFrame; Returned] [] 0 env_ok eq_refl). }
    apply steps_refl.
  - reflexivity.
Defined.

(** After that race the guard is clear. *)
Lemma push_only_guard_released_witness :
  isRendering_ (shared (proj1_sig two_pushes_run)) = false.
Proof.
  refine (proj1 (proj2 (proj2
            (push_only_guard_released two_pushes (proj1_sig two_pushes_run) _
               (proj1 (proj2_sig two_pushes_run)))) _)).
  - split; reflexivity.
  - reflexivity.
Defined.

End Interleaving.

(* ================================================================== *)
(** * The sign of the jitter *)
(* ================================================================== *)

Section JitterSign.

Import Numeric TrafficAnalyzer.
Open Scope Z_scope.

Lemma SFnonneg_not_negative : forall x : spec_float,
  SFnonneg x = true -> SFnot_negative x = true.
Proof.
  intros [s | s | | s m e] H; try exact H. reflexivity.
Qed.

(** A square is not below zero. *)
Lemma SFmul_square : forall x : spec_float, SFnot_negative (SFmul prec emax x x) = true.
Proof.
  intros [s | s | | s m e]; cbn [SFmul SFnot_negative SFnonneg];
    try (destruct s; reflexivity); try reflexivity.
  apply SFnonneg_not_negative.
  replace (xorb s s) with false by (destruct s; reflexivity).
  apply binary_round_aux_nonneg. lia.
Qed.

Lemma SFadd_not_negative : forall x y : spec_float,
  SFnot_negative x = true -> SFnot_negative y = true ->
  SFnot_negative (SFadd prec emax x y) = true.
Proof.
  intros x y Hx Hy.
  destruct x as [sx | sx | | sx mx ex] eqn:Ex; try reflexivity;
    (destruct y as [sy | sy | | sy my ey] eqn:Ey;
     [ | | destruct sx; reflexivity | ]);
    rewrite <- Ex, <- Ey; apply SFnonneg_not_negative;
    apply SFadd_nonneg; subst; assumption.
Qed.

Lemma SFdiv_not_negative : forall x y : spec_float,
  SFnot_negative x = true -> SFpositive y = true ->
  SFnot_negative (SFdiv prec emax x y) = true.
Proof.
  intros x y Hx Hy.
  destruct x as [sx | sx | | sx mx ex] eqn:Ex;
    [ | | destruct y as [sy | sy | | sy my ey]; reflexivity | ];
    rewrite <- Ex; apply SFnonneg_not_negative; apply SFdiv_nonneg; subst; assumption.
Qed.

Lemma SFsqrt_not_negative : forall x : spec_float,
  SFnot_negative x = true -> SFnot_negative (SFsqrt prec emax x) = true.
Proof.
  intros [s | s | | s m e] H; cbn [SFsqrt]; try exact H; try reflexivity.
  - destruct s; [ reflexivity | exact H ].
  - destruct s; [ reflexivity | ].
    unfold SFsqrt_core_binary.
    set (m' := match e - 2 * Z.min (fexp prec emax (Z.div2 (Zdigits2 (Z.pos m) + e + 1)))
                                   (Z.div2 e) with
               | 0%Z => Z.pos m
               | Z.pos _ =>
                   Z.shiftl (Z.pos m)
                     (e - 2 * Z.min (fexp prec emax (Z.div2 (Zdigits2 (Z.pos m) + e + 1)))
                                    (Z.div2 e))
               | Z.neg _ => 0%Z
               end).
    assert (Hm' : (0 <= m')%Z).
    { unfold m'.
      destruct (e - 2 * Z.min (fexp prec emax (Z.div2 (Zdigits2 (Z.pos m) + e + 1)))
                              (Z.div2 e))%Z; try lia.
      apply Z.shiftl_nonneg. lia. }
    pose proof (Z.sqrtrem_spec m' Hm') as Hspec.
    destruct (Z.sqrtrem m') as [q r].
    apply SFnonneg_not_negative. apply binary_round_aux_nonneg. lia.
Qed.

Open Scope float_scope.

Lemma not_negative_ltb : forall x : float,
  SFnot_negative (Prim2SF x) = true -> (x <? 0) = false.
Proof.
  intros x H. rewrite ltb_spec. change (Prim2SF 0) with (S754_zero false).
  unfold SFltb. destruct (Prim2SF x) as [s | s | | s m e]; cbn [SFcompare];
    try reflexivity; destruct s; try reflexivity; discriminate H.
Qed.

Lemma sum_sq_diff_not_negative : forall (w : list float) (mean acc : float),
  SFnot_negative (Prim2SF acc) = true ->
  SFnot_negative
    (Prim2SF (fold_left (fun acc val => let diff := val - mean in acc + diff * diff) w acc))
  = true.
Proof.
  induction w as [| v w IH]; intros mean acc Hacc; cbn [fold_left]; [ exact Hacc | ].
  apply IH. cbv zeta. rewrite add_spec, mul_spec. unfold SF64add, SF64mul.
  apply SFadd_not_negative; [ exact Hacc | apply SFmul_square ].
Qed.

(** The deviation of a window within its capacity is not below zero,
    whatever its samples and the mean are. *)
Lemma CalculateJitter_not_negative : forall (w : list float) (mean : float),
  (length w <= WINDOW_SIZE)%nat ->
  (CalculateJitter w mean <? 0) = false.
Proof.
  intros w mean Hlen. apply not_negative_ltb. unfold CalculateJitter.
  destruct (length w <? 2)%nat eqn:E; [ reflexivity | ].
  apply Nat.ltb_ge in E. unfold WINDOW_SIZE in Hlen.
  rewrite sqrt_spec, div_spec. unfold SF64sqrt, SF64div.
  apply SFsqrt_not_negative. apply SFdiv_not_negative.
  - apply sum_sq_diff_not_negative. reflexivity.
  - unfold size_as_double.
    pose proof (Zdigits2_upper (Z.of_nat (length w)) 7 ltac:(lia) ltac:(lia)) as Hd.
    destruct (double_of_Z_normal (Z.of_nat (length w)) ltac:(lia) ltac:(lia))
      as (m & e & H & _).
    rewrite H. reflexivity.
Qed.

(** X19: the jitter is never negative. Whatever calls are made and
    whatever rates they produce, infinite ones and NaN included, no snapshot
    holds a [jitter] below zero: the window never holds more than 100
    samples, and the root of a mean of squares is not negative. *)
Theorem jitter_never_negative :
  forall cs : list call,
    forallb (fun r => negb (jitter r <? 0)) (snapshots (run fresh cs)) = true.
Proof.
  assert (Hgen : forall cs s,
            (length (g_speedWindow s) <= WINDOW_SIZE)%nat ->
            forallb (fun r => negb (jitter r <? 0)) (snapshots (run s cs)) = true).
  { induction cs as [| [now n | now] cs IH]; intros s Hlen; [ reflexivity | | ].
    - cbn [run do_call fst snd]. unfold ProcessTrafficCore.
      destruct (g_isFirstPacket s).
      + cbn [fst snd snapshots]. apply IH. exact Hlen.
      + destruct (duration_cast_us (now - g_lastPacketTime s) <? MIN_CALC_INTERVAL_US)%Z.
        * cbn [fst snd snapshots CreateResultObject forallb jitter].
          rewrite (CalculateJitter_not_negative _ _ Hlen). cbn [negb andb].
          apply IH. exact Hlen.
        * pose proof (push_window_length (g_speedWindow s)
                        ((g_accumulatedBytes s + double_of_Z n) * 8.0
                         / (double_of_Z (duration_cast_us (now - g_lastPacketTime s))
                            / 1000000.0) / 1024.0) Hlen) as Hlen'.
          cbv zeta. cbn [fst snd snapshots CreateResultObject forallb jitter].
          rewrite (CalculateJitter_not_negative _ _ Hlen'). cbn [negb andb].
          apply IH. exact Hlen'.
    - cbn [run do_call fst snd snapshots]. apply IH. cbn. unfold WINDOW_SIZE. lia. }
  intro cs. apply Hgen. cbn. unfold WINDOW_SIZE. lia.
Qed.

End JitterSign.

(* ================================================================== *)
(** * The extremes bracket the rate *)
(* ================================================================== *)

Section Bracket.

Import Numeric TrafficAnalyzer.
Open Scope float_scope.

Lemma reported_min_below : forall m x : float,
  m = -1.0 \/ (m <=? x) = true -> (0 <=? x) = true ->
  (reported_min m <=? x) = true.
Proof.
  intros m x [-> | H] Hx; unfold reported_min.
  - exact Hx.
  - destruct (m <? 0); assumption.
Qed.

Lemma bracket_ok_step :
  forall (s : State) (now : time_point) (n : Z),
    rates_ok s -> bracket_ok s -> valid_packet (now, n) = true ->
    bracket_ok (fst (ProcessTrafficCore s now n))
    /\ match snd (ProcessTrafficCore s now n) with
       | JsResult r => bracketed r = true
       | _ => True
       end.
Proof.
  intros s now n (Hclock & Hlast & Hacc & Htot & Hmax & Havg & Hmin & Hwin)
    (Hsent & Hcount & Hbr) Hv.
  unfold valid_packet in Hv. cbn [fst snd] in Hv.
  apply andb_true_iff in Hv. destruct Hv as [Hv Hn2].
  apply andb_true_iff in Hv. destruct Hv as [Hv Hn1].
  apply andb_true_iff in Hv. destruct Hv as [Ht1 Ht2].
  apply Z.leb_le in Ht1, Hn1, Hn2. apply Z.ltb_lt in Ht2.
  assert (Hbytes : (0 <=? double_of_Z n) = true).
  { apply double_of_Z_nonneg; [ exact Hn1 | ].
    unfold SIZE_MAX in Hn2.
    pose proof (Zdigits2_upper n 64 ltac:(lia) ltac:(lia)). lia. }
  pose proof (add_nonneg _ _ Hacc Hbytes) as Hacc'.
  unfold ProcessTrafficCore.
  destruct (g_isFirstPacket s).
  - cbn [fst snd]. split; [ | exact I ]. unfold bracket_ok.
    cbn [g_speedWindow g_globalMax g_globalMin g_sampleCount].
    split; [ exact Hsent | split; [ exact Hcount | exact Hbr ] ].
  - destruct (duration_cast_us (now - g_lastPacketTime s) <? MIN_CALC_INTERVAL_US)%Z
      eqn:Hd.
    + cbn [fst snd CreateResultObject]. split.
      * unfold bracket_ok.
        cbn [g_speedWindow g_globalMax g_globalMin g_sampleCount].
        split; [ exact Hsent | split; [ exact Hcount | exact Hbr ] ].
      * unfold bracketed. cbn [instantKbps maxKbps minKbps].
        destruct (g_speedWindow s) as [| a w'] eqn:Ew.
        -- rewrite Hbr, Hmax. reflexivity.
        -- destruct Hbr as [Hle Hge].
           assert (H0 : (0 <=? last (a :: w') 0) = true)
             by (apply last_nonneg; [ reflexivity | exact Hwin ]).
           rewrite (reported_min_below _ _ Hge H0), Hle. reflexivity.
    + destruct (tick_duration_range now (g_lastPacketTime s) ltac:(lia) ltac:(lia) Hd)
        as [Hus Hdig].
      pose proof (rate_nonneg _ _ Hacc' Hus Hdig) as Hrate.
      cbv zeta.
      remember ((g_accumulatedBytes s + double_of_Z n) * 8.0 /
                (double_of_Z (duration_cast_us (now - g_lastPacketTime s)) / 1000000.0) /
                1024.0) as inst eqn:Hinst.
      clear Hinst.
      pose proof (leb_leb_refl_r _ _ Hrate) as Hrefl.
      pose proof (leb_leb_refl_r _ _ Hmax) as Hmaxrefl.
      assert (Hmax' : (inst <=? (if g_globalMax s <? inst then inst else g_globalMax s))
                      = true).
      { destruct (g_globalMax s <? inst) eqn:E; [ exact Hrefl | ].
        apply ltb_false_leb; assumption. }
      assert (Hmin' : (if (5 <? g_sampleCount s + 1)%Z
                       then if (g_globalMin s <? 0) || (inst <? g_globalMin s)
                            then inst else g_globalMin s
                       else g_globalMin s) = -1.0
                      \/ ((if (5 <? g_sampleCount s + 1)%Z
                           then if (g_globalMin s <? 0) || (inst <? g_globalMin s)
                                then inst else g_globalMin s
                           else g_globalMin s) <=? inst) = true).
      { destruct (5 <? g_sampleCount s + 1)%Z eqn:E5.
        - destruct (g_globalMin s <? 0) eqn:Eneg; cbn [orb]; [ right; exact Hrefl | ].
          destruct (inst <? g_globalMin s) eqn:Elt; [ right; exact Hrefl | ].
          destruct Hmin as [Hm | Hm]; [ left; exact Hm | ].
          right. apply ltb_false_leb; [ exact Hrefl | | exact Elt ].
          apply (leb_leb_refl_r _ _ Hm).
        - left. apply Hsent. apply Z.ltb_ge in E5. lia. }
      cbn [fst snd CreateResultObject]. split.
      * unfold bracket_ok.
        cbn [g_speedWindow g_globalMax g_globalMin g_sampleCount].
        split; [ | split; [ lia | ] ].
        -- intro H5. assert (E5 : (5 <? g_sampleCount s + 1)%Z = false)
             by (apply Z.ltb_ge; lia).
           rewrite E5. apply Hsent. lia.
        -- destruct (push_window_cons (g_speedWindow s) inst) as (x & l & Hw).
           pose proof (push_window_last (g_speedWindow s) inst) as Hl.
           rewrite Hw in *. rewrite Hl. split; [ exact Hmax' | exact Hmin' ].
      * unfold bracketed. cbn [instantKbps maxKbps minKbps].
        rewrite (reported_min_below _ _ Hmin' Hrate), Hmax'. reflexivity.
Qed.

Lemma bracket_ok_exec : forall (cs : list call) (s : State),
  rates_ok s -> bracket_ok s -> forallb valid_call cs = true ->
  forallb bracketed (snapshots (run s cs)) = true.
Proof.
  induction cs as [| c cs IH]; intros s Hr Hb Hv; [ reflexivity | ].
  cbn [forallb] in Hv. apply andb_true_iff in Hv. destruct Hv as [Hc Hv].
  cbn [run]. destruct c as [now n | now]; cbn [valid_call do_call fst snd] in *.
  - destruct (rates_ok_step s now n Hr Hc) as [Hr' _].
    destruct (bracket_ok_step s now n Hr Hb Hc) as [Hb' Hsnap].
    specialize (IH _ Hr' Hb' Hv).
    destruct (snd (ProcessTrafficCore s now n)); cbn [snapshots forallb];
      try exact IH.
    rewrite Hsnap, IH. reflexivity.
  - cbn [snapshots]. apply IH; [ | | exact Hv ].
    + apply (rates_ok_exec [CallReset now] s Hr).
      cbn [forallb valid_call]. rewrite Hc. reflexivity.
    + unfold bracket_ok. cbn. split; [ reflexivity | split; [ lia | reflexivity ] ].
Qed.

(** X20: the extremes bracket the rate. For calls the platform can make,
    resets included, every snapshot handed back has
    [minKbps <= instantKbps <= maxKbps]: on a computed tick and on a packet
    inside the 100 ms floor alike, before the minimum is written (it is
    handed back as 0) and after. *)
Theorem extremes_bracket_rate :
  forall cs : list call,
    forallb valid_call cs = true ->
    forallb bracketed (snapshots (run fresh cs)) = true.
Proof.
  intros cs Hv. apply (bracket_ok_exec cs fresh rates_ok_fresh); [ | exact Hv ].
  unfold bracket_ok. cbn. split; [ reflexivity | split; [ lia | reflexivity ] ].
Qed.

(** Seven packets 100 ms apart, a slower eighth and a packet inside the
    floor. *)
Lemma extremes_bracket_rate_witness :
  forallb bracketed
    (snapshots (run fresh (packets seven_packets
                             ++ [CallPacket 700000000%Z 500%Z;
                                 CallPacket 750000000%Z 10%Z]))) = true.
Proof.
  apply (extremes_bracket_rate
           (packets seven_packets
              ++ [CallPacket 700000000%Z 500%Z; CallPacket 750000000%Z 10%Z])).
  vm_compute. reflexivity.
Defined.

End Bracket.
